(** * uWave acoustic modem driver: shallow embedding of [uwave_interface.py]

    The development follows the layout of the Python module:

    - [PyStr]: the [str] methods the driver calls ([split], [lstrip],
      [strip], [startswith], slicing, [in]);
    - the sentence codec ([calculate_nmea_checksum], [format_command],
      [parse_puwv3], [parse_puwve], [parse_puwv_bang]);
    - the numeric interface of Python floats, with an exact instance over
      the reals and an executable binary64 instance;
    - the metrics ([calculate_sound_velocity], [calculate_slant_range],
      [calculate_horizontal_distance], [calculate_velocity]);
    - the command exchange ([send_command]) over an explicit serial link,
      clock, log file and CSV file;
    - connection management ([list_available_ports], [connect],
      [disconnect]) over the ports the system lists and an oracle for
      opening one;
    - the queries built on the exchange ([get_device_info],
      [get_packet_mode_settings], [get_remote_data],
      [monitor_remote_temperature]) and the entry point [main], with the
      answers typed at its prompts as parameters.

    A Python [str] is a [string]: characters are code points below 256,
    which covers the ASCII alphabet the serial link carries
    ([encode("ascii")] rejects anything above 127); the sentence codec is
    also given on text of any code points.  Output written with [print],
    the time spent in [time.sleep] and failures of the serial port or of
    the two files are not part of the model. *)

From Stdlib Require Import ZArith NArith Bool List String Ascii Lia.
From Stdlib Require Import DecimalString Permutation.
From Stdlib Require Import Reals Lra.
From Stdlib Require Floats.PrimFloat Floats.FloatOps Floats.SpecFloat.
From Stdlib Require Numbers.Cyclic.Int63.PrimInt63.
Import ListNotations.

Set Implicit Arguments.

(** ** Exceptions and results *)

(** The exceptions the modelled code can raise. *)
Inductive exn : Type :=
| IndexError
| ValueError
| OverflowError
| UnicodeEncodeError.

(** The outcome of a computation that either returns or raises. *)
Inductive result (A : Type) : Type :=
| Ok (a : A)
| Raise (e : exn).

Arguments Ok {A} a.
Arguments Raise {A} e.

Definition rbind {A B : Type} (r : result A) (k : A -> result B) : result B :=
  match r with
  | Ok a => k a
  | Raise e => Raise e
  end.

Declare Scope result_scope.
Delimit Scope result_scope with result.
Notation "x <- r ;; k" := (rbind r (fun x => k))
  (at level 61, r at next level, right associativity) : result_scope.

(** [try: ... except Exception: return None]. *)
Definition try_except {A : Type} (r : result A) : option A :=
  match r with
  | Ok a => Some a
  | Raise _ => None
  end.

(** ** Python [str] methods *)

Module PyStr.

Open Scope string_scope.

(** [s.split(sep)] for a one-character separator: never empty. *)
Fixpoint split (sep : ascii) (s : string) : list string :=
  match s with
  | EmptyString => [EmptyString]
  | String c s' =>
      if Ascii.eqb c sep then EmptyString :: split sep s'
      else match split sep s' with
           | [] => [String c EmptyString]
           | w :: ws => String c w :: ws
           end
  end.

(** [s.lstrip(c)] for a one-character set: drops every leading [c]. *)
Fixpoint lstrip (c : ascii) (s : string) : string :=
  match s with
  | EmptyString => EmptyString
  | String a s' => if Ascii.eqb a c then lstrip c s' else s
  end.

(** [c in s]. *)
Fixpoint contains (c : ascii) (s : string) : bool :=
  match s with
  | EmptyString => false
  | String a s' => Ascii.eqb a c || contains c s'
  end.

(** [s.startswith(p)]. *)
Definition startswith (p s : string) : bool := String.prefix p s.

(** [s[:n]]. *)
Fixpoint take (n : nat) (s : string) : string :=
  match n, s with
  | S n', String c s' => String c (take n' s')
  | _, _ => EmptyString
  end.

(** [parts[i]]: [IndexError] past the end. *)
Definition index {A : Type} (l : list A) (i : nat) : result A :=
  match nth_error l i with
  | Some a => Ok a
  | None => Raise IndexError
  end.

(** Truth value of a [str]: non-empty. *)
Definition truthy (s : string) : bool :=
  match s with
  | EmptyString => false
  | String _ _ => true
  end.

(** Characters [str.strip()] removes, among code points below 256: tab to
    carriage return, the four separators, space, next-line and no-break
    space. *)
Definition is_space (c : ascii) : bool :=
  let n := N_of_ascii c in
  ((9 <=? n) && (n <=? 13) || (28 <=? n) && (n <=? 32)
   || (n =? 133) || (n =? 160))%N.

Fixpoint lstrip_space (s : string) : string :=
  match s with
  | EmptyString => EmptyString
  | String a s' => if is_space a then lstrip_space s' else s
  end.

Fixpoint rstrip_space (s : string) : string :=
  match s with
  | EmptyString => EmptyString
  | String a s' =>
      match rstrip_space s' with
      | EmptyString => if is_space a then EmptyString else String a EmptyString
      | r => String a r
      end
  end.

(** [s.strip()]. *)
Definition strip (s : string) : string := rstrip_space (lstrip_space s).

(** [b.decode("ascii", errors="ignore")]: bytes above 127 are dropped. *)
Fixpoint decode_ascii_ignore (b : string) : string :=
  match b with
  | EmptyString => EmptyString
  | String a b' =>
      if (N_of_ascii a <? 128)%N then String a (decode_ascii_ignore b')
      else decode_ascii_ignore b'
  end.

(** [s.encode("ascii")]: raises on a code point above 127. *)
Fixpoint encode_ascii (s : string) : result string :=
  match s with
  | EmptyString => Ok EmptyString
  | String a s' =>
      if (N_of_ascii a <? 128)%N then
        match encode_ascii s' with
        | Ok b => Ok (String a b)
        | Raise e => Raise e
        end
      else Raise UnicodeEncodeError
  end.

(** One uppercase hexadecimal digit. *)
Definition hex_digit (n : N) : ascii :=
  if (n <? 10)%N then ascii_of_N (48 + n) else ascii_of_N (55 + n).

Fixpoint hex_digits (fuel : nat) (n : N) (acc : string) : string :=
  match fuel with
  | O => acc
  | S f =>
      let acc' := String (hex_digit (n mod 16)) acc in
      if (n / 16 =? 0)%N then acc' else hex_digits f (n / 16) acc'
  end.

(** ["{:X}".format(n)]. *)
Definition format_X (n : N) : string :=
  hex_digits (S (N.to_nat (N.log2 n))) n EmptyString.

(** ["{:02X}".format(n)]: zero-padded to a width of two. *)
Definition format_02X (n : N) : string :=
  let s := format_X n in
  if (String.length s <? 2)%nat then String "0" s else s.

(** Value of an uppercase hexadecimal digit. *)
Definition hex_value (c : ascii) : option N :=
  let n := N_of_ascii c in
  if ((48 <=? n) && (n <=? 57))%N then Some (n - 48)%N
  else if ((65 <=? n) && (n <=? 70))%N then Some (n - 55)%N
  else None.

End PyStr.

(** ** Sentence codec: checksum and command framing *)

Open Scope string_scope.

(** The running XOR of [calculate_nmea_checksum]'s loop, on text of code
    points below 256 ([Wide.xor_ords] is the loop on any text). *)
Fixpoint xor_ords (checksum : N) (s : string) : N :=
  match s with
  | EmptyString => checksum
  | String char s' => xor_ords (N.lxor checksum (N_of_ascii char)) s'
  end.

(** [sentence.lstrip("$").split("*")[0]]. *)
Definition checksum_part (sentence : string) : string :=
  hd EmptyString (PyStr.split "*" (PyStr.lstrip "$" sentence)).

Definition calculate_nmea_checksum (sentence : string) : string :=
  PyStr.format_02X (xor_ords 0 (checksum_part sentence)).

Definition format_command (command : string) (include_checksum : bool) : string :=
  if negb include_checksum || PyStr.contains "*" command then command
  else command ++ "*" ++ calculate_nmea_checksum command.

(** The payload in the words of the specification: the characters strictly
    between an optional leading sentinel and the checksum delimiter. *)
Definition spec_payload (text : string) : string :=
  let body := match text with
              | String c rest => if Ascii.eqb c "$" then rest else text
              | EmptyString => text
              end in
  hd EmptyString (PyStr.split "*" body).

(** ** The sentence codec on text of any code points

    [format_command] also receives text that is never encoded for the
    port (the GUI frames what the user typed while the port is closed),
    and a [str] may hold any code point.  Here a [str] is the list of its
    code points; [of_string] embeds the strings of code points below 256
    used everywhere else.  On the way to the port the difference does not
    show: [encode("ascii")] refuses every code point above 127 alike. *)
Module Wide.

Definition str : Type := list N.

Definition of_string (s : string) : str :=
  map N_of_ascii (list_ascii_of_string s).

Definition dollar : N := N_of_ascii "$".
Definition star : N := N_of_ascii "*".

(** [s.split(sep)] for a one-character separator. *)
Fixpoint split (sep : N) (s : str) : list str :=
  match s with
  | [] => [[]]
  | c :: s' =>
      if (c =? sep)%N then [] :: split sep s'
      else match split sep s' with
           | [] => [[c]]
           | w :: ws => (c :: w) :: ws
           end
  end.

(** [s.lstrip(c)] for a one-character set. *)
Fixpoint lstrip (c : N) (s : str) : str :=
  match s with
  | [] => []
  | a :: s' => if (a =? c)%N then lstrip c s' else s
  end.

(** [c in s]. *)
Fixpoint contains (c : N) (s : str) : bool :=
  match s with
  | [] => false
  | a :: s' => (a =? c)%N || contains c s'
  end.

(** The running XOR of [calculate_nmea_checksum]'s loop, over [ord(char)]. *)
Fixpoint xor_ords (checksum : N) (s : str) : N :=
  match s with
  | [] => checksum
  | char :: s' => xor_ords (N.lxor checksum char) s'
  end.

Definition checksum_part (sentence : str) : str :=
  hd [] (split star (lstrip dollar sentence)).

Definition calculate_nmea_checksum (sentence : str) : str :=
  of_string (PyStr.format_02X (xor_ords 0 (checksum_part sentence))).

Definition format_command (command : str) (include_checksum : bool) : str :=
  if negb include_checksum || contains star command then command
  else (command ++ star :: calculate_nmea_checksum command)%list.

(** The payload in the words of the specification. *)
Definition spec_payload (text : str) : str :=
  let body := match text with
              | c :: rest => if (c =? dollar)%N then rest else text
              | [] => text
              end in
  hd [] (split star body).

(** [s.startswith("$$")]. *)
Definition double_sentinel (text : str) : bool :=
  match text with
  | a :: b :: _ => (a =? dollar)%N && (b =? dollar)%N
  | _ => false
  end.

End Wide.

(** ** The numeric interface of Python floats *)

(** What the driver asks of a float: decimal literals, the four operations,
    [abs], ordering, [**] with a small integer exponent (which raises
    [OverflowError] when a finite base gives an infinite power) and
    [math.sqrt] (which raises [ValueError] below zero).  [None] stands for
    the raised exception. *)
Class PyArith (F : Type) : Type := {
  of_dec : Z -> nat -> F;
  fadd : F -> F -> F;
  fsub : F -> F -> F;
  fmul : F -> F -> F;
  fdiv : F -> F -> F;
  fabs : F -> F;
  fle : F -> F -> bool;
  fpow : F -> nat -> option F;
  fsqrt : F -> option F
}.

(** The builtin [float(s)] on a [str]; [None] stands for [ValueError]. *)
Class PyParse (F : Type) : Type := {
  float_of_string : string -> option F
}.

Declare Scope py_scope.
Delimit Scope py_scope with py.
Infix "+" := fadd : py_scope.
Infix "-" := fsub : py_scope.
Infix "*" := fmul : py_scope.
Infix "/" := fdiv : py_scope.
Infix "<=?" := fle : py_scope.

(** [m E- k]: the decimal literal with mantissa [m] and [k] fractional
    digits, so [1448.96] is [144896 E- 2] and [7.139e-13] is [7139 E- 16]. *)
Notation "m 'E-' k" := (of_dec m%Z k%nat) (at level 1, no associativity) : py_scope.

Definition raise_if_none {A : Type} (e : exn) (o : option A) : result A :=
  match o with
  | Some a => Ok a
  | None => Raise e
  end.

(** [x ** n]. *)
Definition pow {F : Type} `{PyArith F} (x : F) (n : nat) : result F :=
  raise_if_none OverflowError (fpow x n).

(** [math.sqrt(x)]. *)
Definition math_sqrt {F : Type} `{PyArith F} (x : F) : result F :=
  raise_if_none ValueError (fsqrt x).

(** [float(s)]. *)
Definition float {F : Type} `{PyParse F} (s : string) : result F :=
  raise_if_none ValueError (float_of_string s).

(** *** Exact instance: the reals

    The arithmetic read exactly: nothing rounds and no power overflows.
    It says which number a formula of the source denotes; what the
    program computes is stated over every arithmetic, or in binary64. *)

Definition Rleb (a b : R) : bool := if Rle_dec a b then true else false.

#[export] Instance R_arith : PyArith R := {
  of_dec m k := (IZR m / 10 ^ k)%R;
  fadd := Rplus;
  fsub := Rminus;
  fmul := Rmult;
  fdiv := Rdiv;
  fabs := Rabs;
  fle := Rleb;
  fpow x n := Some (x ^ n)%R;
  fsqrt x := if Rlt_dec x 0 then None else Some (sqrt x)
}.

(** *** Executable instance: IEEE 754 binary64 *)

Module Binary64.

Import PrimInt63.

Definition int_one : PrimInt63.int := 1%uint63.

Fixpoint int_of_pos (p : positive) : PrimInt63.int :=
  match p with
  | xH => int_one
  | xO q => PrimInt63.lsl (int_of_pos q) int_one
  | xI q => PrimInt63.lor (PrimInt63.lsl (int_of_pos q) int_one) int_one
  end.

Definition int_of_N (n : N) : PrimInt63.int :=
  match n with
  | N0 => 0%uint63
  | Npos p => int_of_pos p
  end.

(** The nearest binary64 value (ties to even) of the fraction [p / q],
    for [0 < p]: a 53-bit significand [m] and an exponent [e] no smaller
    than that of the subnormals, put together by [ldshiftexp]. *)
Definition round_ratio (p : positive) (q : positive) : PrimFloat.float :=
  let d := (Z.log2 (Zpos p) - Z.log2 (Zpos q))%Z in
  let scaled (e : Z) : Z * Z :=
    if (0 <=? e)%Z then (Zpos p, Zpos q * 2 ^ e)%Z
    else (Zpos p * 2 ^ (- e), Zpos q)%Z in
  let e0 := (d - 52)%Z in
  let e1 := (let '(n, m) := scaled e0 in
             if (m * 2 ^ 52 <=? n)%Z then e0 else e0 - 1)%Z in
  let e := Z.max e1 (-1074) in
  if (1100 <? e)%Z then PrimFloat.infinity
  else
    let '(num, den) := scaled e in
    let m := (num / den)%Z in
    let r := (num mod den)%Z in
    let m' := (if (den <? 2 * r)%Z then m + 1
               else if (den =? 2 * r)%Z && Z.odd m then m + 1
               else m)%Z in
    PrimFloat.ldshiftexp (PrimFloat.of_uint63 (int_of_N (Z.to_N m')))
                         (int_of_N (Z.to_N (e + 2101))).

(** The nearest binary64 value of [(-1)^neg * n / q]. *)
Definition of_ratio (neg : bool) (n : N) (q : positive) : PrimFloat.float :=
  let a := match n with
           | N0 => PrimFloat.zero
           | Npos p => round_ratio p q
           end in
  if neg then PrimFloat.opp a else a.

(** The nearest binary64 value of [m * 10^e10]. *)
Definition of_decimal (neg : bool) (m : N) (e10 : Z) : PrimFloat.float :=
  if (0 <=? e10)%Z then of_ratio neg (m * 10 ^ Z.to_N e10) 1
  else of_ratio neg m (Z.to_pos (10 ^ (- e10))).

Fixpoint pow_mul (x : PrimFloat.float) (n : nat) : PrimFloat.float :=
  match n with
  | O => PrimFloat.one
  | S O => x
  | S n' => PrimFloat.mul (pow_mul x n') x
  end.

(** The power the C library's [pow] returns for an integer exponent: the
    exact power of a finite base rounded once, to nearest ([pow] is
    accurate to within its last digit); zeros, infinities and [nan] follow
    the multiplication. *)
Definition pow_rounded (x : PrimFloat.float) (n : nat) : PrimFloat.float :=
  match FloatOps.Prim2SF x with
  | SpecFloat.S754_finite neg m e =>
      let p := Pos.pow m (Pos.of_nat n) in
      let e := (Z.of_nat n * e)%Z in
      let r := match n with
               | O => PrimFloat.one
               | _ => if (0 <=? e)%Z then round_ratio (p * Z.to_pos (2 ^ e)) 1
                      else round_ratio p (Z.to_pos (2 ^ (- e)))
               end in
      if neg && Nat.odd n then PrimFloat.opp r else r
  | _ => pow_mul x n
  end.

(** [x ** n] as CPython's [float_pow] reports it: a finite base whose power
    is infinite raises [OverflowError]; a power that underflows is zero. *)
Definition pow_checked (x : PrimFloat.float) (n : nat) : option PrimFloat.float :=
  let r := pow_rounded x n in
  if PrimFloat.is_finite x && PrimFloat.is_infinity r then None else Some r.

(** [math.sqrt]: a domain error below zero, [nan] and [-0.0] pass through. *)
Definition sqrt_checked (x : PrimFloat.float) : option PrimFloat.float :=
  if PrimFloat.ltb x PrimFloat.zero then None else Some (PrimFloat.sqrt x).

End Binary64.

#[export] Instance float_arith : PyArith PrimFloat.float := {
  of_dec m k := Binary64.of_ratio (m <? 0)%Z (Z.abs_N m) (Z.to_pos (10 ^ Z.of_nat k));
  fadd := PrimFloat.add;
  fsub := PrimFloat.sub;
  fmul := PrimFloat.mul;
  fdiv := PrimFloat.div;
  fabs := PrimFloat.abs;
  fle := PrimFloat.leb;
  fpow := Binary64.pow_checked;
  fsqrt := Binary64.sqrt_checked
}.

(** *** The grammar of [float(s)] *)

Module FloatLiteral.

(** What a string accepted by [float] denotes. *)
Inductive literal : Type :=
| Dec (neg : bool) (mantissa : N) (exp10 : Z)
| Inf (neg : bool)
| NaN.

Definition digit_value (c : ascii) : option N :=
  let n := N_of_ascii c in
  if ((48 <=? n) && (n <=? 57))%N then Some (n - 48)%N else None.

(** The tail of [digitpart ::= digit (["_"] digit)*], after its first
    digit: the value read so far, the number of digits and what is left. *)
Fixpoint digitpart_rest (acc : N) (cnt : nat) (s : string) : N * nat * string :=
  match s with
  | EmptyString => (acc, cnt, s)
  | String c s' =>
      match digit_value c with
      | Some d => digitpart_rest (10 * acc + d) (S cnt) s'
      | None =>
          if Ascii.eqb c "_" then
            match s' with
            | String c' s'' =>
                match digit_value c' with
                | Some d => digitpart_rest (10 * acc + d) (S cnt) s''
                | None => (acc, cnt, s)
                end
            | EmptyString => (acc, cnt, s)
            end
          else (acc, cnt, s)
      end
  end.

Definition digitpart (acc : N) (s : string) : option (N * nat * string) :=
  match s with
  | EmptyString => None
  | String c s' =>
      match digit_value c with
      | Some d => Some (digitpart_rest (10 * acc + d) 1 s')
      | None => None
      end
  end.

(** [number ::= [digitpart] "." digitpart | digitpart ["."]]: the digits
    read as one integer, and how many of them follow the point. *)
Definition number (s : string) : option (N * nat * string) :=
  match digitpart 0 s with
  | Some (m, _, rest) =>
      match rest with
      | String "." rest' =>
          match digitpart m rest' with
          | Some r => Some r
          | None => Some (m, O, rest')
          end
      | _ => Some (m, O, rest)
      end
  | None =>
      match s with
      | String "." rest' => digitpart 0 rest'
      | _ => None
      end
  end.

Definition sign (s : string) : bool * string :=
  match s with
  | String "-" s' => (true, s')
  | String "+" s' => (false, s')
  | _ => (false, s)
  end.

(** [exponent ::= ("e" | "E") [sign] digitpart], up to the end. *)
Definition exponent (s : string) : option Z :=
  match s with
  | EmptyString => Some 0%Z
  | String c s' =>
      if Ascii.eqb c "e" || Ascii.eqb c "E" then
        let '(neg, s'') := sign s' in
        match digitpart 0 s'' with
        | Some (e, _, EmptyString) =>
            Some (if neg then - Z.of_N e else Z.of_N e)%Z
        | _ => None
        end
      else None
  end.

Definition lower (c : ascii) : ascii :=
  let n := N_of_ascii c in
  if ((65 <=? n) && (n <=? 90))%N then ascii_of_N (n + 32) else c.

Fixpoint lowercase (s : string) : string :=
  match s with
  | EmptyString => EmptyString
  | String c s' => String (lower c) (lowercase s')
  end.

(** The white space [float] skips at both ends: tab to carriage return
    and space, and the two white-space characters above 127 (next-line and
    no-break space), which [float] turns into spaces first.  The
    separators 0x1c to 0x1f, which [str.strip] removes, are not among
    them. *)
Definition is_space (c : ascii) : bool :=
  let n := N_of_ascii c in
  ((9 <=? n) && (n <=? 13) || (n =? 32) || (n =? 133) || (n =? 160))%N.

Fixpoint lstrip_space (s : string) : string :=
  match s with
  | EmptyString => EmptyString
  | String a s' => if is_space a then lstrip_space s' else s
  end.

Fixpoint rstrip_space (s : string) : string :=
  match s with
  | EmptyString => EmptyString
  | String a s' =>
      match rstrip_space s' with
      | EmptyString => if is_space a then EmptyString else String a EmptyString
      | r => String a r
      end
  end.

(** [floatvalue ::= [sign] (floatnumber | infinity | nan)], between
    optional white space. *)
Definition parse (s : string) : option literal :=
  let '(neg, body) := sign (rstrip_space (lstrip_space s)) in
  let word := lowercase body in
  if String.eqb word "inf" || String.eqb word "infinity" then Some (Inf neg)
  else if String.eqb word "nan" then Some NaN
  else
    match number body with
    | Some (m, k, rest) =>
        match exponent rest with
        | Some e => Some (Dec neg m (e - Z.of_nat k))
        | None => None
        end
    | None => None
    end.

End FloatLiteral.

Definition float_of_literal (l : FloatLiteral.literal) : PrimFloat.float :=
  match l with
  | FloatLiteral.Dec neg m e => Binary64.of_decimal neg m e
  | FloatLiteral.Inf neg =>
      if neg then PrimFloat.neg_infinity else PrimFloat.infinity
  | FloatLiteral.NaN => PrimFloat.nan
  end.

#[export] Instance float_parse : PyParse PrimFloat.float := {
  float_of_string s := option_map float_of_literal (FloatLiteral.parse s)
}.

(** ** The monitor object *)

(** The [serial.Serial] handle: all the driver tests is whether it is open. *)
Record Serial : Type := { is_open : bool }.

(** A point in time ([datetime]), in microseconds. *)
Definition datetime : Type := Z.

(** The fields of [UwaveMonitor] that its methods read or assign after
    construction ([port], [baudrate] and [timeout] only configure
    [connect]). *)
Record UwaveMonitor (F : Type) : Type := {
  ser : option Serial;
  last_range : option F;
  last_range_time : option datetime;
  salinity : F
}.

Arguments ser {F} _.
Arguments last_range {F} _.
Arguments last_range_time {F} _.
Arguments salinity {F} _.

Definition set_salinity {F : Type} (self : UwaveMonitor F) (s : F) : UwaveMonitor F :=
  {| ser := ser self;
     last_range := last_range self;
     last_range_time := last_range_time self;
     salinity := s |}.

Definition set_last {F : Type} (self : UwaveMonitor F) (r : F) (t : datetime) : UwaveMonitor F :=
  {| ser := ser self;
     last_range := Some r;
     last_range_time := Some t;
     salinity := salinity self |}.

(** ** Sentence codec: decoding *)

(** The dictionary returned by [parse_puwv3]. *)
Record puwv3 : Type := {
  cmd_type : string;
  remote_addr : string;
  cmd_id : string;
  prop_time : string;
  signal_quality : string;
  value : string;
  azimuth : string
}.

(** The dictionary returned by [parse_puwve]. *)
Record puwve : Type := {
  e_cmd_type : string;
  is_pt_mode : string;
  pt_local_address : string
}.

(** The dictionary returned by [parse_puwv_bang]. *)
Record puwv_bang : Type := {
  b_cmd_type : string;
  serial_number : string;
  system_moniker : string;
  system_version : string;
  core_moniker : string;
  core_version : string;
  baudrate : string;
  rx_channel : string;
  tx_channel : string;
  max_channels : string;
  b_salinity : string;
  has_pts : string;
  cmd_mode : string
}.

Open Scope result_scope.

(** [response.split("*")[0].split(",")]. *)
Definition fields (response : string) : result (list string) :=
  head <- PyStr.index (PyStr.split "*" response) 0 ;;
  Ok (PyStr.split "," head).

(** The [try] block of [parse_puwv3]. *)
Definition parse_puwv3_body (response : string) : result puwv3 :=
  parts <- fields response ;;
  p0 <- PyStr.index parts 0 ;;
  let cmd_type := PyStr.take 5 p0 in
  remote_addr <- PyStr.index parts 1 ;;
  cmd_id <- PyStr.index parts 2 ;;
  prop_time <- PyStr.index parts 3 ;;
  signal_quality <- PyStr.index parts 4 ;;
  value <- (if (5 <? List.length parts)%nat then PyStr.index parts 5 else Ok "") ;;
  azimuth <- (if (6 <? List.length parts)%nat then PyStr.index parts 6 else Ok "") ;;
  Ok {| cmd_type := cmd_type;
        remote_addr := remote_addr;
        cmd_id := cmd_id;
        prop_time := prop_time;
        signal_quality := signal_quality;
        value := value;
        azimuth := azimuth |}.

Definition parse_puwv3 (response : string) : option puwv3 :=
  try_except (parse_puwv3_body response).

(** The [try] block of [parse_puwve]. *)
Definition parse_puwve_body (response : string) : result puwve :=
  parts <- fields response ;;
  p0 <- PyStr.index parts 0 ;;
  let cmd_type := PyStr.take 5 p0 in
  is_pt_mode <- PyStr.index parts 1 ;;
  pt_local_address <- PyStr.index parts 2 ;;
  Ok {| e_cmd_type := cmd_type;
        is_pt_mode := is_pt_mode;
        pt_local_address := pt_local_address |}.

Definition parse_puwve (response : string) : option puwve :=
  try_except (parse_puwve_body response).

Section DeviceInfo.

Context {F : Type} `{PyParse F}.

(** The [try] block of [parse_puwv_bang]: the thirteen fields, then the
    assignment [self.salinity = float(salinity)], then the dictionary. *)
Definition parse_puwv_bang_body (self : UwaveMonitor F) (response : string)
  : result (UwaveMonitor F * puwv_bang) :=
  parts <- fields response ;;
  p0 <- PyStr.index parts 0 ;;
  let cmd_type := PyStr.take 5 p0 in
  serial_number <- PyStr.index parts 1 ;;
  system_moniker <- PyStr.index parts 2 ;;
  system_version <- PyStr.index parts 3 ;;
  core_moniker <- PyStr.index parts 4 ;;
  core_version <- PyStr.index parts 5 ;;
  baudrate <- PyStr.index parts 6 ;;
  rx_channel <- PyStr.index parts 7 ;;
  tx_channel <- PyStr.index parts 8 ;;
  max_channels <- PyStr.index parts 9 ;;
  salinity <- PyStr.index parts 10 ;;
  has_pts <- PyStr.index parts 11 ;;
  cmd_mode <- PyStr.index parts 12 ;;
  s <- float salinity ;;
  let self := set_salinity self s in
  Ok (self,
      {| b_cmd_type := cmd_type;
         serial_number := serial_number;
         system_moniker := system_moniker;
         system_version := system_version;
         core_moniker := core_moniker;
         core_version := core_version;
         baudrate := baudrate;
         rx_channel := rx_channel;
         tx_channel := tx_channel;
         max_channels := max_channels;
         b_salinity := salinity;
         has_pts := has_pts;
         cmd_mode := cmd_mode |}).

(** [parse_puwv_bang]: the monitor after the call and the value returned.
    Nothing is assigned before the last statement that can raise, so the
    [except] branch leaves the monitor as it was. *)
Definition parse_puwv_bang (self : UwaveMonitor F) (response : string)
  : UwaveMonitor F * option puwv_bang :=
  match parse_puwv_bang_body self response with
  | Ok (self', parsed) => (self', Some parsed)
  | Raise _ => (self, None)
  end.

End DeviceInfo.

(** ** Metrics *)

Section Metrics.

Context {F : Type} `{PyArith F}.

Open Scope py_scope.

Definition DEFAULT_SALINITY : F := 0 E- 1.
Definition DEFAULT_DEPTH : F := 0 E- 1.

(** The monitor built by [__init__]. *)
Definition init : UwaveMonitor F :=
  {| ser := None;
     last_range := None;
     last_range_time := None;
     salinity := DEFAULT_SALINITY |}.

(** Mackenzie's equation, accumulated in the three steps of the source. *)
Definition calculate_sound_velocity (self : UwaveMonitor F) (temperature : F)
  (salinity_arg depth_arg : option F) : result F :=
  let salinity := match salinity_arg with
                  | None => salinity self
                  | Some s => s
                  end in
  let depth := match depth_arg with
               | None => DEFAULT_DEPTH
               | Some d => d
               end in
  (t2 <- pow temperature 2 ;;
   t3 <- pow temperature 3 ;;
   let c := 144896 E- 2 + 4591 E- 3 * temperature - 5304 E- 5 * t2 + 2374 E- 7 * t3 in
   d2 <- pow depth 2 ;;
   let c := c + (1340 E- 3 * (salinity - 35 E- 0) + 163 E- 4 * depth + 1675 E- 10 * d2) in
   d3 <- pow depth 3 ;;
   let c := c + ((-1025) E- 5 * temperature * (salinity - 35 E- 0)
                 - 7139 E- 16 * temperature * d3) in
   Ok c)%result.

(** [abs(float(propagation_time)) * sound_velocity / 2], on a float. *)
Definition calculate_slant_range (propagation_time sound_velocity : F) : F :=
  fabs propagation_time * sound_velocity / 2 E- 0.

Definition calculate_horizontal_distance (slant_range depth_difference : F) : result F :=
  if slant_range <=? fabs depth_difference then Ok 0 E- 0
  else
    (s2 <- pow slant_range 2 ;;
     d2 <- pow depth_difference 2 ;;
     math_sqrt (s2 - d2))%result.

(** [timedelta.total_seconds()] of a difference in microseconds. *)
Definition total_seconds (delta : Z) : F := of_dec delta 6.

(** [calculate_velocity]: the value returned and the monitor afterwards. *)
Definition calculate_velocity (self : UwaveMonitor F) (current_range : F)
  (current_time : datetime) : F * UwaveMonitor F :=
  match last_range self, last_range_time self with
  | Some last, Some last_time =>
      let time_diff := total_seconds (current_time - last_time) in
      if time_diff <=? 0 E- 0 then (0 E- 0, self)
      else
        let velocity := (current_range - last) / time_diff in
        (velocity, set_last self current_range current_time)
  | _, _ => (0 E- 0, set_last self current_range current_time)
  end.

End Metrics.

(** ** The command exchange *)

(** A line of the log file. *)
Inductive log_line : Type :=
| TX (timestamp : datetime) (command : string)
| RX (timestamp : datetime) (response : string).

(** A row of the CSV file, in the column order of its header; the three
    derived metrics are kept as numbers rather than as their four-decimal
    renderings. *)
Record row (F : Type) : Type := {
  row_timestamp : datetime;
  row_command : string;
  row_response_type : string;
  row_remote_addr : string;
  row_cmd_id : string;
  row_prop_time : F;
  row_signal_quality : F;
  row_value : F;
  row_slant_range : F;
  row_horiz_dist : F;
  row_velocity : F
}.

(** What the driver has done to its surroundings: how many lines it has
    asked of the serial port, what it wrote to it, how many times it read
    the clock, and what it appended to the two files (oldest first). *)
Record World (F : Type) : Type := {
  reads : nat;
  written : list string;
  ticks : nat;
  log_file : list log_line;
  csv_file : list (row F)
}.

Arguments reads {F} _.
Arguments written {F} _.
Arguments ticks {F} _.
Arguments log_file {F} _.
Arguments csv_file {F} _.

Section Exchange.

Context {F : Type} `{PyArith F} `{PyParse F}.

(** The surroundings: [readline k] is the byte string the serial port
    returns to the [k]-th call of [ser.readline()] (empty when the read
    times out) and [clock k] is what the [k]-th call of [datetime.now()]
    returns. *)
Variable readline : nat -> string.
Variable clock : nat -> datetime.

Definition state : Type := (UwaveMonitor F * World F)%type.

(** Computations of the exchange: they may change the monitor and the
    world, and may raise. *)
Definition exch (A : Type) : Type := state -> result A * state.

Definition ret {A : Type} (a : A) : exch A := fun s => (Ok a, s).

Definition ebind {A B : Type} (m : exch A) (k : A -> exch B) : exch B :=
  fun s =>
    match m s with
    | (Ok a, s') => k a s'
    | (Raise e, s') => (Raise e, s')
    end.

Definition lift {A : Type} (r : result A) : exch A := fun s => (r, s).

Declare Scope exch_scope.
Delimit Scope exch_scope with exch.
Notation "x <- m ;; k" := (ebind m (fun x => k))
  (at level 61, m at next level, right associativity) : exch_scope.

Definition on_world (f : World F -> World F) : exch unit :=
  fun '(self, w) => (Ok tt, (self, f w)).

(** [datetime.now()]. *)
Definition datetime_now : exch datetime :=
  fun '(self, w) =>
    (Ok (clock (ticks w)),
     (self, {| reads := reads w;
               written := written w;
               ticks := S (ticks w);
               log_file := log_file w;
               csv_file := csv_file w |})).

(** [self.ser.readline().decode("ascii", errors="ignore").strip()]. *)
Definition read_line : exch string :=
  fun '(self, w) =>
    (Ok (PyStr.strip (PyStr.decode_ascii_ignore (readline (reads w)))),
     (self, {| reads := S (reads w);
               written := written w;
               ticks := ticks w;
               log_file := log_file w;
               csv_file := csv_file w |})).

(** [self.ser.write(text.encode("ascii"))]. *)
Definition ser_write (text : string) : exch unit :=
  fun '(self, w) =>
    match PyStr.encode_ascii text with
    | Ok bytes =>
        (Ok tt,
         (self, {| reads := reads w;
                   written := (written w ++ [bytes])%list;
                   ticks := ticks w;
                   log_file := log_file w;
                   csv_file := csv_file w |}))
    | Raise e => (Raise e, (self, w))
    end.

Definition append_log (l : log_line) (w : World F) : World F :=
  {| reads := reads w;
     written := written w;
     ticks := ticks w;
     log_file := (log_file w ++ [l])%list;
     csv_file := csv_file w |}.

Definition append_csv (r : row F) (w : World F) : World F :=
  {| reads := reads w;
     written := written w;
     ticks := ticks w;
     log_file := log_file w;
     csv_file := (csv_file w ++ [r])%list |}.

Definition truthy_opt (o : option string) : bool :=
  match o with
  | Some s => PyStr.truthy s
  | None => false
  end.

Definition log_communication (command : option string) (response : string)
  (timestamp : option datetime) : exch unit :=
  (timestamp <- match timestamp with
                | None => datetime_now
                | Some t => ret t
                end ;;
   _ <- match command with
        | Some c => if PyStr.truthy c then on_world (append_log (TX timestamp c))
                    else ret tt
        | None => ret tt
        end ;;
   if PyStr.truthy response then on_world (append_log (RX timestamp response))
   else ret tt)%exch.

Definition log_metrics (r : row F) : exch unit := on_world (append_csv r).

(** The call [self.calculate_velocity(slant_range, datetime.now())]. *)
Definition velocity_now (slant_range : F) : exch F :=
  (t <- datetime_now ;;
   fun '(self, w) =>
     let '(v, self') := calculate_velocity self slant_range t in
     (Ok v, (self', w)))%exch.

(** The body guarded by [parsed["cmd_id"] == "3" and parsed["value"]]. *)
Definition derive_metrics (full_command : string) (now : datetime)
  (parsed : puwv3) : exch unit :=
  (temp <- lift (float (value parsed)) ;;
   prop_time <- lift (float (prop_time parsed)) ;;
   sound_vel <- (fun '(self, w) =>
                   (calculate_sound_velocity self temp None None, (self, w))) ;;
   let slant_range := calculate_slant_range prop_time sound_vel in
   horiz_dist <- lift (calculate_horizontal_distance slant_range (0 E- 0)%py) ;;
   velocity <- velocity_now slant_range ;;
   signal_quality <- lift (float (signal_quality parsed)) ;;
   log_metrics {| row_timestamp := now;
                  row_command := full_command;
                  row_response_type := "PUWV3";
                  row_remote_addr := remote_addr parsed;
                  row_cmd_id := cmd_id parsed;
                  row_prop_time := prop_time;
                  row_signal_quality := signal_quality;
                  row_value := temp;
                  row_slant_range := slant_range;
                  row_horiz_dist := horiz_dist;
                  row_velocity := velocity |})%exch.

(** The first [if line.startswith("$PUWV3")] of the polling loop. *)
Definition on_puwv3 (full_command : string) (now : datetime) (line : string)
  : exch unit :=
  match parse_puwv3 line with
  | Some parsed =>
      if String.eqb (cmd_id parsed) "3" && PyStr.truthy (value parsed)
      then derive_metrics full_command now parsed
      else ret tt
  | None => ret tt
  end.

Definition max_timeout : nat := 5.

(** The [while timeout_count < max_timeout] loop.  [fuel] bounds the number
    of iterations; [None] means the loop was still running when it ran
    out. *)
Fixpoint wait_for_puwv3_loop (fuel : nat) (full_command : string)
  (now : datetime) (timeout_count : nat) (additional_responses : list string)
  (s : state) : option (result (list string) * state) :=
  match fuel with
  | O => None
  | S fuel' =>
      if (timeout_count <? max_timeout)%nat then
        match read_line s with
        | (Raise e, s) => Some (Raise e, s)
        | (Ok line, s) =>
            if PyStr.truthy line then
              let additional_responses := (additional_responses ++ [line])%list in
              match (if PyStr.startswith "$PUWV3" line
                     then on_puwv3 full_command now line
                     else ret tt) s with
              | (Raise e, s) => Some (Raise e, s)
              | (Ok _, s) =>
                  if PyStr.startswith "$PUWV3" line then
                    match log_communication None line (Some now) s with
                    | (Raise e, s) => Some (Raise e, s)
                    | (Ok _, s) => Some (Ok additional_responses, s)
                    end
                  else
                    wait_for_puwv3_loop fuel' full_command now timeout_count
                                        additional_responses s
              end
            else
              wait_for_puwv3_loop fuel' full_command now (S timeout_count)
                                  additional_responses s
        end
      else Some (Ok additional_responses, s)
  end.

Definition newline : string := String (ascii_of_nat 10) EmptyString.

(** [not self.ser or not self.ser.is_open]. *)
Definition port_closed (self : UwaveMonitor F) : bool :=
  match ser self with
  | None => true
  | Some handle => negb (is_open handle)
  end.

(** [send_command]: the pair returned (or the exception raised) and the
    monitor and world afterwards; [None] when the polling loop outlives
    [fuel]. *)
Definition send_command (fuel : nat) (command : string)
  (wait_for_response wait_for_puwv3 : bool) (s : state)
  : option (result (option string * list string) * state) :=
  if port_closed (fst s) then Some (Ok (None, []), s)
  else
    let full_command := format_command command true in
    match (_ <- ser_write (full_command ++ newline) ;; datetime_now)%exch s with
    | (Raise e, s) => Some (Raise e, s)
    | (Ok now, s) =>
        if wait_for_response then
          match (line <- read_line ;;
                 if PyStr.truthy line then
                   _ <- log_communication (Some full_command) line (Some now) ;;
                   ret (Some line)
                 else ret None)%exch s with
          | (Raise e, s) => Some (Raise e, s)
          | (Ok main_response, s) =>
              if wait_for_puwv3 && PyStr.startswith "$PUWV2" command then
                match wait_for_puwv3_loop fuel full_command now 0 [] s with
                | None => None
                | Some (Raise e, s) => Some (Raise e, s)
                | Some (Ok additional_responses, s) =>
                    Some (Ok (main_response, additional_responses), s)
                end
              else Some (Ok (main_response, []), s)
          end
        else Some (Ok (None, []), s)
    end.

End Exchange.

(** ** Connection management *)

(** An entry of [serial.tools.list_ports.comports()]. *)
Record port_info : Type := {
  device : string;
  description : string
}.

(** [needle in hay] for strings. *)
Fixpoint str_in (needle hay : string) : bool :=
  PyStr.startswith needle hay
  || match hay with
     | EmptyString => false
     | String _ hay' => str_in needle hay'
     end.

(** [list_available_ports]: the devices whose description mentions USB,
    in the order the system lists them. *)
Definition list_available_ports (comports : list port_info) : list string :=
  map device (filter (fun port => str_in "USB" (description port)) comports).

(** The monitor together with the port name [connect] remembers. *)
Record Session (F : Type) : Type := {
  monitor : UwaveMonitor F;
  port : option string
}.

Arguments monitor {F} _.
Arguments port {F} _.

Definition set_ser {F : Type} (self : UwaveMonitor F) (handle : option Serial)
  : UwaveMonitor F :=
  {| ser := handle;
     last_range := last_range self;
     last_range_time := last_range_time self;
     salinity := salinity self |}.

(** Truth value of an optional [str]: neither [None] nor empty. *)
Definition given (o : option string) : bool :=
  match o with
  | Some s => PyStr.truthy s
  | None => false
  end.

Section Connection.

Context {F : Type}.

(** The surroundings of one call of [connect]: the ports the system
    lists at that moment, and whether [serial.Serial(port, ...)] then
    opens the port or raises.  Two calls may meet different
    surroundings. *)
Variable comports : list port_info.
Variable serial_opens : string -> bool.

(** The port [connect] settles on: the argument, else the remembered one,
    else the first USB port; [None] when there is none to pick. *)
Definition select_port (self : Session F) (port_arg : option string)
  : option string :=
  if given port_arg then port_arg
  else if negb (given (port self)) then hd_error (list_available_ports comports)
  else port self.

(** [connect]: the value returned and the session afterwards.  The port
    name is stored before the port is opened; the handle is stored only
    when opening succeeds. *)
Definition connect (self : Session F) (port_arg : option string)
  : bool * Session F :=
  match select_port self port_arg with
  | None => (false, self)
  | Some name =>
      if serial_opens name then
        (true, {| monitor := set_ser (monitor self) (Some {| is_open := true |});
                  port := Some name |})
      else (false, {| monitor := monitor self; port := Some name |})
  end.

End Connection.


(** ** The constructor and the two files

    [World] holds the entries of the log and the rows of the CSV file; what
    [__init__] adds is kept beside it: whether each file exists and, when
    it does, the header it starts with.  A file that does not exist holds
    no entry. *)





(** ** Queries built on [send_command] *)

(** [str(n)] for an integer. *)
Definition str_of_int (n : Z) : string := NilZero.string_of_int (Z.to_int n).

Section Queries.

Context {F : Type} `{PyArith F} `{PyParse F}.

Variable readline : nat -> string.
Variable clock : nat -> datetime.

(** [get_device_info]: the dictionary returned, or [None]. *)
Definition get_device_info (fuel : nat) (s : state (F := F))
  : option (result (option puwv_bang) * state (F := F)) :=
  let command := "$PUWV?,0" in
  match send_command readline clock fuel command true false s with
  | None => None
  | Some (Raise e, s) => Some (Raise e, s)
  | Some (Ok (response, _), (self, w)) =>
      if given response
         && match response with
            | Some r => PyStr.startswith "$PUWV!" r
            | None => false
            end
      then
        match response with
        | Some r =>
            let '(self', parsed) := parse_puwv_bang self r in
            Some (Ok parsed, (self', w))
        | None => Some (Ok None, (self, w))
        end
      else Some (Ok None, (self, w))
  end.

(** [get_packet_mode_settings]: the dictionary returned, or [None]. *)
Definition get_packet_mode_settings (fuel : nat) (s : state (F := F))
  : option (result (option puwve) * state (F := F)) :=
  let command := "$PUWVD,0" in
  match send_command readline clock fuel command true false s with
  | None => None
  | Some (Raise e, s) => Some (Raise e, s)
  | Some (Ok (response, _), s) =>
      if given response
         && match response with
            | Some r => PyStr.startswith "$PUWVE" r
            | None => false
            end
      then
        match response with
        | Some r => Some (Ok (parse_puwve r), s)
        | None => Some (Ok None, s)
        end
      else Some (Ok None, s)
  end.

(** [get_remote_data]: the additional responses of the exchange; the
    primary response is dropped. *)
Definition get_remote_data (fuel : nat) (remote_cmd_id : Z) (s : state (F := F))
  : option (result (list string) * state (F := F)) :=
  let command := "$PUWV2,0,0," ++ str_of_int remote_cmd_id in
  match send_command readline clock fuel command true true s with
  | None => None
  | Some (Raise e, s) => Some (Raise e, s)
  | Some (Ok (_, responses), s) => Some (Ok responses, s)
  end.



End Queries.

(** ** The command-line entry point *)

Section Main.

Context {F : Type} `{PyArith F} `{PyParse F}.

(** The surroundings of [main]: the ports and the serial link as before,
    the three answers typed at the prompts (each prompt is answered), and
    [int] on a string ([None] when it raises [ValueError]). *)
Variable comports : list port_info.
Variable serial_opens : string -> bool.
Variable readline : nat -> string.
Variable clock : nat -> datetime.
Variable monitor_choice interval_text count_text : string.
Variable int_of_string : string -> option Z.







End Main.

(** ** Definitions used to state the properties *)

(** The two uppercase hexadecimal digits of a byte. *)
Definition two_digits (x : N) : string :=
  String (PyStr.hex_digit (x / 16)) (String (PyStr.hex_digit (x mod 16)) "").

(** [format_02X] renders the byte [x] as [two_digits x], and both digits
    read back as the two halves of [x]. *)
Definition byte_ok (x : N) : bool :=
  String.eqb (PyStr.format_02X x) (two_digits x)
  && match PyStr.hex_value (PyStr.hex_digit (x / 16)),
           PyStr.hex_value (PyStr.hex_digit (x mod 16)) with
     | Some h, Some l => (h =? x / 16)%N && (l =? x mod 16)%N
     | _, _ => false
     end.

(** The comma-separated fields of a sentence, up to its ['*']. *)
Definition parts_of (response : string) : list string :=
  PyStr.split "," (hd EmptyString (PyStr.split "*" response)).

(** The [k]-th line as the driver sees it: decoded and stripped. *)
Definition line_at (readline : nat -> string) (k : nat) : string :=
  PyStr.strip (PyStr.decode_ascii_ignore (readline k)).

(** The world after one more [readline]. *)
Definition after_read {F : Type} (w : World F) : World F :=
  {| reads := S (reads w);
     written := written w;
     ticks := ticks w;
     log_file := log_file w;
     csv_file := csv_file w |}.

(** A world in which nothing has happened yet. *)
Definition empty_world {F : Type} : World F :=
  {| reads := 0; written := []; ticks := 0; log_file := []; csv_file := [] |}.

(** A freshly built monitor whose serial port has been opened. *)
Definition connected {F : Type} `{PyArith F} : UwaveMonitor F :=
  {| ser := Some {| is_open := true |};
     last_range := None;
     last_range_time := None;
     salinity := DEFAULT_SALINITY |}.

(** A serial port that answers every read with the same line. *)
Definition repeating (line : string) : nat -> string :=
  fun _ => line ++ newline.

(** A serial port that delivers the given lines, then stays silent. *)
Definition delivering (lines : list string) : nat -> string :=
  fun k => match nth_error lines k with
           | Some line => line ++ newline
           | None => EmptyString
           end.

(** A clock that advances one second per reading. *)
Definition ticking : nat -> datetime := fun k => (1000000 * Z.of_nat k)%Z.

(** [calculate_velocity] called on a series of observations, oldest
    first: the values returned and the monitor afterwards. *)
Fixpoint velocities {F : Type} `{PyArith F} (self : UwaveMonitor F)
  (observations : list (F * datetime)) : list F * UwaveMonitor F :=
  match observations with
  | [] => ([], self)
  | (r, t) :: rest =>
      let '(v, self') := calculate_velocity self r t in
      let '(vs, self'') := velocities self' rest in
      (v :: vs, self'')
  end.

(** The world after [m] more calls of [readline]. *)
Definition advance {F : Type} (m : nat) (w : World F) : World F :=
  {| reads := m + reads w;
     written := written w;
     ticks := ticks w;
     log_file := log_file w;
     csv_file := csv_file w |}.

(** Among the [n] reads from position [from], how many come back empty. *)
Fixpoint empty_reads (readline : nat -> string) (from n : nat) : nat :=
  match n with
  | O => O
  | S n' =>
      (if PyStr.truthy (line_at readline from) then 0 else 1)
      + empty_reads readline (S from) n'
  end.

(** The non-empty lines among the [n] reads from position [from]. *)
Fixpoint collected (readline : nat -> string) (from n : nat) : list string :=
  match n with
  | O => []
  | S n' =>
      let line := line_at readline from in
      if PyStr.truthy line then line :: collected readline (S from) n'
      else collected readline (S from) n'
  end.

(** A line tagged as a remote response. *)
Definition is_reply (line : string) : bool := PyStr.startswith "$PUWV3" line.

(** The world after one more reading of the clock. *)
Definition tick {F : Type} (w : World F) : World F :=
  {| reads := reads w;
     written := written w;
     ticks := S (ticks w);
     log_file := log_file w;
     csv_file := csv_file w |}.

(** A line that [parse_puwv3] decodes to a temperature reading: command
    id ["3"] and a non-empty value. *)
Definition temperature_reply (line : string) : bool :=
  match parse_puwv3 line with
  | Some parsed => String.eqb (cmd_id parsed) "3" && PyStr.truthy (value parsed)
  | None => false
  end.

(** Some remote response among [responses] decodes to a temperature
    reading. *)
Definition decoded_temperature (responses : list string) : bool :=
  existsb (fun line => is_reply line && temperature_reply line) responses.

(** The world after the command was written and the clock read. *)
Definition after_send {F : Type} (bytes : string) (w : World F) : World F :=
  {| reads := reads w;
     written := (written w ++ [bytes])%list;
     ticks := S (ticks w);
     log_file := log_file w;
     csv_file := csv_file w |}.

(** The world after the primary read: a non-empty line is logged together
    with the command that was sent. *)
Definition after_primary {F : Type} (full_command : string) (now : datetime)
  (line : string) (w : World F) : World F :=
  if PyStr.truthy line then
    append_log (RX now line)
      (if PyStr.truthy full_command
       then append_log (TX now full_command) (after_read w)
       else after_read w)
  else after_read w.

(** The primary response returned for a line read. *)
Definition main_response_of (line : string) : option string :=
  if PyStr.truthy line then Some line else None.

(** The latest of [last_time] and the time stamps of the observations. *)
Definition latest (last_time : datetime) (observations : list (R * datetime))
  : datetime :=
  fold_left (fun m o => Z.max m (snd o)) observations last_time.

(** Every character of the string has a code point below 128. *)
Fixpoint is_ascii (s : string) : bool :=
  match s with
  | EmptyString => true
  | String c s' => (N_of_ascii c <? 128)%N && is_ascii s'
  end.


(** A description that mentions USB: the condition [connect] and
    [list_available_ports] test with [in]. *)
Definition mentions_usb (p : port_info) : Prop :=
  exists a b, description p = (a ++ "USB" ++ b)%string.

(** * Proofs *)

(** ** Checksum and framing: proofs *)

Section Checksum.

Lemma split_cons (sep : ascii) (s : string) :
  exists w ws, PyStr.split sep s = w :: ws.
Proof.
  induction s as [|c s IH]; simpl.
  - eauto.
  - destruct (Ascii.eqb c sep); [eauto|].
    destruct IH as (w & ws & ->). eauto.
Qed.

Lemma split_absent (sep : ascii) (s : string) :
  PyStr.contains sep s = false -> PyStr.split sep s = [s].
Proof.
  induction s as [|c s IH]; simpl; [reflexivity|].
  destruct (Ascii.eqb c sep); simpl; [discriminate|].
  intros E. rewrite (IH E). reflexivity.
Qed.

Lemma contains_lstrip (sep c : ascii) (s : string) :
  PyStr.contains sep s = false -> PyStr.contains sep (PyStr.lstrip c s) = false.
Proof.
  induction s as [|a s IH]; simpl; [reflexivity|].
  intros E. apply orb_false_iff in E as [E1 E2].
  destruct (Ascii.eqb a c); [auto|].
  simpl. rewrite E1, E2. reflexivity.
Qed.

(** Without a delimiter the checksummed part is the command less its
    leading sentinels. *)
Lemma checksum_part_no_delimiter (command : string) :
  PyStr.contains "*" command = false ->
  checksum_part command = PyStr.lstrip "$" command.
Proof.
  intros E. unfold checksum_part.
  rewrite split_absent by (apply contains_lstrip; exact E).
  reflexivity.
Qed.

Lemma lxor_byte (a b : N) : (a < 256 -> b < 256 -> N.lxor a b < 256)%N.
Proof.
  intros Ha Hb.
  destruct (N.eq_dec (N.lxor a b) 0) as [->|Hne]; [lia|].
  apply (N.log2_lt_pow2 _ 8); [lia|].
  eapply N.le_lt_trans; [apply N.log2_lxor|].
  apply N.max_lub_lt.
  - destruct (N.eq_dec a 0) as [->|]; [reflexivity|].
    apply N.log2_lt_pow2; lia.
  - destruct (N.eq_dec b 0) as [->|]; [reflexivity|].
    apply N.log2_lt_pow2; lia.
Qed.

Lemma xor_ords_byte (s : string) (acc : N) :
  (acc < 256)%N -> (xor_ords acc s < 256)%N.
Proof.
  revert acc. induction s as [|c s IH]; simpl; intros acc Hacc; [exact Hacc|].
  apply IH, lxor_byte; [exact Hacc|apply N_ascii_bounded].
Qed.

Lemma all_bytes_ok : forallb byte_ok (map N.of_nat (seq 0 256)) = true.
Proof. vm_compute. reflexivity. Qed.

Lemma byte_ok_below (x : N) : (x < 256)%N -> byte_ok x = true.
Proof.
  intros Hx. pose proof all_bytes_ok as A.
  rewrite forallb_forall in A. apply A.
  apply in_map_iff. exists (N.to_nat x). split; [apply N2Nat.id|].
  apply in_seq. lia.
Qed.

Lemma format_02X_byte (x : N) :
  (x < 256)%N ->
  PyStr.format_02X x = two_digits x
  /\ PyStr.hex_value (PyStr.hex_digit (x / 16)) = Some (x / 16)%N
  /\ PyStr.hex_value (PyStr.hex_digit (x mod 16)) = Some (x mod 16)%N.
Proof.
  intros Hx. pose proof (byte_ok_below Hx) as B. unfold byte_ok in B.
  apply andb_true_iff in B as [B1 B2].
  apply String.eqb_eq in B1.
  destruct (PyStr.hex_value (PyStr.hex_digit (x / 16))) as [h|]; [|discriminate].
  destruct (PyStr.hex_value (PyStr.hex_digit (x mod 16))) as [l|]; [|discriminate].
  apply andb_true_iff in B2 as [B2 B3].
  apply N.eqb_eq in B2, B3. subst. auto.
Qed.

(** A text with at most one leading sentinel and no delimiter: what
    [lstrip] leaves is the payload of the specification. *)
Lemma lstrip_spec_payload (command : string) :
  PyStr.startswith "$$" command = false ->
  PyStr.contains "*" command = false ->
  PyStr.lstrip "$" command = spec_payload command.
Proof.
  intros E1 E2. unfold spec_payload.
  destruct command as [|a rest]; [reflexivity|].
  pose proof E2 as E3.
  simpl in E3. apply orb_false_iff in E3 as [_ E3].
  cbn [PyStr.lstrip].
  destruct (Ascii.eqb_spec a "$") as [->|Ha].
  - rewrite (split_absent _ _ E3). cbn [hd].
    destruct rest as [|b rest]; [reflexivity|].
    cbn [PyStr.lstrip].
    destruct (Ascii.eqb_spec b "$") as [->|Hb]; [|reflexivity].
    unfold PyStr.startswith in E1. simpl in E1.
    destruct rest; discriminate E1.
  - rewrite (split_absent _ _ E2). reflexivity.
Qed.

End Checksum.

(** C4, as the specification words it, fails on a command that starts with
    two sentinels: [lstrip] drops both, so the checksum covers ["A"] (0x41)
    and not the characters after the first sentinel, ["$A"] (0x65). *)
Lemma format_command_double_sentinel :
  format_command "$$A" true = "$$A*41"
  /\ spec_payload "$$A" = "$A"
  /\ "$$A" ++ "*" ++ PyStr.format_02X (xor_ords 0 (spec_payload "$$A")) = "$$A*65"
  /\ format_command "$$A" true
     <> "$$A" ++ "*" ++ PyStr.format_02X (xor_ords 0 (spec_payload "$$A")).
Proof.
  repeat split; try reflexivity.
  vm_compute. discriminate.
Qed.

Section WideChecksum.

Lemma N_of_ascii_eqb (a c : ascii) :
  (N_of_ascii a =? N_of_ascii c)%N = Ascii.eqb a c.
Proof.
  destruct (Ascii.eqb_spec a c) as [->|Ne]; [apply N.eqb_refl|].
  apply N.eqb_neq. intros E. apply Ne.
  rewrite <- (ascii_N_embedding a), <- (ascii_N_embedding c), E. reflexivity.
Qed.

Lemma of_string_app (s t : string) :
  Wide.of_string (s ++ t) = (Wide.of_string s ++ Wide.of_string t)%list.
Proof.
  unfold Wide.of_string. induction s as [|c s IH]; [reflexivity|].
  cbn. rewrite IH. reflexivity.
Qed.

Lemma wide_contains (c : ascii) (s : string) :
  Wide.contains (N_of_ascii c) (Wide.of_string s) = PyStr.contains c s.
Proof.
  induction s as [|a s IH]; [reflexivity|].
  cbn. rewrite N_of_ascii_eqb.
  change (map N_of_ascii (list_ascii_of_string s)) with (Wide.of_string s).
  rewrite IH. reflexivity.
Qed.

Lemma wide_lstrip (c : ascii) (s : string) :
  Wide.lstrip (N_of_ascii c) (Wide.of_string s) = Wide.of_string (PyStr.lstrip c s).
Proof.
  induction s as [|a s IH]; [reflexivity|].
  cbn. rewrite N_of_ascii_eqb.
  change (map N_of_ascii (list_ascii_of_string s)) with (Wide.of_string s).
  destruct (Ascii.eqb a c); [exact IH|reflexivity].
Qed.

Lemma wide_split (c : ascii) (s : string) :
  Wide.split (N_of_ascii c) (Wide.of_string s)
  = map Wide.of_string (PyStr.split c s).
Proof.
  induction s as [|a s IH]; [reflexivity|].
  cbn. rewrite N_of_ascii_eqb.
  change (map N_of_ascii (list_ascii_of_string s)) with (Wide.of_string s).
  rewrite IH. destruct (Ascii.eqb a c); [reflexivity|].
  destruct (PyStr.split c s); reflexivity.
Qed.

Lemma wide_xor_ords (s : string) (acc : N) :
  Wide.xor_ords acc (Wide.of_string s) = xor_ords acc s.
Proof.
  revert acc. induction s as [|a s IH]; intros acc; [reflexivity|].
  cbn. apply IH.
Qed.

(** On text of code points below 256 the codec is the one used for the
    serial link. *)
Lemma wide_format_command (s : string) (include_checksum : bool) :
  Wide.format_command (Wide.of_string s) include_checksum
  = Wide.of_string (format_command s include_checksum).
Proof.
  unfold Wide.format_command, format_command, Wide.star.
  rewrite wide_contains.
  destruct (negb include_checksum || PyStr.contains "*" s); [reflexivity|].
  rewrite of_string_app. f_equal.
  change (Wide.of_string ("*" ++ calculate_nmea_checksum s))
    with (N_of_ascii "*" :: Wide.of_string (calculate_nmea_checksum s)).
  f_equal. unfold Wide.calculate_nmea_checksum, calculate_nmea_checksum.
  do 2 f_equal. unfold Wide.checksum_part, checksum_part, Wide.dollar, Wide.star.
  rewrite wide_lstrip, wide_split.
  destruct (PyStr.split "*" (PyStr.lstrip "$" s)) as [|w ws];
    [reflexivity|apply wide_xor_ords].
Qed.

Lemma wide_split_absent (sep : N) (s : Wide.str) :
  Wide.contains sep s = false -> Wide.split sep s = [s].
Proof.
  induction s as [|c s IH]; cbn; [reflexivity|].
  destruct (c =? sep)%N; cbn; [discriminate|].
  intros E. rewrite (IH E). reflexivity.
Qed.

Lemma wide_contains_lstrip (sep c : N) (s : Wide.str) :
  Wide.contains sep s = false -> Wide.contains sep (Wide.lstrip c s) = false.
Proof.
  induction s as [|a s IH]; cbn; [reflexivity|].
  intros E. apply orb_false_iff in E as [E1 E2].
  destruct (a =? c)%N; [auto|].
  cbn. rewrite E1, E2. reflexivity.
Qed.

Lemma wide_xor_ords_byte (s : Wide.str) (acc : N) :
  (acc < 256)%N -> Forall (fun c => (c < 256)%N) s ->
  (Wide.xor_ords acc s < 256)%N.
Proof.
  intros Hacc B. revert acc Hacc.
  induction B as [|c s Hc B IH]; intros acc Hacc; [exact Hacc|].
  cbn. apply IH, lxor_byte; assumption.
Qed.

Lemma wide_lstrip_Forall (P : N -> Prop) (c : N) (s : Wide.str) :
  Forall P s -> Forall P (Wide.lstrip c s).
Proof.
  induction 1 as [|a s Ha B IH]; cbn; [constructor|].
  destruct (a =? c)%N; [exact IH|constructor; assumption].
Qed.

Lemma hex_digits_length (fuel : nat) :
  forall (n : N) (acc : string),
    (String.length acc + match fuel with O => 0 | S _ => 1 end
     <= String.length (PyStr.hex_digits fuel n acc))%nat.
Proof.
  induction fuel as [|fuel IH]; intros n acc; cbn; [lia|].
  destruct (n / 16 =? 0)%N; [cbn; lia|].
  specialize (IH (n / 16)%N (String (PyStr.hex_digit (n mod 16)) acc)).
  cbn [String.length] in IH. destruct fuel; lia.
Qed.

(** [{:02X}] gives at least two digits, and at least three from 256 on. *)
Lemma format_02X_length (x : N) :
  (2 <= String.length (PyStr.format_02X x))%nat
  /\ ((256 <= x)%N -> (3 <= String.length (PyStr.format_02X x))%nat).
Proof.
  unfold PyStr.format_02X, PyStr.format_X.
  pose proof (hex_digits_length (S (N.to_nat (N.log2 x))) x "") as L1.
  cbn [String.length Nat.add] in L1.
  split.
  - destruct (String.length _ <? 2)%nat eqn:E.
    + cbn [String.length]. lia.
    + apply Nat.ltb_ge in E. exact E.
  - intros Big.
    assert (L8 : (8 <= N.log2 x)%N)
      by (change 8%N with (N.log2 256); apply N.log2_le_mono; exact Big).
    destruct (N.to_nat (N.log2 x)) as [|[|k]] eqn:K; [lia|lia|].
    assert (Q1 : (x / 16 =? 0)%N = false).
    { apply N.eqb_neq. intros Z. apply N.div_small_iff in Z; lia. }
    assert (Q2 : (x / 16 / 16 =? 0)%N = false).
    { apply N.eqb_neq. intros Z. apply N.div_small_iff in Z; [|lia].
      assert (16 <= x / 16)%N by (apply N.div_le_lower_bound; lia). lia. }
    cbn [PyStr.hex_digits]. rewrite Q1, Q2.
    set (acc := String _ (String _ (String _ ""))).
    pose proof (hex_digits_length k (x / 16 / 16 / 16)%N acc) as L3.
    assert (L : (3 <= String.length
                        (if (x / 16 / 16 / 16 =? 0)%N then acc
                         else PyStr.hex_digits k (x / 16 / 16 / 16) acc))%nat).
    { destruct (x / 16 / 16 / 16 =? 0)%N; [cbn; lia|].
      unfold acc in L3 at 1. cbn [String.length] in L3. lia. }
    destruct (String.length _ <? 2)%nat eqn:E; [|exact L].
    apply Nat.ltb_lt in E. lia.
Qed.

Lemma wide_lstrip_spec_payload (command : Wide.str) :
  Wide.double_sentinel command = false ->
  Wide.contains Wide.star command = false ->
  Wide.lstrip Wide.dollar command = Wide.spec_payload command.
Proof.
  intros E1 E2. unfold Wide.spec_payload.
  destruct command as [|a rest]; [reflexivity|].
  pose proof E2 as E3.
  cbn [Wide.contains] in E3. apply orb_false_iff in E3 as [_ E3].
  cbn [Wide.lstrip].
  destruct (a =? Wide.dollar)%N eqn:Ha.
  - rewrite (wide_split_absent _ _ E3). cbn [hd].
    destruct rest as [|b rest]; [reflexivity|].
    cbn [Wide.lstrip]. cbn [Wide.double_sentinel] in E1. rewrite Ha in E1.
    cbn [andb] in E1. rewrite E1. reflexivity.
  - rewrite (wide_split_absent _ _ E2). reflexivity.
Qed.

End WideChecksum.

(** C4 (amended): [format_command] returns the text unchanged when it holds
    a ['*'] or the checksum is switched off; otherwise it appends ['*'] and
    the uppercase hexadecimal digits, at least two, of the XOR of the code
    points of the text with every leading ['$'] removed.  That part of the
    text is the specification's payload unless the text starts with two
    sentinels.  There are exactly two digits, the two halves of the XOR,
    when the XOR is below 256, as it is for every text of code points
    below 256; from 256 on there are three or more: a ['$'] followed by
    the code point 256 gets ["*100"].  On text of code points below 256
    this is [format_command] as the serial link uses it.  ["PUWV?,0"] has
    checksum 0x27 and encodes to ["PUWV?,0*27"], with or without the
    leading sentinel. *)
Theorem format_command_checksum (command : Wide.str) (include_checksum : bool) :
  let x := Wide.xor_ords 0 (Wide.lstrip Wide.dollar command) in
  Wide.format_command command include_checksum =
    (if negb include_checksum || Wide.contains Wide.star command then command
     else command ++ Wide.star :: Wide.of_string (PyStr.format_02X x))%list
  /\ (2 <= String.length (PyStr.format_02X x))%nat
  /\ ((x < 256)%N ->
      PyStr.format_02X x = two_digits x
      /\ PyStr.hex_value (PyStr.hex_digit (x / 16)) = Some (x / 16)%N
      /\ PyStr.hex_value (PyStr.hex_digit (x mod 16)) = Some (x mod 16)%N)
  /\ ((256 <= x)%N -> (3 <= String.length (PyStr.format_02X x))%nat)
  /\ (Forall (fun c => (c < 256)%N) command -> (x < 256)%N)
  /\ (if Wide.double_sentinel command || Wide.contains Wide.star command
      then True
      else Wide.lstrip Wide.dollar command = Wide.spec_payload command)
  /\ (forall s : string,
        Wide.format_command (Wide.of_string s) include_checksum
        = Wide.of_string (format_command s include_checksum))
  /\ Wide.format_command [Wide.dollar; 256%N] true
     = ([Wide.dollar; 256%N] ++ Wide.of_string "*100")%list
  /\ Wide.xor_ords 0 (Wide.of_string "PUWV?,0") = 39%N
  /\ Wide.format_command (Wide.of_string "PUWV?,0") true
     = Wide.of_string "PUWV?,0*27"
  /\ Wide.format_command (Wide.of_string "$PUWV?,0") true
     = Wide.of_string "$PUWV?,0*27".
Proof.
  intros x. destruct (format_02X_length x) as [L2 L3].
  split; [|split; [exact L2|split; [|split; [exact L3|split; [|split;
    [|split; [|repeat split]]]]]]].
  - unfold Wide.format_command.
    destruct (negb include_checksum || Wide.contains Wide.star command) eqn:E;
      [reflexivity|].
    apply orb_false_iff in E as [_ E].
    unfold Wide.calculate_nmea_checksum, Wide.checksum_part.
    rewrite wide_split_absent by (apply wide_contains_lstrip; exact E).
    reflexivity.
  - intros Hx. exact (format_02X_byte Hx).
  - intros B. apply wide_xor_ords_byte; [reflexivity|].
    apply wide_lstrip_Forall, B.
  - destruct (Wide.double_sentinel command || Wide.contains Wide.star command)
      eqn:E; [exact I|].
    apply orb_false_iff in E as [E1 E2].
    apply wide_lstrip_spec_payload; assumption.
  - intros s. apply wide_format_command.
Qed.

(** ** Decoding: proofs *)

Section Decoding.

Lemma fields_parts_of (response : string) :
  fields response = Ok (parts_of response).
Proof.
  unfold fields, parts_of.
  destruct (split_cons "*" response) as (w & ws & ->). reflexivity.
Qed.

(** [parse_puwv3] needs five fields; the sixth and seventh are optional. *)
Lemma parse_puwv3_fields (response : string) :
  let parts := parts_of response in
  parse_puwv3 response =
    if (List.length parts <? 5)%nat then None
    else Some {| cmd_type := PyStr.take 5 (nth 0 parts "");
                 remote_addr := nth 1 parts "";
                 cmd_id := nth 2 parts "";
                 prop_time := nth 3 parts "";
                 signal_quality := nth 4 parts "";
                 value := nth 5 parts "";
                 azimuth := nth 6 parts "" |}.
Proof.
  unfold parse_puwv3, parse_puwv3_body. rewrite fields_parts_of.
  cbn zeta. generalize (parts_of response). intros parts.
  destruct parts as [|p0 [|p1 [|p2 [|p3 [|p4 [|p5 [|p6 rest]]]]]]]; reflexivity.
Qed.

Lemma startswith_truthy (p line : string) :
  PyStr.truthy p = true -> PyStr.startswith p line = true ->
  PyStr.truthy line = true.
Proof.
  destruct p; [discriminate|]. destruct line; [discriminate|reflexivity].
Qed.

End Decoding.

(** C2, as stated, fails on a remote response of five fields: it has fewer
    than six, yet [parse_puwv3] builds a record for it, with an empty
    value, instead of reporting it as malformed. *)
Lemma parse_puwv3_five_fields :
  List.length (parts_of "$PUWV3,0,3,0.01,20") = 5%nat
  /\ parse_puwv3 "$PUWV3,0,3,0.01,20" =
       Some {| cmd_type := "$PUWV";
               remote_addr := "0";
               cmd_id := "3";
               prop_time := "0.01";
               signal_quality := "20";
               value := "";
               azimuth := "" |}.
Proof. split; reflexivity. Qed.

(** C2 (amended): a remote-response line with fewer than five fields makes
    [parse_puwv3] return [None]: nothing is raised and no record is built.
    The polling loop that received the line still appends its raw text to
    the additional responses, logs it as received and returns it.  (With
    exactly five fields a record is built whose value and azimuth are
    empty.) *)
Theorem parse_puwv3_incomplete {F : Type} `{PyArith F} `{PyParse F}
  (readline : nat -> string) (clock : nat -> datetime)
  (fuel : nat) (full_command : string) (now : datetime) (timeout_count : nat)
  (additional_responses : list string) (self : UwaveMonitor F) (w : World F)
  (line : string) :
  (timeout_count < max_timeout)%nat ->
  line = line_at readline (reads w) ->
  PyStr.startswith "$PUWV3" line = true ->
  (List.length (parts_of line) < 5)%nat ->
  parse_puwv3 line = None
  /\ wait_for_puwv3_loop readline clock (S fuel) full_command now timeout_count
       additional_responses (self, w)
     = Some (Ok (additional_responses ++ [line])%list,
             (self, append_log (RX now line) (after_read w)))
  /\ (forall response,
        List.length (parts_of response) = 5%nat ->
        exists parsed, parse_puwv3 response = Some parsed
                       /\ value parsed = "" /\ azimuth parsed = "").
Proof.
  intros Htc Hline Hstart Hlen.
  assert (Hnone : parse_puwv3 line = None).
  { rewrite parse_puwv3_fields. cbn zeta.
    apply Nat.ltb_lt in Hlen. rewrite Hlen. reflexivity. }
  split; [exact Hnone|]. split.
  - cbn [wait_for_puwv3_loop].
    apply Nat.ltb_lt in Htc. rewrite Htc.
    cbn [read_line]. fold (line_at readline (reads w)). rewrite <- Hline.
    rewrite (startswith_truthy "$PUWV3" line eq_refl Hstart).
    rewrite Hstart. unfold on_puwv3. rewrite Hnone.
    unfold ret at 1. cbn iota.
    unfold log_communication, ebind, ret, on_world.
    rewrite (startswith_truthy "$PUWV3" line eq_refl Hstart).
    reflexivity.
  - intros response Hfive. rewrite parse_puwv3_fields. cbn zeta.
    rewrite Hfive. cbn [Nat.ltb Nat.leb].
    eexists. split; [reflexivity|].
    destruct (parts_of response) as [|p0 [|p1 [|p2 [|p3 [|p4 [|p5 rest]]]]]];
      try discriminate. split; reflexivity.
Qed.

Lemma parse_puwv3_incomplete_witness :
  parse_puwv3 "$PUWV3,0,3" = None
  /\ wait_for_puwv3_loop (repeating "$PUWV3,0,3") ticking 1 "$PUWV2,0,0,3*29"
       0%Z 0 [] (connected (F := PrimFloat.float), empty_world)
     = Some (Ok ["$PUWV3,0,3"],
             (connected,
              append_log (RX 0%Z "$PUWV3,0,3") (after_read empty_world)))
  /\ (forall response,
        List.length (parts_of response) = 5%nat ->
        exists parsed, parse_puwv3 response = Some parsed
                       /\ value parsed = "" /\ azimuth parsed = "").
Proof.
  apply (parse_puwv3_incomplete (F := PrimFloat.float)
           (repeating "$PUWV3,0,3") ticking 0 "$PUWV2,0,0,3*29" 0%Z
           (timeout_count := 0) [] connected empty_world
           (line := "$PUWV3,0,3")).
  - unfold max_timeout. lia.
  - reflexivity.
  - reflexivity.
  - simpl. lia.
Defined.

(** ** Device information: proofs *)

Section DeviceInfoProofs.

Context {F : Type} `{PyParse F}.

(** [parse_puwv_bang] needs thirteen fields and a salinity that [float]
    accepts; it then stores the converted salinity in the monitor. *)
Lemma parse_puwv_bang_fields (self : UwaveMonitor F) (response : string) :
  let parts := parts_of response in
  parse_puwv_bang self response =
    if (List.length parts <? 13)%nat then (self, None)
    else match float_of_string (nth 10 parts "") with
         | None => (self, None)
         | Some s =>
             (set_salinity self s,
              Some {| b_cmd_type := PyStr.take 5 (nth 0 parts "");
                      serial_number := nth 1 parts "";
                      system_moniker := nth 2 parts "";
                      system_version := nth 3 parts "";
                      core_moniker := nth 4 parts "";
                      core_version := nth 5 parts "";
                      baudrate := nth 6 parts "";
                      rx_channel := nth 7 parts "";
                      tx_channel := nth 8 parts "";
                      max_channels := nth 9 parts "";
                      b_salinity := nth 10 parts "";
                      has_pts := nth 11 parts "";
                      cmd_mode := nth 12 parts "" |})
         end.
Proof.
  unfold parse_puwv_bang, parse_puwv_bang_body. rewrite fields_parts_of.
  cbn zeta. generalize (parts_of response). intros parts.
  do 13 (destruct parts as [|? parts]; [reflexivity|]).
  cbn [List.length Nat.ltb Nat.leb PyStr.index nth_error nth rbind].
  unfold float, raise_if_none.
  destruct (float_of_string _); reflexivity.
Qed.

End DeviceInfoProofs.

(** C1, as stated, fails: decoding a device-information sentence that
    carries salinity 35.0 changes the salinity of a fresh monitor. *)
Lemma parse_puwv_bang_changes_salinity :
  salinity (fst (parse_puwv_bang (init (F := PrimFloat.float))
                   "$PUWV!,123,uWave,1.0,core,1.0,9600,0,0,28,35.0,1,0*11"))
  <> salinity (init (F := PrimFloat.float)).
Proof.
  intros E.
  apply (f_equal (fun x => PrimFloat.leb x PrimFloat.zero)) in E.
  vm_compute in E. discriminate E.
Qed.

(** C1 (amended): [parse_puwv_bang] itself applies the carried salinity.
    When it returns a record, the monitor's salinity has become the number
    that [float] reads in the record's salinity field, and the serial
    handle and the range history are as before; when it returns [None]
    (fewer than thirteen fields, or a salinity that is not a number) the
    monitor is unchanged. *)
Theorem parse_puwv_bang_sets_salinity {F : Type} `{PyParse F}
  (self : UwaveMonitor F) (response : string) :
  match parse_puwv_bang self response with
  | (self', Some parsed) =>
      float_of_string (b_salinity parsed) = Some (salinity self')
      /\ b_salinity parsed = nth 10 (parts_of response) ""
      /\ ser self' = ser self
      /\ last_range self' = last_range self
      /\ last_range_time self' = last_range_time self
  | (self', None) =>
      self' = self
      /\ ((List.length (parts_of response) < 13)%nat
          \/ float_of_string (nth 10 (parts_of response) "") = None)
  end.
Proof.
  rewrite parse_puwv_bang_fields. cbn zeta.
  destruct (List.length (parts_of response) <? 13)%nat eqn:E.
  - apply Nat.ltb_lt in E. auto.
  - destruct (float_of_string (nth 10 (parts_of response) "")) eqn:E'.
    + cbn. auto.
    + auto.
Qed.

(** ** Metrics: proofs *)

Section MetricsProofs.

Open Scope R_scope.

Lemma of_dec_R (m : Z) (k : nat) : of_dec (F := R) m k = IZR m / 10 ^ k.
Proof. reflexivity. Qed.



Lemma Rleb_true (a b : R) : a <= b -> Rleb a b = true.
Proof. intros L. unfold Rleb. destruct (Rle_dec a b); [reflexivity|contradiction]. Qed.

Lemma Rleb_false (a b : R) : b < a -> Rleb a b = false.
Proof. intros L. unfold Rleb. destruct (Rle_dec a b); [lra|reflexivity]. Qed.


Lemma total_seconds_R (delta : Z) : total_seconds (F := R) delta = IZR delta / 10 ^ 6.
Proof. reflexivity. Qed.

(** The three cases of [calculate_velocity] over the reals. *)
Lemma velocity_R (self : UwaveMonitor R) (r : R) (t : datetime) :
  (last_range self = None \/ last_range_time self = None ->
   calculate_velocity self r t = (0, set_last self r t))
  /\ (forall last last_time,
        last_range self = Some last -> last_range_time self = Some last_time ->
        let elapsed := total_seconds (t - last_time) in
        (elapsed <= 0 -> calculate_velocity self r t = (0, self))
        /\ (0 < elapsed ->
            calculate_velocity self r t
            = ((r - last) / elapsed, set_last self r t))).
Proof.
  assert (Z0 : of_dec (F := R) 0 0 = 0) by (rewrite of_dec_R; lra).
  unfold calculate_velocity. split.
  - intros [E|E]; rewrite E; [|destruct (last_range self)]; rewrite Z0; reflexivity.
  - intros last last_time -> ->. cbn zeta. cbn [fle fsub fdiv R_arith].
    rewrite Z0. split; intros L.
    + rewrite (Rleb_true L). reflexivity.
    + rewrite (Rleb_false L). reflexivity.
Qed.

End MetricsProofs.





(** One call of [calculate_velocity] on binary64 observations whose time
    stamps differ by the [d] microseconds given. *)
Ltac velocity_step d :=
  cbn [velocities calculate_velocity init set_last last_range last_range_time];
  match goal with
  | |- context [total_seconds ?x] => replace x with d by lia
  end;
  match goal with
  | |- context [fle ?a ?b] =>
      let v := eval vm_compute in (fle a b) in
      change (fle a b) with v
  end;
  cbn iota.

(** C5: with an empty history [calculate_velocity] stores the observation
    and returns 0; with a stored observation and no time elapsed since (or
    a clock that went back) it returns 0 and leaves the history alone; with
    time elapsed it returns the range difference over the elapsed seconds
    and stores the new observation.  From a fresh monitor, 100 at [t0]
    gives 0 and 102 one second later gives 2; an observation stamped
    earlier than that gives 0, and the next one is still measured against
    the observation of 102. *)
Theorem calculate_velocity_spec :
  (forall (self : UwaveMonitor R) (r : R) (t : datetime),
     (last_range self = None \/ last_range_time self = None ->
      calculate_velocity self r t = (0%R, set_last self r t))
     /\ (forall last last_time,
           last_range self = Some last ->
           last_range_time self = Some last_time ->
           let elapsed := total_seconds (t - last_time) in
           ((elapsed <= 0)%R -> calculate_velocity self r t = (0%R, self))
           /\ ((0 < elapsed)%R ->
               calculate_velocity self r t
               = (((r - last) / elapsed)%R, set_last self r t))))
  /\ (forall t0 : datetime,
        velocities (init (F := R))
          [(100%R, t0); (102%R, (t0 + 1000000)%Z);
           (105%R, (t0 + 500000)%Z); (106%R, (t0 + 3000000)%Z)]
        = ([0%R; 2%R; 0%R; 2%R],
           set_last init 106%R (t0 + 3000000)%Z))
  /\ (forall t0 : datetime,
        velocities (init (F := PrimFloat.float))
          [((100 E- 0)%py, t0); ((102 E- 0)%py, (t0 + 1000000)%Z);
           ((105 E- 0)%py, (t0 + 500000)%Z); ((106 E- 0)%py, (t0 + 3000000)%Z)]
        = ([(0 E- 0)%py; (2 E- 0)%py; (0 E- 0)%py; (2 E- 0)%py],
           set_last init (106 E- 0)%py (t0 + 3000000)%Z)).
Proof.
  split; [exact velocity_R|]. split.
  - intros t0. cbn [velocities].
    destruct (velocity_R init 100%R t0) as [A _].
    rewrite A by (left; reflexivity).
    destruct (velocity_R (set_last init 100%R t0) 102%R (t0 + 1000000)%Z) as [_ B].
    destruct (B 100%R t0 eq_refl eq_refl) as [_ B2]. clear B.
    replace (t0 + 1000000 - t0)%Z with 1000000%Z in B2 by lia.
    rewrite total_seconds_R in B2. cbn zeta in B2. rewrite B2 by lra. clear B2.
    set (s2 := set_last (set_last init 100%R t0) 102%R (t0 + 1000000)%Z).
    destruct (velocity_R s2 105%R (t0 + 500000)%Z) as [_ B].
    destruct (B 102%R (t0 + 1000000)%Z eq_refl eq_refl) as [B1 _]. clear B.
    replace (t0 + 500000 - (t0 + 1000000))%Z with (-500000)%Z in B1 by lia.
    rewrite total_seconds_R in B1. cbn zeta in B1. rewrite B1 by lra. clear B1.
    destruct (velocity_R s2 106%R (t0 + 3000000)%Z) as [_ B].
    destruct (B 102%R (t0 + 1000000)%Z eq_refl eq_refl) as [_ B2]. clear B.
    replace (t0 + 3000000 - (t0 + 1000000))%Z with 2000000%Z in B2 by lia.
    rewrite total_seconds_R in B2. cbn zeta in B2. rewrite B2 by lra. clear B2.
    f_equal. f_equal. f_equal; [lra|]. f_equal. f_equal. lra.
  - intros t0.
    velocity_step 1000000%Z. velocity_step (-500000)%Z. velocity_step 2000000%Z.
    generalize (t0 + 3000000)%Z. intros t3. vm_compute. reflexivity.
Qed.

(** ** The command exchange: proofs *)

Section ExchangeProofs.

Context {F : Type} `{PyArith F} `{PyParse F}.

Variable readline : nat -> string.
Variable clock : nat -> datetime.

(** C10: with no serial port open, [send_command] returns [(None, [])] at
    once: nothing is encoded or written, no line is read or logged, the
    clock is not consulted and the monitor, range history included, is left
    as it was. *)
Theorem send_command_port_closed (fuel : nat) (command : string)
  (wait_for_response wait_for_puwv3 : bool)
  (self : UwaveMonitor F) (w : World F) :
  ser self = None \/ ser self = Some {| is_open := false |} ->
  send_command readline clock fuel command wait_for_response wait_for_puwv3
    (self, w)
  = Some (Ok (None, []), (self, w)).
Proof.
  intros Closed. unfold send_command. cbn [fst].
  assert (E : port_closed self = true).
  { unfold port_closed. destruct Closed as [-> | ->]; reflexivity. }
  rewrite E. reflexivity.
Qed.

(** One iteration of the polling loop. *)
Lemma loop_step (fuel : nat) (full_command : string) (now : datetime)
  (timeout_count : nat) (additional : list string)
  (self : UwaveMonitor F) (w : World F) :
  wait_for_puwv3_loop readline clock (S fuel) full_command now timeout_count
    additional (self, w)
  = if (timeout_count <? max_timeout)%nat then
      let line := line_at readline (reads w) in
      if PyStr.truthy line then
        if is_reply line then
          match on_puwv3 clock full_command now line (self, after_read w) with
          | (Raise e, s) => Some (Raise e, s)
          | (Ok _, s) =>
              Some (Ok (additional ++ [line])%list,
                    (fst s, append_log (RX now line) (snd s)))
          end
        else
          wait_for_puwv3_loop readline clock fuel full_command now
            timeout_count (additional ++ [line])%list (self, after_read w)
      else
        wait_for_puwv3_loop readline clock fuel full_command now
          (S timeout_count) additional (self, after_read w)
    else Some (Ok additional, (self, w)).
Proof.
  cbn [wait_for_puwv3_loop].
  destruct (timeout_count <? max_timeout)%nat; [|reflexivity].
  cbn [read_line]. fold (line_at readline (reads w)). fold (after_read w).
  cbn zeta. destruct (PyStr.truthy (line_at readline (reads w))) eqn:T;
    [|reflexivity].
  unfold is_reply.
  destruct (PyStr.startswith "$PUWV3" (line_at readline (reads w)));
    [|reflexivity].
  destruct (on_puwv3 _ _ _ _ _) as [[u|e] [self1 w1]]; [|reflexivity].
  unfold log_communication, ebind, ret, on_world. rewrite T. reflexivity.
Qed.

(** [derive_metrics] step by step: the two conversions and the two
    computations that precede the velocity leave everything as it was when
    they raise; the signal quality is converted after the range history
    and the clock have moved; the row is written last. *)
Lemma derive_metrics_unfold (full_command : string) (now : datetime)
  (parsed : puwv3) (self : UwaveMonitor F) (w : World F) :
  derive_metrics clock full_command now parsed (self, w) =
  match float_of_string (value parsed) with
  | None => (Raise ValueError, (self, w))
  | Some temp =>
    match float_of_string (prop_time parsed) with
    | None => (Raise ValueError, (self, w))
    | Some pt =>
      match calculate_sound_velocity self temp None None with
      | Raise e => (Raise e, (self, w))
      | Ok sound_vel =>
        let slant_range := calculate_slant_range pt sound_vel in
        match calculate_horizontal_distance slant_range (0 E- 0)%py with
        | Raise e => (Raise e, (self, w))
        | Ok horiz_dist =>
          let vs := calculate_velocity self slant_range (clock (ticks w)) in
          match float_of_string (signal_quality parsed) with
          | None => (Raise ValueError, (snd vs, tick w))
          | Some sq =>
              (Ok tt,
               (snd vs,
                append_csv {| row_timestamp := now;
                              row_command := full_command;
                              row_response_type := "PUWV3";
                              row_remote_addr := remote_addr parsed;
                              row_cmd_id := cmd_id parsed;
                              row_prop_time := pt;
                              row_signal_quality := sq;
                              row_value := temp;
                              row_slant_range := slant_range;
                              row_horiz_dist := horiz_dist;
                              row_velocity := fst vs |} (tick w)))
          end
        end
      end
    end
  end.
Proof.
  unfold derive_metrics, ebind, lift, float, raise_if_none.
  destruct (float_of_string (value parsed)) as [temp|]; [|reflexivity].
  destruct (float_of_string (prop_time parsed)) as [pt|]; [|reflexivity].
  destruct (calculate_sound_velocity self temp None None) as [sv|e];
    [|reflexivity].
  cbn zeta.
  destruct (calculate_horizontal_distance (calculate_slant_range pt sv)
              (0 E- 0)%py) as [hd|e]; [|reflexivity].
  unfold velocity_now, ebind, datetime_now. fold (tick w).
  destruct (calculate_velocity self _ _) as [v self'].
  destruct (float_of_string (signal_quality parsed)) as [sq|]; reflexivity.
Qed.

Lemma calculate_velocity_frame (self : UwaveMonitor F) (r : F) (t : datetime) :
  ser (snd (calculate_velocity self r t)) = ser self
  /\ salinity (snd (calculate_velocity self r t)) = salinity self.
Proof.
  unfold calculate_velocity.
  destruct (last_range self), (last_range_time self); cbn; auto.
  destruct (fle _ _); cbn; auto.
Qed.

(** What [on_puwv3] can do: a line that is not a temperature reading
    changes nothing; a temperature reading either adds one row for command
    id ["3"], or raises and adds none.  Reads, writes and the log file are
    never touched. *)
Lemma on_puwv3_cases (full_command : string) (now : datetime) (line : string)
  (self : UwaveMonitor F) (w : World F) :
  let out := on_puwv3 clock full_command now line (self, w) in
  reads (snd (snd out)) = reads w
  /\ written (snd (snd out)) = written w
  /\ log_file (snd (snd out)) = log_file w
  /\ ser (fst (snd out)) = ser self
  /\ match fst out with
     | Ok _ =>
         if temperature_reply line
         then exists row, csv_file (snd (snd out)) = (csv_file w ++ [row])%list
                          /\ row_cmd_id row = "3"
                          /\ row_timestamp row = now
                          /\ row_command row = full_command
         else snd out = (self, w)
     | Raise e =>
         temperature_reply line = true
         /\ csv_file (snd (snd out)) = csv_file w
     end.
Proof.
  unfold on_puwv3, temperature_reply.
  destruct (parse_puwv3 line) as [parsed|]; [|cbn; auto 10].
  destruct (String.eqb (cmd_id parsed) "3" && PyStr.truthy (value parsed)) eqn:T;
    [|cbn; auto 10].
  apply andb_true_iff in T as [T1 T2]. apply String.eqb_eq in T1.
  rewrite derive_metrics_unfold.
  destruct (float_of_string (value parsed)) as [temp|]; [|cbn; auto 10].
  destruct (float_of_string (prop_time parsed)) as [pt|]; [|cbn; auto 10].
  destruct (calculate_sound_velocity self temp None None) as [sv|e];
    [|cbn; auto 10].
  cbn zeta.
  destruct (calculate_horizontal_distance (calculate_slant_range pt sv)
              (0 E- 0)%py) as [hd|e]; [|cbn; auto 10].
  destruct (calculate_velocity_frame self
              (calculate_slant_range pt sv) (clock (ticks w))) as [V1 V2].
  destruct (float_of_string (signal_quality parsed)); cbn.
  - repeat split; auto. eexists. repeat split; auto.
  - auto 10.
Qed.

Lemma advance_0 (w : World F) : advance 0 w = w.
Proof. destruct w. reflexivity. Qed.

Lemma advance_after_read (n : nat) (w : World F) :
  advance n (after_read w) = advance (S n) w.
Proof. unfold advance, after_read. cbn. f_equal. lia. Qed.

Lemma not_truthy_empty (line : string) : PyStr.truthy line = false -> line = "".
Proof. destruct line; [reflexivity|discriminate]. Qed.

Lemma empty_not_reply (line : string) :
  PyStr.truthy line = false -> is_reply line = false.
Proof. intros E. rewrite (not_truthy_empty _ E). reflexivity. Qed.

(** Reads that bring no remote response and do not use up the budget are
    passed over, their non-empty lines collected. *)
Lemma loop_skip (n : nat) :
  forall (fuel : nat) (full_command : string) (now : datetime)
         (timeout_count : nat) (additional : list string)
         (self : UwaveMonitor F) (w : World F),
    (forall k, (k < n)%nat -> is_reply (line_at readline (reads w + k)) = false) ->
    (timeout_count + empty_reads readline (reads w) n < max_timeout)%nat ->
    wait_for_puwv3_loop readline clock (n + fuel) full_command now
      timeout_count additional (self, w)
    = wait_for_puwv3_loop readline clock fuel full_command now
        (timeout_count + empty_reads readline (reads w) n)
        (additional ++ collected readline (reads w) n)%list
        (self, advance n w).
Proof.
  induction n as [|n IH]; intros fuel full_command now tc additional self w Q B.
  - cbn. rewrite Nat.add_0_r, app_nil_r, advance_0. reflexivity.
  - cbn [Nat.add]. rewrite loop_step.
    cbn [empty_reads collected] in *.
    assert (Htc : (tc <? max_timeout)%nat = true) by (apply Nat.ltb_lt; lia).
    rewrite Htc. cbn zeta.
    assert (Q0 : is_reply (line_at readline (reads w)) = false).
    { rewrite <- (Nat.add_0_r (reads w)). apply Q. lia. }
    assert (Q' : forall k, (k < n)%nat ->
                 is_reply (line_at readline (reads (after_read w) + k)) = false).
    { intros k Hk. cbn [reads after_read].
      replace (S (reads w) + k)%nat with (reads w + S k)%nat by lia.
      apply Q. lia. }
    destruct (PyStr.truthy (line_at readline (reads w))) eqn:T.
    + rewrite Q0. rewrite IH; [|exact Q'|cbn [reads after_read]; lia].
      cbn [reads after_read]. rewrite advance_after_read, <- app_assoc.
      reflexivity.
    + rewrite IH; [|exact Q'|cbn [reads after_read]; lia].
      cbn [reads after_read]. rewrite advance_after_read.
      f_equal. lia.
Qed.

Lemma decoded_temperature_snoc (responses : list string) (line : string) :
  decoded_temperature (responses ++ [line]) =
  decoded_temperature responses || (is_reply line && temperature_reply line).
Proof.
  unfold decoded_temperature. rewrite existsb_app. cbn.
  rewrite orb_false_r. reflexivity.
Qed.

(** The polling loop writes a row exactly when it returns with a decoded
    temperature reading, and then only one. *)
Lemma loop_csv (fuel : nat) :
  forall (full_command : string) (now : datetime) (timeout_count : nat)
         (additional : list string) (self : UwaveMonitor F) (w : World F)
         (r : result (list string)) (s' : state),
    wait_for_puwv3_loop readline clock fuel full_command now timeout_count
      additional (self, w) = Some (r, s') ->
    decoded_temperature additional = false ->
    match r with
    | Raise _ => csv_file (snd s') = csv_file w
    | Ok responses =>
        if decoded_temperature responses
        then exists row, csv_file (snd s') = (csv_file w ++ [row])%list
                         /\ row_cmd_id row = "3"
                         /\ row_timestamp row = now
                         /\ row_command row = full_command
        else csv_file (snd s') = csv_file w
    end.
Proof.
  induction fuel as [|fuel IH];
    intros full_command now tc additional self w r s' E D; [discriminate|].
  rewrite loop_step in E.
  destruct (tc <? max_timeout)%nat.
  2:{ injection E as <- <-. rewrite D. reflexivity. }
  cbn zeta in E.
  destruct (PyStr.truthy (line_at readline (reads w))) eqn:T.
  - destruct (is_reply (line_at readline (reads w))) eqn:R.
    + pose proof (on_puwv3_cases full_command now (line_at readline (reads w))
                    self (after_read w)) as C.
      cbn zeta in C.
      destruct (on_puwv3 clock full_command now (line_at readline (reads w))
                  (self, after_read w)) as [[u|e] [self1 w1]];
        cbn [fst snd] in C; destruct C as (_ & _ & _ & _ & C);
        injection E as <- <-.
      * rewrite decoded_temperature_snoc, D, R. cbn [orb andb snd csv_file append_log].
        destruct (temperature_reply (line_at readline (reads w))).
        -- exact C.
        -- injection C as _ ->. reflexivity.
      * cbn [snd]. destruct C as [_ C]. exact C.
    + apply IH in E.
      * exact E.
      * rewrite decoded_temperature_snoc, D, R. reflexivity.
  - apply IH in E; [exact E|exact D].
Qed.

(** [send_command] with its straight-line part carried out. *)
Lemma send_command_unfold (fuel : nat) (command : string)
  (wait_for_response wait_for_puwv3 : bool)
  (self : UwaveMonitor F) (w : World F) :
  send_command readline clock fuel command wait_for_response wait_for_puwv3
    (self, w)
  = if port_closed self then Some (Ok (None, []), (self, w))
    else
      let full_command := format_command command true in
      match PyStr.encode_ascii (full_command ++ newline) with
      | Raise e => Some (Raise e, (self, w))
      | Ok bytes =>
          let now := clock (ticks w) in
          let w1 := after_send bytes w in
          if wait_for_response then
            let line := line_at readline (reads w) in
            let w2 := after_primary full_command now line w1 in
            if wait_for_puwv3 && PyStr.startswith "$PUWV2" command then
              match wait_for_puwv3_loop readline clock fuel full_command now
                      0 [] (self, w2) with
              | None => None
              | Some (Raise e, s) => Some (Raise e, s)
              | Some (Ok additional, s) =>
                  Some (Ok (main_response_of line, additional), s)
              end
            else Some (Ok (main_response_of line, []), (self, w2))
          else Some (Ok (None, []), (self, w1))
      end.
Proof.
  unfold send_command. cbn [fst].
  destruct (port_closed self); [reflexivity|].
  cbn zeta. unfold ebind at 1, ser_write.
  destruct (PyStr.encode_ascii (format_command command true ++ newline))
    as [bytes|e]; [|reflexivity].
  unfold datetime_now. fold (after_send bytes w).
  destruct wait_for_response; [|reflexivity].
  unfold ebind, read_line. cbn [reads after_send].
  fold (line_at readline (reads w)). fold (after_read (after_send bytes w)).
  unfold after_primary, main_response_of, log_communication, ebind, ret, on_world.
  destruct (PyStr.truthy (line_at readline (reads w)));
    destruct (PyStr.truthy (format_command command true)); reflexivity.
Qed.

Lemma after_primary_csv (full_command : string) (now : datetime)
  (line bytes : string) (w : World F) :
  csv_file (after_primary full_command now line (after_send bytes w))
  = csv_file w.
Proof.
  unfold after_primary.
  destruct (PyStr.truthy line), (PyStr.truthy full_command); reflexivity.
Qed.

Lemma after_primary_reads (full_command : string) (now : datetime)
  (line bytes : string) (w : World F) :
  reads (after_primary full_command now line (after_send bytes w))
  = S (reads w).
Proof.
  unfold after_primary.
  destruct (PyStr.truthy line), (PyStr.truthy full_command); reflexivity.
Qed.

(** C6 (amended): an exchange that returns has written one row, for
    command id ["3"], when a remote response among its additional
    responses decodes with command id ["3"] and a non-empty value, and no
    row otherwise; an exchange that raises has written none.  A response
    whose command id is ["0"], ["2"] or ["4"] is never such a reading. *)
Theorem metrics_only_for_temperature (fuel : nat) (command : string)
  (wait_for_response wait_for_puwv3 : bool)
  (self : UwaveMonitor F) (w : World F)
  (r : result (option string * list string)) (s' : state) :
  send_command readline clock fuel command wait_for_response wait_for_puwv3
    (self, w) = Some (r, s') ->
  match r with
  | Raise _ => csv_file (snd s') = csv_file w
  | Ok (main_response, additional_responses) =>
      if decoded_temperature additional_responses
      then exists row, csv_file (snd s') = (csv_file w ++ [row])%list
                       /\ row_cmd_id row = "3"
                       /\ row_command row = format_command command true
      else csv_file (snd s') = csv_file w
  end
  /\ (forall line parsed,
        parse_puwv3 line = Some parsed ->
        cmd_id parsed = "0" \/ cmd_id parsed = "2" \/ cmd_id parsed = "4"
        \/ value parsed = "" ->
        temperature_reply line = false).
Proof.
  intros E. split.
  - rewrite send_command_unfold in E.
    destruct (port_closed self); [injection E as <- <-; reflexivity|].
    cbn zeta in E.
    destruct (PyStr.encode_ascii _) as [bytes|e];
      [|injection E as <- <-; reflexivity].
    destruct wait_for_response; [|injection E as <- <-; reflexivity].
    destruct (wait_for_puwv3 && PyStr.startswith "$PUWV2" command).
    + destruct (wait_for_puwv3_loop _ _ _ _ _ _ _ _) as [[r0 s0]|] eqn:L;
        [|discriminate].
      apply loop_csv in L; [|reflexivity].
      rewrite after_primary_csv in L.
      destruct r0 as [additional|e]; injection E as <- <-.
      * destruct (decoded_temperature additional); [|exact L].
        destruct L as (row & L1 & L2 & _ & L3). exists row. auto.
      * exact L.
    + injection E as <- <-. cbn. apply after_primary_csv.
  - intros line parsed P C. unfold temperature_reply. rewrite P.
    destruct C as [C|[C|[C|C]]]; rewrite C; try reflexivity.
    apply andb_false_r.
Qed.

(** What any result of the polling loop looks like: [m] reads were made,
    none but the last brought a remote response, empty reads stayed within
    the budget, the responses returned are the non-empty lines read, and a
    loop that did not end on a remote response ended on an exhausted
    budget, returning normally and changing nothing but the read count. *)
Lemma loop_sound (fuel : nat) :
  forall (full_command : string) (now : datetime) (timeout_count : nat)
         (additional : list string) (self : UwaveMonitor F) (w : World F)
         (r : result (list string)) (self' : UwaveMonitor F) (w' : World F),
    wait_for_puwv3_loop readline clock fuel full_command now timeout_count
      additional (self, w) = Some (r, (self', w')) ->
    exists m,
      reads w' = (m + reads w)%nat
      /\ (forall k, (S k < m)%nat ->
                    is_reply (line_at readline (reads w + k)) = false)
      /\ ((timeout_count <= max_timeout)%nat ->
          (timeout_count + empty_reads readline (reads w) m <= max_timeout)%nat)
      /\ (forall responses,
            r = Ok responses ->
            responses = (additional ++ collected readline (reads w) m)%list)
      /\ (m = 0%nat
          \/ (exists m', m = S m'
                         /\ is_reply (line_at readline (reads w + m')) = false) ->
          (exists responses, r = Ok responses)
          /\ self' = self /\ w' = advance m w
          /\ (max_timeout <= timeout_count + empty_reads readline (reads w) m)%nat).
Proof.
  induction fuel as [|fuel IH];
    intros full_command now tc additional self w r self' w' E; [discriminate|].
  rewrite loop_step in E.
  destruct (tc <? max_timeout)%nat eqn:Htc.
  2:{ injection E as <- <- <-. apply Nat.ltb_ge in Htc.
      exists 0%nat. cbn [empty_reads collected Nat.add].
      rewrite app_nil_r, advance_0, Nat.add_0_r.
      repeat split; eauto; try lia.
      intros responses [= <-]. reflexivity. }
  apply Nat.ltb_lt in Htc. cbn zeta in E.
  destruct (PyStr.truthy (line_at readline (reads w))) eqn:T.
  - destruct (is_reply (line_at readline (reads w))) eqn:R.
    + pose proof (on_puwv3_cases full_command now (line_at readline (reads w))
                    self (after_read w)) as C.
      cbn zeta in C.
      destruct (on_puwv3 clock full_command now (line_at readline (reads w))
                  (self, after_read w)) as [[u|e] [self1 w1]];
        cbn [fst snd] in C; destruct C as (C & _);
        injection E as <- <- <-; exists 1%nat;
        cbn [empty_reads collected reads append_log Nat.add]; rewrite T;
        (split; [exact C|]); (split; [intros k Hk; lia|]);
        (split; [intros _; lia|]); split.
      * intros responses [= <-]. reflexivity.
      * intros [Z|(m' & [= <-] & Q)]; [discriminate|].
        rewrite Nat.add_0_r in Q. congruence.
      * intros responses [=].
      * intros [Z|(m' & [= <-] & Q)]; [discriminate|].
        rewrite Nat.add_0_r in Q. congruence.
    + apply IH in E. destruct E as (m & E1 & E2 & E3 & E4 & E5).
      cbn [reads after_read] in *.
      exists (S m). cbn [empty_reads collected]. rewrite T.
      split; [lia|]. split; [|split; [|split]].
      * intros [|k] Hk; [rewrite Nat.add_0_r; exact R|].
        replace (reads w + S k)%nat with (S (reads w) + k)%nat by lia.
        apply E2. lia.
      * intros L. specialize (E3 L). lia.
      * intros responses ->. rewrite (E4 _ eq_refl), <- app_assoc. reflexivity.
      * intros Stop.
        assert (Stop' : m = 0%nat
                        \/ (exists m', m = S m'
                              /\ is_reply (line_at readline (S (reads w) + m'))
                                 = false)).
        { destruct Stop as [Z|(m' & [= <-] & Q)]; [discriminate|].
          destruct m as [|m'']; [left; reflexivity|right].
          exists m''. split; [reflexivity|].
          replace (S (reads w) + m'')%nat with (reads w + S m'')%nat by lia.
          exact Q. }
        destruct (E5 Stop') as (A & B & C & D).
        rewrite advance_after_read in C. repeat split; auto; lia.
  - apply IH in E. destruct E as (m & E1 & E2 & E3 & E4 & E5).
    cbn [reads after_read] in *.
    exists (S m). cbn [empty_reads collected]. rewrite T.
    split; [lia|]. split; [|split; [|split]].
    * intros [|k] Hk; [rewrite Nat.add_0_r; apply empty_not_reply; exact T|].
      replace (reads w + S k)%nat with (S (reads w) + k)%nat by lia.
      apply E2. lia.
    * intros L. assert (L' : (S tc <= max_timeout)%nat) by lia.
      specialize (E3 L'). lia.
    * intros responses ->. apply (E4 _ eq_refl).
    * intros Stop.
      assert (Stop' : m = 0%nat
                      \/ (exists m', m = S m'
                            /\ is_reply (line_at readline (S (reads w) + m'))
                               = false)).
      { destruct Stop as [Z|(m' & [= <-] & Q)]; [discriminate|].
        destruct m as [|m'']; [left; reflexivity|right].
        exists m''. split; [reflexivity|].
        replace (S (reads w) + m'')%nat with (reads w + S m'')%nat by lia.
        exact Q. }
      destruct (E5 Stop') as (A & B & C & D).
      rewrite advance_after_read in C. repeat split; auto; lia.
Qed.

(** The loop stops within one iteration when the budget is spent or the
    next line is a remote response. *)
Lemma loop_stops_now (full_command : string) (now : datetime)
  (timeout_count : nat) (additional : list string)
  (self : UwaveMonitor F) (w : World F) :
  (max_timeout <= timeout_count)%nat
  \/ is_reply (line_at readline (reads w)) = true ->
  exists out,
    forall fuel, (1 <= fuel)%nat ->
      wait_for_puwv3_loop readline clock fuel full_command now timeout_count
        additional (self, w) = Some out.
Proof.
  intros Stop.
  destruct (timeout_count <? max_timeout)%nat eqn:Htc.
  - destruct Stop as [Stop|Stop]; [apply Nat.ltb_lt in Htc; lia|].
    assert (T : PyStr.truthy (line_at readline (reads w)) = true).
    { destruct (PyStr.truthy (line_at readline (reads w))) eqn:T; [reflexivity|].
      rewrite (empty_not_reply _ T) in Stop. discriminate. }
    destruct (on_puwv3 clock full_command now (line_at readline (reads w))
                (self, after_read w)) as [[u|e] s1] eqn:O.
    + eexists. intros [|fuel] Hf; [lia|].
      rewrite loop_step, Htc. cbn zeta. rewrite T, Stop, O. reflexivity.
    + eexists. intros [|fuel] Hf; [lia|].
      rewrite loop_step, Htc. cbn zeta. rewrite T, Stop, O. reflexivity.
  - eexists. intros [|fuel] Hf; [lia|].
    rewrite loop_step, Htc. reflexivity.
Qed.

(** The loop ends once a remote response arrives or enough reads come back
    empty, whatever else is received in between. *)
Lemma loop_terminates (n : nat) :
  forall (full_command : string) (now : datetime) (timeout_count : nat)
         (additional : list string) (self : UwaveMonitor F) (w : World F),
    is_reply (line_at readline (reads w + n)) = true
    \/ (max_timeout <= timeout_count + empty_reads readline (reads w) (S n))%nat ->
    exists out,
      forall fuel, (n + 2 <= fuel)%nat ->
        wait_for_puwv3_loop readline clock fuel full_command now timeout_count
          additional (self, w) = Some out.
Proof.
  induction n as [|n IH]; intros full_command now tc additional self w Stop.
  - destruct (tc <? max_timeout)%nat eqn:Htc.
    2:{ destruct (@loop_stops_now full_command now tc additional self w)
          as [out O]; [left; apply Nat.ltb_ge; exact Htc|].
        exists out. intros fuel Hf. apply O. lia. }
    destruct (is_reply (line_at readline (reads w))) eqn:R.
    { destruct (@loop_stops_now full_command now tc additional self w)
        as [out O]; [right; exact R|].
      exists out. intros fuel Hf. apply O. lia. }
    rewrite Nat.add_0_r in Stop.
    destruct Stop as [Stop|Stop]; [congruence|].
    cbn [empty_reads] in Stop. apply Nat.ltb_lt in Htc.
    destruct (PyStr.truthy (line_at readline (reads w))) eqn:T; [lia|].
    destruct (@loop_stops_now full_command now (S tc) additional self
                (after_read w)) as [out O]; [left; lia|].
    exists out. intros [|fuel] Hf; [lia|].
    rewrite loop_step. apply Nat.ltb_lt in Htc. rewrite Htc. cbn zeta.
    rewrite T. apply O. lia.
  - destruct (tc <? max_timeout)%nat eqn:Htc.
    2:{ destruct (@loop_stops_now full_command now tc additional self w)
          as [out O]; [left; apply Nat.ltb_ge; exact Htc|].
        exists out. intros fuel Hf. apply O. lia. }
    destruct (is_reply (line_at readline (reads w))) eqn:R.
    { destruct (@loop_stops_now full_command now tc additional self w)
        as [out O]; [right; exact R|].
      exists out. intros fuel Hf. apply O. lia. }
    replace (reads w + S n)%nat with (reads (after_read w) + n)%nat in Stop
      by (cbn [reads after_read]; lia).
    cbn [empty_reads] in Stop.
    destruct (PyStr.truthy (line_at readline (reads w))) eqn:T.
    + destruct (IH full_command now tc (additional ++ [line_at readline (reads w)])%list
                  self (after_read w)) as [out O].
      { destruct Stop as [Stop|Stop]; [left; exact Stop|right].
        cbn [reads after_read empty_reads]. cbn [empty_reads] in Stop. lia. }
      exists out. intros [|fuel] Hf; [lia|].
      rewrite loop_step, Htc. cbn zeta. rewrite T, R. apply O. lia.
    + destruct (IH full_command now (S tc) additional self (after_read w))
        as [out O].
      { destruct Stop as [Stop|Stop]; [left; exact Stop|right].
        cbn [reads after_read empty_reads]. cbn [empty_reads] in Stop. lia. }
      exists out. intros [|fuel] Hf; [lia|].
      rewrite loop_step, Htc. cbn zeta. rewrite T. apply O. lia.
Qed.

(** Where a run of the polling loop that ends has stopped: at once when
    the budget was spent before it started; else on the first remote
    response, read while the budget was not yet spent; else on the empty
    read that spends the budget. *)
Lemma loop_exact (fuel : nat) :
  forall (full_command : string) (now : datetime) (timeout_count : nat)
         (additional : list string) (self : UwaveMonitor F) (w : World F)
         (r : result (list string)) (self' : UwaveMonitor F) (w' : World F),
    wait_for_puwv3_loop readline clock fuel full_command now timeout_count
      additional (self, w) = Some (r, (self', w')) ->
    (reads w' = reads w /\ (max_timeout <= timeout_count)%nat
     /\ r = Ok additional /\ self' = self /\ w' = w)
    \/ exists m',
         reads w' = (S m' + reads w)%nat
         /\ (timeout_count + empty_reads readline (reads w) m' < max_timeout)%nat
         /\ (forall k, (k < m')%nat ->
                       is_reply (line_at readline (reads w + k)) = false)
         /\ (is_reply (line_at readline (reads w + m')) = true
             \/ (line_at readline (reads w + m') = ""
                 /\ (timeout_count + empty_reads readline (reads w) (S m')
                     = max_timeout)%nat
                 /\ r = Ok (additional
                            ++ collected readline (reads w) (S m'))%list
                 /\ self' = self /\ w' = advance (S m') w)).
Proof.
  induction fuel as [|fuel IH];
    intros full_command now tc additional self w r self' w' E; [discriminate|].
  rewrite loop_step in E.
  destruct (tc <? max_timeout)%nat eqn:Htc.
  2:{ apply Nat.ltb_ge in Htc. injection E as <- <- <-. left. auto. }
  apply Nat.ltb_lt in Htc. cbn zeta in E. right.
  assert (Shift : forall k, (reads (after_read w) + k = reads w + S k)%nat).
  { intros k. cbn [reads after_read]. lia. }
  destruct (PyStr.truthy (line_at readline (reads w))) eqn:T.
  - destruct (is_reply (line_at readline (reads w))) eqn:R.
    + exists 0%nat. rewrite !Nat.add_0_r.
      pose proof (on_puwv3_cases full_command now (line_at readline (reads w))
                    self (after_read w)) as C.
      cbn zeta in C.
      destruct (on_puwv3 clock full_command now (line_at readline (reads w))
                  (self, after_read w)) as [[u|e] [self1 w1]];
        cbn [fst snd] in C; destruct C as (C1 & _);
        injection E as <- <- <-; cbn [reads append_log after_read] in *;
        (split; [lia|]); (split; [cbn; lia|]);
        (split; [intros k Hk; lia|]); left; rewrite ?Nat.add_0_r; exact R.
    + apply IH in E. destruct E as [(_ & B & _)|(m' & E1 & E2 & E3 & E4)]; [lia|].
      exists (S m'). cbn [reads after_read] in E1, E2.
      split; [lia|]. split; [cbn [empty_reads]; rewrite T; lia|].
      split.
      { intros [|k] Hk; [rewrite Nat.add_0_r; exact R|].
        rewrite <- Shift. apply E3. lia. }
      rewrite <- Shift.
      destruct E4 as [E4|(E4 & E5 & -> & -> & ->)]; [left; exact E4|right].
      split; [exact E4|].
      split.
      { cbn [reads after_read] in E5.
        change (empty_reads readline (reads w) (S (S m')))
          with ((if PyStr.truthy (line_at readline (reads w)) then 0 else 1)
                + empty_reads readline (S (reads w)) (S m'))%nat.
        rewrite T. lia. }
      split.
      { cbn [reads after_read].
        change (collected readline (reads w) (S (S m')))
          with (if PyStr.truthy (line_at readline (reads w))
                then line_at readline (reads w)
                     :: collected readline (S (reads w)) (S m')
                else collected readline (S (reads w)) (S m')).
        rewrite T, <- app_assoc. reflexivity. }
      split; [reflexivity|apply advance_after_read].
  - apply IH in E.
    destruct E as [(E1 & B & -> & -> & ->)|(m' & E1 & E2 & E3 & E4)].
    + exists 0%nat. rewrite !Nat.add_0_r. cbn [reads after_read].
      split; [lia|]. split; [cbn; lia|]. split; [intros k Hk; lia|]. right.
      split; [apply not_truthy_empty, T|].
      split; [cbn [empty_reads]; rewrite T; lia|].
      split; [cbn [collected]; rewrite T, app_nil_r; reflexivity|].
      split; [reflexivity|].
      rewrite <- advance_after_read, advance_0. reflexivity.
    + exists (S m'). cbn [reads after_read] in E1, E2.
      split; [lia|]. split; [cbn [empty_reads]; rewrite T; lia|].
      split.
      { intros [|k] Hk; [rewrite Nat.add_0_r; apply empty_not_reply, T|].
        rewrite <- Shift. apply E3. lia. }
      rewrite <- Shift.
      destruct E4 as [E4|(E4 & E5 & -> & -> & ->)]; [left; exact E4|right].
      split; [exact E4|].
      split.
      { cbn [reads after_read] in E5.
        change (empty_reads readline (reads w) (S (S m')))
          with ((if PyStr.truthy (line_at readline (reads w)) then 0 else 1)
                + empty_reads readline (S (reads w)) (S m'))%nat.
        rewrite T. lia. }
      split.
      { cbn [reads after_read].
        change (collected readline (reads w) (S (S m')))
          with (if PyStr.truthy (line_at readline (reads w))
                then line_at readline (reads w)
                     :: collected readline (S (reads w)) (S m')
                else collected readline (S (reads w)) (S m')).
        rewrite T. reflexivity. }
      split; [reflexivity|apply advance_after_read].
Qed.

(** X24: the polling loop ends as soon as the serial link brings a remote
    response or its budget of five empty reads is spent, and no sooner.
    If the read at distance [n] is a remote response, or the reads up to
    it include enough empty ones, every run with fuel above [n + 1]
    returns the same result.  Either the budget was spent before the loop
    started and nothing was read; or the last read is the first remote
    response, received while the budget was not yet spent; or the last
    read is the empty read that spends the budget: the loop then returns
    the lines collected, raises nothing and leaves the monitor, the clock
    and the files alone.  (Lines that are neither empty nor remote
    responses do not count against the budget.) *)
Theorem wait_for_puwv3_loop_terminates (n : nat) (full_command : string)
  (now : datetime) (timeout_count : nat) (additional : list string)
  (self : UwaveMonitor F) (w : World F) :
  is_reply (line_at readline (reads w + n)) = true
  \/ (max_timeout <= timeout_count + empty_reads readline (reads w) (S n))%nat ->
  exists r self' w',
    (forall fuel, (n + 2 <= fuel)%nat ->
       wait_for_puwv3_loop readline clock fuel full_command now timeout_count
         additional (self, w) = Some (r, (self', w')))
    /\ ((reads w' = reads w /\ (max_timeout <= timeout_count)%nat
         /\ r = Ok additional /\ self' = self /\ w' = w)
        \/ exists m',
             reads w' = (S m' + reads w)%nat
             /\ (timeout_count + empty_reads readline (reads w) m'
                 < max_timeout)%nat
             /\ (forall k, (k < m')%nat ->
                           is_reply (line_at readline (reads w + k)) = false)
             /\ (is_reply (line_at readline (reads w + m')) = true
                 \/ (line_at readline (reads w + m') = ""
                     /\ (timeout_count
                         + empty_reads readline (reads w) (S m')
                         = max_timeout)%nat
                     /\ r = Ok (additional
                                ++ collected readline (reads w) (S m'))%list
                     /\ self' = self /\ w' = advance (S m') w))).
Proof.
  intros Stop.
  destruct (@loop_terminates n full_command now timeout_count additional self w
              Stop) as [[r [self' w']] O].
  exists r, self', w'. split; [exact O|].
  exact (@loop_exact (n + 2) full_command now timeout_count additional self w
           r self' w' (O (n + 2)%nat (Nat.le_refl _))).
Qed.

(** A temperature reading with a field that [float] rejects makes
    [derive_metrics] raise before any row is written. *)
Lemma derive_metrics_failure (full_command : string) (now : datetime)
  (parsed : puwv3) (self : UwaveMonitor F) (w : World F) :
  float_of_string (value parsed) = None
  \/ float_of_string (prop_time parsed) = None
  \/ float_of_string (signal_quality parsed) = None ->
  exists e s',
    derive_metrics clock full_command now parsed (self, w) = (Raise e, s')
    /\ csv_file (snd s') = csv_file w
    /\ (float_of_string (value parsed) = None
        \/ float_of_string (prop_time parsed) = None ->
        e = ValueError /\ s' = (self, w)).
Proof.
  intros Bad. rewrite derive_metrics_unfold.
  destruct (float_of_string (value parsed)) as [temp|];
    [|exists ValueError, (self, w); auto].
  destruct (float_of_string (prop_time parsed)) as [pt|];
    [|exists ValueError, (self, w); auto].
  assert (Sq : float_of_string (signal_quality parsed) = None).
  { destruct Bad as [Bad|[Bad|Bad]]; [discriminate|discriminate|exact Bad]. }
  assert (No : Some temp = None \/ Some pt = None -> False).
  { intros [?|?]; discriminate. }
  destruct (calculate_sound_velocity self temp None None) as [sv|e].
  2:{ exists e, (self, w). repeat split; auto; contradiction. }
  cbn zeta.
  destruct (calculate_horizontal_distance (calculate_slant_range pt sv)
              (0 E- 0)%py) as [hd|e].
  2:{ exists e, (self, w). repeat split; auto; contradiction. }
  rewrite Sq. eexists. eexists. split; [reflexivity|].
  split; [reflexivity|]. intros B. contradiction.
Qed.

(** The polling loop raises only on a decoded temperature reading. *)
Lemma loop_raise (fuel : nat) :
  forall (full_command : string) (now : datetime) (timeout_count : nat)
         (additional : list string) (self : UwaveMonitor F) (w : World F)
         (e : exn) (s' : state),
    wait_for_puwv3_loop readline clock fuel full_command now timeout_count
      additional (self, w) = Some (Raise e, s') ->
    exists k,
      is_reply (line_at readline (reads w + k)) = true
      /\ temperature_reply (line_at readline (reads w + k)) = true
      /\ reads (snd s') = S (reads w + k).
Proof.
  induction fuel as [|fuel IH];
    intros full_command now tc additional self w e s' E; [discriminate|].
  rewrite loop_step in E.
  destruct (tc <? max_timeout)%nat; [|discriminate].
  cbn zeta in E.
  assert (Shift : forall k, (reads (after_read w) + k = reads w + S k)%nat).
  { intros k. cbn [reads after_read]. lia. }
  destruct (PyStr.truthy (line_at readline (reads w))) eqn:T.
  - destruct (is_reply (line_at readline (reads w))) eqn:R.
    + pose proof (on_puwv3_cases full_command now (line_at readline (reads w))
                    self (after_read w)) as C.
      cbn zeta in C.
      destruct (on_puwv3 clock full_command now (line_at readline (reads w))
                  (self, after_read w)) as [[u|e0] [self1 w1]];
        cbn [fst snd] in C; [discriminate|].
      destruct C as (C1 & _ & _ & _ & C2 & _). injection E as <- <-.
      exists 0%nat. rewrite !Nat.add_0_r. cbn [snd]. auto.
    + apply IH in E. destruct E as (k & E1 & E2 & E3).
      exists (S k). rewrite <- Shift. auto.
  - apply IH in E. destruct E as (k & E1 & E2 & E3).
    exists (S k). rewrite <- Shift. auto.
Qed.

Lemma encode_ascii_raises (text : string) (e : exn) :
  PyStr.encode_ascii text = Raise e -> e = UnicodeEncodeError.
Proof.
  induction text as [|c text IH]; simpl; [discriminate|].
  destruct (N_of_ascii c <? 128)%N; [|congruence].
  destruct (PyStr.encode_ascii text); [discriminate|].
  intros [= <-]. apply IH. reflexivity.
Qed.

(** C3 (amended): if the first remote response of the follow-up phase
    decodes to command id ["3"] with a non-empty value and [float] rejects
    its value, its propagation time or its signal quality, [send_command]
    raises: the exchange is aborted, the caller receives neither the
    primary response nor the raw sentence, and no row is written.  The
    exception is [ValueError], with the monitor untouched, when the value
    or the propagation time is at fault.  Conversely, an exchange raises
    only when the command cannot be encoded or when the follow-up phase
    has decoded such a reading: no other sentence received makes
    [send_command] raise. *)
Theorem numeric_failure_aborts_exchange (n fuel : nat) (command : string)
  (self : UwaveMonitor F) (w : World F) (bytes line : string) (parsed : puwv3) :
  port_closed self = false ->
  PyStr.encode_ascii (format_command command true ++ newline) = Ok bytes ->
  PyStr.startswith "$PUWV2" command = true ->
  (forall k, (k < n)%nat ->
             is_reply (line_at readline (S (reads w) + k)) = false) ->
  (empty_reads readline (S (reads w)) n < max_timeout)%nat ->
  line = line_at readline (S (reads w) + n) ->
  is_reply line = true ->
  parse_puwv3 line = Some parsed ->
  cmd_id parsed = "3" ->
  value parsed <> "" ->
  float_of_string (value parsed) = None
  \/ float_of_string (prop_time parsed) = None
  \/ float_of_string (signal_quality parsed) = None ->
  (exists e s',
     send_command readline clock (n + S fuel) command true true (self, w)
     = Some (Raise e, s')
     /\ csv_file (snd s') = csv_file w
     /\ (float_of_string (value parsed) = None
         \/ float_of_string (prop_time parsed) = None ->
         e = ValueError /\ fst s' = self))
  /\ (forall fuel' command' wait_for_response wait_for_puwv3 self0 w0 e s',
        send_command readline clock fuel' command' wait_for_response
          wait_for_puwv3 (self0, w0) = Some (Raise e, s') ->
        (e = UnicodeEncodeError /\ s' = (self0, w0))
        \/ (exists k,
              is_reply (line_at readline (S (reads w0) + k)) = true
              /\ temperature_reply (line_at readline (S (reads w0) + k)) = true
              /\ reads (snd s') = S (S (reads w0) + k))).
Proof.
  intros Open Enc Remote Quiet Budget Hline Reply Parsed Cmd Val Bad.
  split.
  - rewrite send_command_unfold, Open. cbn zeta. rewrite Enc, Remote.
    cbn [andb].
    set (now := clock (ticks w)).
    set (full := format_command command true).
    set (w2 := after_primary full now (line_at readline (reads w))
                 (after_send bytes w)).
    assert (R2 : reads w2 = S (reads w)) by apply after_primary_reads.
    assert (C2 : csv_file w2 = csv_file w) by apply after_primary_csv.
    rewrite loop_skip; [|rewrite R2; exact Quiet|rewrite R2; exact Budget].
    rewrite loop_step.
    assert (Htc : (0 + empty_reads readline (reads w2) n <? max_timeout)%nat
                  = true).
    { apply Nat.ltb_lt. rewrite R2. exact Budget. }
    rewrite Htc. cbn zeta. cbn [reads advance]. rewrite R2.
    replace (n + S (reads w))%nat with (S (reads w) + n)%nat by lia.
    rewrite <- Hline.
    rewrite (startswith_truthy "$PUWV3" line eq_refl Reply), Reply.
    unfold on_puwv3. rewrite Parsed, Cmd.
    assert (T : PyStr.truthy (value parsed) = true).
    { destruct (value parsed); [contradiction Val; reflexivity|reflexivity]. }
    rewrite T. cbn [String.eqb Ascii.eqb Bool.eqb andb].
    destruct (derive_metrics_failure full now parsed self
                (after_read (advance n w2)) Bad) as (e & s' & D1 & D2 & D3).
    rewrite D1. exists e, s'. split; [reflexivity|].
    split; [rewrite D2; exact C2|].
    intros B. destruct (D3 B) as [-> ->]. auto.
  - clear. intros fuel' command' wait_for_response wait_for_puwv3 self0 w0 e s' E.
    rewrite send_command_unfold in E.
    destruct (port_closed self0); [discriminate|]. cbn zeta in E.
    destruct (PyStr.encode_ascii _) as [bytes0|e0] eqn:Enc0.
    2:{ injection E as <- <-. left.
        split; [exact (encode_ascii_raises _ Enc0)|reflexivity]. }
    destruct wait_for_response; [|discriminate].
    destruct (wait_for_puwv3 && PyStr.startswith "$PUWV2" command');
      [|discriminate].
    destruct (wait_for_puwv3_loop _ _ _ _ _ _ _ _) as [[[additional|e1] s1]|] eqn:L;
      try discriminate.
    injection E as <- <-. right.
    apply loop_raise in L. rewrite after_primary_reads in L. exact L.
Qed.

(** A link that keeps sending the same line, one that is neither empty
    nor a remote response, keeps the loop polling: whatever the fuel, it
    runs out. *)
Lemma loop_chatter (noise : string) :
  PyStr.truthy noise = true ->
  is_reply noise = false ->
  (forall k, line_at readline k = noise) ->
  forall (fuel : nat) (full_command : string) (now : datetime)
         (timeout_count : nat) (additional : list string)
         (self : UwaveMonitor F) (w : World F),
    (timeout_count < max_timeout)%nat ->
    wait_for_puwv3_loop readline clock fuel full_command now timeout_count
      additional (self, w) = None.
Proof.
  intros T R L fuel.
  induction fuel as [|fuel IH]; intros full_command now tc additional self w B;
    [reflexivity|].
  rewrite loop_step. apply Nat.ltb_lt in B. rewrite B.
  cbn zeta. rewrite L, T, R. apply IH. apply Nat.ltb_lt. exact B.
Qed.

(** Past position [a] every read is empty: a window of reads has at least
    as many empty reads as it has positions beyond [a]. *)
Lemma empty_reads_silence (a : nat) :
  (forall k, (a <= k)%nat -> line_at readline k = "") ->
  forall n from, (from + n - Nat.max from a <= empty_reads readline from n)%nat.
Proof.
  intros Silent n. induction n as [|n IH]; intros from; [cbn; lia|].
  cbn [empty_reads]. specialize (IH (S from)).
  destruct (Nat.le_gt_cases a from) as [L|L].
  - rewrite (Silent from L). cbn [PyStr.truthy]. lia.
  - destruct (PyStr.truthy (line_at readline from)); lia.
Qed.

End ExchangeProofs.

(** X1: on a link that delivers finitely many lines and then stays silent
    the polling loop always ends, within as many iterations as there are
    lines plus the budget. *)
Lemma loop_terminates_on_finite_input {F : Type} `{PyArith F} `{PyParse F}
  (lines : list string) (clock : nat -> datetime) (full_command : string)
  (now : datetime) (timeout_count : nat) (additional : list string)
  (self : UwaveMonitor F) (w : World F) :
  exists out,
    forall fuel, (List.length lines + max_timeout + 2 <= fuel)%nat ->
      wait_for_puwv3_loop (delivering lines) clock fuel full_command now
        timeout_count additional (self, w) = Some out.
Proof.
  destruct (@loop_terminates F _ _ (delivering lines) clock
              (List.length lines + max_timeout) full_command now timeout_count
              additional self w) as [out O].
  - right.
    assert (Silent : forall k, (List.length lines <= k)%nat ->
                               line_at (delivering lines) k = "").
    { intros k Hk. unfold line_at, delivering.
      apply nth_error_None in Hk. rewrite Hk. reflexivity. }
    pose proof (@empty_reads_silence (delivering lines) (List.length lines)
                  Silent (S (List.length lines + max_timeout)) (reads w)) as E.
    lia.
  - exists out. intros fuel Hf. apply O. lia.
Qed.

Lemma send_command_port_closed_witness :
  send_command (delivering ["$PUWV0,2,0*35"]) ticking 0 "$PUWV2,0,0,3" true true
    (init (F := PrimFloat.float), empty_world)
  = Some (Ok (None, []), (init, empty_world)).
Proof.
  apply (@send_command_port_closed PrimFloat.float _ _).
  left. reflexivity.
Defined.

(** C7 (defect of the code): a modem that keeps sending acknowledgements,
    which are neither empty reads nor remote responses, keeps the
    follow-up loop of a remote temperature request polling for ever: no
    number of iterations ends it, although the source announces a wait of
    five seconds at most. *)
Lemma followup_loop_runs_forever :
  ~ exists fuel out,
      send_command (repeating "$PUWV0,2,0*35") ticking fuel "$PUWV2,0,0,3"
        true true (connected (F := PrimFloat.float), empty_world)
      = Some out.
Proof.
  intros (fuel & out & E).
  rewrite send_command_unfold in E.
  change (port_closed (connected (F := PrimFloat.float))) with false in E.
  cbn zeta in E.
  assert (Enc : PyStr.encode_ascii (format_command "$PUWV2,0,0,3" true ++ newline)
                = Ok ("$PUWV2,0,0,3*29" ++ newline)) by reflexivity.
  rewrite Enc in E.
  change (true && PyStr.startswith "$PUWV2" "$PUWV2,0,0,3") with true in E.
  rewrite (@loop_chatter PrimFloat.float _ _ (repeating "$PUWV0,2,0*35") ticking
             "$PUWV0,2,0*35") in E; try reflexivity; try discriminate.
  unfold max_timeout. lia.
Qed.

Lemma wait_for_puwv3_loop_terminates_witness :
  exists r self' w',
    (forall fuel, (1 + 2 <= fuel)%nat ->
       wait_for_puwv3_loop (delivering ["$PUWV0,2,0*35"; "$PUWV3,0,0,0.01,20"])
         ticking fuel "$PUWV2,0,0,0*2A" 0%Z 0 []
         (connected (F := PrimFloat.float), empty_world)
       = Some (r, (self', w')))
    /\ reads w' = 2%nat.
Proof.
  destruct (@wait_for_puwv3_loop_terminates PrimFloat.float _ _
              (delivering ["$PUWV0,2,0*35"; "$PUWV3,0,0,0.01,20"]) ticking 1
              "$PUWV2,0,0,0*2A" 0%Z 0 [] connected empty_world)
    as (r & self' & w' & O & E).
  - left. reflexivity.
  - exists r, self', w'. split; [exact O|].
    destruct E as [(_ & B & _)|(m' & E1 & E2 & E3 & E4)].
    + unfold max_timeout in B. lia.
    + cbn [reads empty_world] in *. rewrite E1, Nat.add_0_r. f_equal.
      destruct m' as [|[|m']]; [|reflexivity|].
      * destruct E4 as [E4|(E4 & _)]; discriminate E4.
      * specialize (E3 1%nat ltac:(lia)). discriminate E3.
Defined.

(** C6, as stated, fails: a remote response that decodes with command id
    ["3"] and a non-empty value, but whose signal-quality field is empty,
    produces no row; the exchange raises [ValueError] instead. *)
Lemma temperature_reply_without_sample :
  temperature_reply "$PUWV3,0,3,0.01,,20.5" = true
  /\ exists s',
       send_command (delivering ["$PUWV0,2,0*35"; "$PUWV3,0,3,0.01,,20.5"])
         ticking 3 "$PUWV2,0,0,3" true true
         (connected (F := PrimFloat.float), empty_world)
       = Some (Raise ValueError, s')
       /\ csv_file (snd s') = [].
Proof.
  split; [reflexivity|].
  eexists. split; [vm_compute; reflexivity|reflexivity].
Qed.

Lemma metrics_only_for_temperature_witness :
  exists main_response additional_responses s',
    send_command (delivering ["$PUWV0,2,0*35"; "$PUWV3,0,3,0.01,20,20.0"])
      ticking 3 "$PUWV2,0,0,3" true true
      (connected (F := PrimFloat.float), empty_world)
    = Some (Ok (main_response, additional_responses), s')
    /\ (if decoded_temperature additional_responses
        then exists row,
               csv_file (snd s')
               = (csv_file (empty_world (F := PrimFloat.float)) ++ [row])%list
               /\ row_cmd_id row = "3"
               /\ row_command row = format_command "$PUWV2,0,0,3" true
        else csv_file (snd s') = csv_file (empty_world (F := PrimFloat.float)))
    /\ (forall line parsed,
          parse_puwv3 line = Some parsed ->
          cmd_id parsed = "0" \/ cmd_id parsed = "2" \/ cmd_id parsed = "4"
          \/ value parsed = "" ->
          temperature_reply line = false).
Proof.
  eexists. eexists. eexists.
  assert (E : send_command (delivering ["$PUWV0,2,0*35"; "$PUWV3,0,3,0.01,20,20.0"])
                ticking 3 "$PUWV2,0,0,3" true true
                (connected (F := PrimFloat.float), empty_world)
              = Some (Ok (Some "$PUWV0,2,0*35", ["$PUWV3,0,3,0.01,20,20.0"]),
                      ltac:(let v := eval vm_compute in
                              (match send_command
                                       (delivering ["$PUWV0,2,0*35";
                                                    "$PUWV3,0,3,0.01,20,20.0"])
                                       ticking 3 "$PUWV2,0,0,3" true true
                                       (connected (F := PrimFloat.float),
                                        empty_world) with
                               | Some (_, s) => s
                               | None => (connected, empty_world)
                               end) in exact v)))
    by (vm_compute; reflexivity).
  split; [exact E|].
  exact (@metrics_only_for_temperature PrimFloat.float _ _ _ _ _ _ _ _ _ _ _ _ E).
Defined.

(** C3, as stated, fails: when the value of a temperature reading is not a
    number, [send_command] raises [ValueError].  The exchange is aborted:
    nothing is returned, the received sentence is not logged, and the
    caller gets no raw text. *)
Lemma unparsable_value_aborts_send :
  send_command (delivering ["$PUWV0,2,0*35"; "$PUWV3,0,3,0.01,20,abc"])
    ticking 3 "$PUWV2,0,0,3" true true
    (connected (F := PrimFloat.float), empty_world)
  = Some (Raise ValueError,
          (connected,
           {| reads := 2;
              written := ["$PUWV2,0,0,3*29" ++ newline];
              ticks := 1;
              log_file := [TX 0%Z "$PUWV2,0,0,3*29"; RX 0%Z "$PUWV0,2,0*35"];
              csv_file := [] |})).
Proof. vm_compute. reflexivity. Qed.

Lemma numeric_failure_aborts_exchange_witness :
  exists e s',
    send_command (delivering ["$PUWV0,2,0*35"; "$PUWV3,0,3,0.01,20,abc"])
      ticking (0 + 1) "$PUWV2,0,0,3" true true
      (connected (F := PrimFloat.float), empty_world)
    = Some (Raise e, s')
    /\ csv_file (snd s') = csv_file (empty_world (F := PrimFloat.float))
    /\ (float_of_string (F := PrimFloat.float) "abc" = None
        \/ float_of_string (F := PrimFloat.float) "0.01" = None ->
        e = ValueError /\ fst s' = connected).
Proof.
  apply (@numeric_failure_aborts_exchange PrimFloat.float _ _
           (delivering ["$PUWV0,2,0*35"; "$PUWV3,0,3,0.01,20,abc"]) ticking
           0 0 "$PUWV2,0,0,3" connected empty_world
           ("$PUWV2,0,0,3*29" ++ newline) "$PUWV3,0,3,0.01,20,abc"
           {| cmd_type := "$PUWV";
              remote_addr := "0";
              cmd_id := "3";
              prop_time := "0.01";
              signal_quality := "20";
              value := "abc";
              azimuth := "" |}).
  - reflexivity.
  - reflexivity.
  - reflexivity.
  - intros k Hk. lia.
  - cbn. unfold max_timeout. lia.
  - reflexivity.
  - reflexivity.
  - reflexivity.
  - reflexivity.
  - discriminate.
  - left. reflexivity.
Defined.

(** ** Further properties *)

Lemma split_at_delimiter (sep : ascii) (s t : string) :
  PyStr.contains sep s = false ->
  hd EmptyString (PyStr.split sep (s ++ String sep t)) = s.
Proof.
  induction s as [|c s IH]; simpl; intros E.
  - rewrite Ascii.eqb_refl. reflexivity.
  - apply orb_false_iff in E as [E1 E2]. rewrite E1.
    specialize (IH E2).
    destruct (PyStr.split sep (s ++ String sep t)) as [|w ws]; simpl in *;
      congruence.
Qed.

Lemma lstrip_before_delimiter (s t : string) :
  PyStr.lstrip "$" (s ++ String "*" t) = PyStr.lstrip "$" s ++ String "*" t.
Proof.
  induction s as [|c s IH]; simpl; [reflexivity|].
  destruct (Ascii.eqb c "$"); [exact IH|reflexivity].
Qed.

Lemma contains_delimiter (sep : ascii) (s t : string) :
  PyStr.contains sep (s ++ String sep t) = true.
Proof.
  induction s as [|c s IH]; simpl.
  - rewrite Ascii.eqb_refl. reflexivity.
  - rewrite IH. apply orb_true_r.
Qed.

Lemma format_command_kept (command : string) :
  PyStr.contains "*" command = true -> format_command command true = command.
Proof. intros E. unfold format_command. rewrite E. reflexivity. Qed.

Lemma format_command_framed (command : string) :
  PyStr.contains "*" command = false ->
  format_command command true
  = command ++ String "*" (calculate_nmea_checksum command).
Proof. intros E. unfold format_command. rewrite E. reflexivity. Qed.

Lemma split_app_delimiter (sep : ascii) (s t : string) :
  PyStr.contains sep s = false ->
  PyStr.split sep (s ++ String sep t) = s :: PyStr.split sep t.
Proof.
  induction s as [|c s IH]; simpl; intros E.
  - rewrite Ascii.eqb_refl. reflexivity.
  - apply orb_false_iff in E as [E1 E2]. rewrite E1, (IH E2). reflexivity.
Qed.

Lemma two_digits_plain :
  forallb (fun x => negb (PyStr.contains "*" (two_digits x)))
          (map N.of_nat (seq 0 256)) = true.
Proof. vm_compute. reflexivity. Qed.

(** The checksum digits do not hold the delimiter. *)
Lemma checksum_two_digits (sentence : string) :
  String.length (calculate_nmea_checksum sentence) = 2%nat
  /\ PyStr.contains "*" (calculate_nmea_checksum sentence) = false.
Proof.
  unfold calculate_nmea_checksum.
  assert (B : (xor_ords 0 (checksum_part sentence) < 256)%N)
    by (apply xor_ords_byte; reflexivity).
  destruct (format_02X_byte B) as (-> & _).
  split; [reflexivity|].
  pose proof two_digits_plain as A. rewrite forallb_forall in A.
  apply negb_true_iff, A, in_map_iff.
  exists (N.to_nat (xor_ords 0 (checksum_part sentence))).
  split; [apply N2Nat.id|]. apply in_seq. lia.
Qed.

(** X2: framing and reading back.  A command without ['*'] is framed as
    the command, a ['*'] and the checksum digits; these are the checksum
    of the command and also the checksum a receiver computes over the
    framed sentence, and splitting the framed sentence at ['*'] gives back
    the command and the digits.  A text that already holds a ['*'] is
    returned as it is, whatever follows the ['*']: a wrong checksum is
    neither checked nor replaced.  Framing a framed command changes
    nothing. *)
Theorem format_command_round_trip (command : string) :
  (PyStr.contains "*" command = false ->
   let framed := format_command command true in
   framed = command ++ "*" ++ calculate_nmea_checksum framed
   /\ calculate_nmea_checksum framed = calculate_nmea_checksum command
   /\ PyStr.split "*" framed = [command; calculate_nmea_checksum framed])
  /\ (PyStr.contains "*" command = true ->
      format_command command true = command)
  /\ format_command (format_command command true) true
     = format_command command true
  /\ format_command "$PUWV?,0*00" true = "$PUWV?,0*00"
  /\ calculate_nmea_checksum "$PUWV?,0*00" = "27".
Proof.
  assert (Same : PyStr.contains "*" command = false ->
                 calculate_nmea_checksum (format_command command true)
                 = calculate_nmea_checksum command).
  { intros E. rewrite (format_command_framed _ E).
    unfold calculate_nmea_checksum, checksum_part. f_equal. f_equal.
    rewrite lstrip_before_delimiter, split_at_delimiter
      by (apply contains_lstrip; exact E).
    rewrite split_absent by (apply contains_lstrip; exact E). reflexivity. }
  split; [|split; [apply format_command_kept|split; [|split; reflexivity]]].
  - intros E. cbn zeta. rewrite (Same E).
    destruct (checksum_two_digits command) as [L P].
    split; [apply format_command_framed, E|]. split; [reflexivity|].
    rewrite (format_command_framed _ E), (@split_app_delimiter "*" command _ E).
    rewrite (split_absent _ _ P). reflexivity.
  - destruct (PyStr.contains "*" command) eqn:E.
    + rewrite (format_command_kept _ E). apply format_command_kept, E.
    + rewrite (format_command_framed _ E).
      apply format_command_kept, contains_delimiter.
Qed.

(** ** Checksum: what it detects and what it misses *)

Lemma xor_ords_acc (s : string) (acc : N) :
  xor_ords acc s = N.lxor acc (xor_ords 0 s).
Proof.
  revert acc. induction s as [|c s IH]; intros acc; cbn [xor_ords].
  - rewrite N.lxor_0_r. reflexivity.
  - rewrite (IH (N.lxor acc _)), (IH (N.lxor 0 _)), N.lxor_0_l, N.lxor_assoc.
    reflexivity.
Qed.

Lemma xor_ords_app (s t : string) (acc : N) :
  xor_ords acc (s ++ t) = xor_ords (xor_ords acc s) t.
Proof.
  revert acc. induction s as [|c s IH]; intros acc; simpl; [reflexivity|].
  apply IH.
Qed.

Lemma lxor_cancel_l (a b c : N) : N.lxor a b = N.lxor a c -> b = c.
Proof.
  intros E. apply (f_equal (N.lxor a)) in E.
  rewrite <- !N.lxor_assoc, N.lxor_nilpotent, !N.lxor_0_l in E. exact E.
Qed.

Lemma lxor_cancel_r (a b c : N) : N.lxor b a = N.lxor c a -> b = c.
Proof.
  rewrite (N.lxor_comm b a), (N.lxor_comm c a). apply lxor_cancel_l.
Qed.

Lemma N_of_ascii_inj (c1 c2 : ascii) : N_of_ascii c1 = N_of_ascii c2 -> c1 = c2.
Proof.
  intros E. rewrite <- (ascii_N_embedding c1), <- (ascii_N_embedding c2), E.
  reflexivity.
Qed.

(** The rendering of a byte determines the byte. *)
Lemma format_02X_inj (x y : N) :
  (x < 256)%N -> (y < 256)%N ->
  PyStr.format_02X x = PyStr.format_02X y -> x = y.
Proof.
  intros Hx Hy E.
  destruct (format_02X_byte Hx) as (Fx & Hx1 & Hx2).
  destruct (format_02X_byte Hy) as (Fy & Hy1 & Hy2).
  rewrite Fx, Fy in E. unfold two_digits in E. injection E as E1 E2.
  rewrite E1 in Hx1. rewrite E2 in Hx2.
  assert (Q : (x / 16 = y / 16)%N) by congruence.
  assert (M : (x mod 16 = y mod 16)%N) by congruence.
  rewrite (N.div_mod x 16), (N.div_mod y 16) by discriminate.
  rewrite Q, M. reflexivity.
Qed.

Lemma split_head_app (sep : ascii) (s t : string) :
  PyStr.contains sep s = false ->
  hd EmptyString (PyStr.split sep (s ++ t))
  = s ++ hd EmptyString (PyStr.split sep t).
Proof.
  induction s as [|c s IH]; simpl; intros E; [reflexivity|].
  apply orb_false_iff in E as [E1 E2]. rewrite E1.
  specialize (IH E2).
  destruct (PyStr.split sep (s ++ t)) as [|w ws]; simpl in *; congruence.
Qed.

Lemma lstrip_app_other (c d : ascii) (s t : string) :
  d <> c ->
  PyStr.lstrip c (s ++ String d t) = PyStr.lstrip c s ++ String d t.
Proof.
  intros N. induction s as [|a s IH]; simpl.
  - destruct (Ascii.eqb_spec d c); [contradiction|reflexivity].
  - destruct (Ascii.eqb a c); [exact IH|reflexivity].
Qed.

(** The part of a sentence that is checksummed, when a character other
    than the sentinel and the delimiter follows a delimiter-free prefix. *)
Lemma checksum_part_app (a b : string) (c : ascii) :
  PyStr.contains "*" a = false -> c <> "*"%char -> c <> "$"%char ->
  checksum_part (a ++ String c b)
  = PyStr.lstrip "$" a ++ String c (hd EmptyString (PyStr.split "*" b)).
Proof.
  intros A N1 N2. unfold checksum_part.
  rewrite lstrip_app_other by exact N2.
  rewrite split_head_app by (apply contains_lstrip; exact A).
  f_equal. simpl.
  destruct (Ascii.eqb_spec c "*"); [contradiction|].
  destruct (split_cons "*" b) as (w & ws & ->). reflexivity.
Qed.

(** X3: replacing one character of the checksummed part of a sentence by a
    different one (neither being the sentinel nor the delimiter) always
    changes the checksum. *)
Theorem checksum_detects_substitution (a b : string) (c1 c2 : ascii) :
  PyStr.contains "*" a = false ->
  c1 <> "*"%char -> c1 <> "$"%char ->
  c2 <> "*"%char -> c2 <> "$"%char ->
  c1 <> c2 ->
  calculate_nmea_checksum (a ++ String c1 b)
  <> calculate_nmea_checksum (a ++ String c2 b).
Proof.
  intros A S1 D1 S2 D2 Diff E. unfold calculate_nmea_checksum in E.
  apply format_02X_inj in E; try (apply xor_ords_byte; reflexivity).
  rewrite !checksum_part_app in E by assumption.
  rewrite !xor_ords_app in E. cbn [xor_ords] in E.
  rewrite (xor_ords_acc _ (N.lxor _ (N_of_ascii c1))) in E.
  rewrite (xor_ords_acc _ (N.lxor _ (N_of_ascii c2))) in E.
  apply lxor_cancel_r, lxor_cancel_l in E.
  apply Diff, N_of_ascii_inj, E.
Qed.

Lemma checksum_detects_substitution_witness :
  calculate_nmea_checksum ("$PUWV2,0,0," ++ String "3" "")
  <> calculate_nmea_checksum ("$PUWV2,0,0," ++ String "2" "").
Proof.
  apply checksum_detects_substitution; try reflexivity; discriminate.
Defined.

Lemma xor_ords_permutation (l l' : list ascii) :
  Permutation l l' ->
  forall acc, xor_ords acc (string_of_list_ascii l)
              = xor_ords acc (string_of_list_ascii l').
Proof.
  induction 1 as [|x l l' P IH|x y l|l l' l'' P1 IH1 P2 IH2]; intros acc; simpl.
  - reflexivity.
  - apply IH.
  - f_equal. rewrite !N.lxor_assoc. f_equal. apply N.lxor_comm.
  - rewrite IH1. apply IH2.
Qed.

Lemma lstrip_absent (c : ascii) (s : string) :
  PyStr.contains c s = false -> PyStr.lstrip c s = s.
Proof.
  destruct s as [|a s]; simpl; [reflexivity|].
  intros E. apply orb_false_iff in E as [-> _]. reflexivity.
Qed.

(** X4: the checksum does not see the order of the characters: two
    payloads made of the same characters (none of them the sentinel or the
    delimiter) get the same checksum, with or without the leading
    sentinel, so [format_command] appends the same two digits to both. *)
Theorem checksum_blind_to_reordering (p q : string) :
  PyStr.contains "$" p = false -> PyStr.contains "*" p = false ->
  PyStr.contains "$" q = false -> PyStr.contains "*" q = false ->
  Permutation (list_ascii_of_string p) (list_ascii_of_string q) ->
  calculate_nmea_checksum p = calculate_nmea_checksum q
  /\ calculate_nmea_checksum (String "$" p) = calculate_nmea_checksum (String "$" q)
  /\ format_command (String "$" p) true
     = String "$" p ++ "*" ++ calculate_nmea_checksum p
  /\ format_command (String "$" q) true
     = String "$" q ++ "*" ++ calculate_nmea_checksum p.
Proof.
  intros Dp Sp Dq Sq P.
  assert (Part : forall s, PyStr.contains "$" s = false ->
                           PyStr.contains "*" s = false ->
                           checksum_part s = s /\ checksum_part (String "$" s) = s).
  { intros s D S. unfold checksum_part. cbn [PyStr.lstrip].
    rewrite Ascii.eqb_refl, (lstrip_absent _ _ D), (split_absent _ _ S).
    split; reflexivity. }
  destruct (Part p Dp Sp) as [P1 P2]. destruct (Part q Dq Sq) as [Q1 Q2].
  assert (X : xor_ords 0 p = xor_ords 0 q).
  { rewrite <- (string_of_list_ascii_of_string p),
            <- (string_of_list_ascii_of_string q).
    apply xor_ords_permutation, P. }
  assert (C : calculate_nmea_checksum p = calculate_nmea_checksum q).
  { unfold calculate_nmea_checksum. rewrite P1, Q1, X. reflexivity. }
  assert (C' : forall s, calculate_nmea_checksum (String "$" s)
                         = PyStr.format_02X (xor_ords 0 (checksum_part (String "$" s))))
    by reflexivity.
  split; [exact C|]. split.
  - rewrite !C', P2, Q2, X. reflexivity.
  - unfold format_command. cbn [negb orb PyStr.contains].
    change (Ascii.eqb "$" "*") with false. cbn [orb]. rewrite Sp, Sq.
    rewrite !C', P2, Q2, <- X. unfold calculate_nmea_checksum. rewrite P1.
    split; reflexivity.
Qed.

Lemma checksum_blind_to_reordering_witness :
  calculate_nmea_checksum "PUWV2,0,0,3" = calculate_nmea_checksum "PUWV3,0,0,2"
  /\ calculate_nmea_checksum (String "$" "PUWV2,0,0,3")
     = calculate_nmea_checksum (String "$" "PUWV3,0,0,2")
  /\ format_command (String "$" "PUWV2,0,0,3") true
     = String "$" "PUWV2,0,0,3" ++ "*" ++ calculate_nmea_checksum "PUWV2,0,0,3"
  /\ format_command (String "$" "PUWV3,0,0,2") true
     = String "$" "PUWV3,0,0,2" ++ "*" ++ calculate_nmea_checksum "PUWV2,0,0,3".
Proof.
  apply checksum_blind_to_reordering; try reflexivity.
  cbn [list_ascii_of_string].
  apply perm_skip, perm_skip, perm_skip, perm_skip.
  pose (m := ("," :: "0" :: "," :: "0" :: "," :: nil)%char).
  apply (Permutation_trans (l' := ("2" :: "3" :: m)%char)).
  - apply perm_skip.
    exact (Permutation_sym (Permutation_cons_append m "3"%char)).
  - apply (Permutation_trans (l' := ("3" :: "2" :: m)%char)); [apply perm_swap|].
    apply perm_skip. exact (Permutation_cons_append m "2"%char).
Defined.

(** ** Decoders: the checksum is not looked at *)

Lemma parts_of_checksum (body checksum : string) :
  PyStr.contains "*" body = false ->
  parts_of (body ++ String "*" checksum) = parts_of body.
Proof.
  intros B. unfold parts_of.
  rewrite (split_at_delimiter _ _ _ B), (split_absent _ _ B). reflexivity.
Qed.

(** X5: the three decoders read a sentence up to its first ['*'] only:
    whatever follows, whether the right checksum, a wrong one or none at
    all, the same record comes back (and, for device information, the same
    salinity is stored). *)
Theorem decoders_ignore_checksum {F : Type} `{PyParse F}
  (self : UwaveMonitor F) (body checksum : string) :
  PyStr.contains "*" body = false ->
  parse_puwv3 (body ++ "*" ++ checksum) = parse_puwv3 body
  /\ parse_puwve (body ++ "*" ++ checksum) = parse_puwve body
  /\ parse_puwv_bang self (body ++ "*" ++ checksum) = parse_puwv_bang self body.
Proof.
  intros B.
  assert (Fd : fields (body ++ "*" ++ checksum) = fields body).
  { rewrite !fields_parts_of. f_equal. apply parts_of_checksum, B. }
  split; [|split].
  - unfold parse_puwv3, parse_puwv3_body. rewrite Fd. reflexivity.
  - unfold parse_puwve, parse_puwve_body. rewrite Fd. reflexivity.
  - unfold parse_puwv_bang, parse_puwv_bang_body. rewrite Fd. reflexivity.
Qed.

Lemma decoders_ignore_checksum_witness :
  parse_puwv3 ("$PUWV3,0,3,0.01,20,21.5" ++ "*" ++ "ZZ")
  = parse_puwv3 "$PUWV3,0,3,0.01,20,21.5"
  /\ parse_puwve ("$PUWV3,0,3,0.01,20,21.5" ++ "*" ++ "ZZ")
     = parse_puwve "$PUWV3,0,3,0.01,20,21.5"
  /\ parse_puwv_bang (init (F := PrimFloat.float))
       ("$PUWV3,0,3,0.01,20,21.5" ++ "*" ++ "ZZ")
     = parse_puwv_bang init "$PUWV3,0,3,0.01,20,21.5".
Proof.
  apply (@decoders_ignore_checksum PrimFloat.float _ init
           "$PUWV3,0,3,0.01,20,21.5" "ZZ").
  reflexivity.
Defined.

Lemma take_prefix (tag rest : string) :
  PyStr.take (String.length tag) (tag ++ rest) = tag.
Proof. induction tag as [|c tag IH]; simpl; [destruct rest|]; congruence. Qed.

Lemma split_head_prefix (sep : ascii) (tag rest : string) :
  PyStr.contains sep tag = false ->
  exists tail, hd EmptyString (PyStr.split sep (tag ++ rest)) = tag ++ tail.
Proof.
  intros T. rewrite (split_head_app _ _ _ T). eauto.
Qed.

Lemma startswith_app (p s : string) :
  PyStr.startswith p s = true -> exists rest, s = p ++ rest.
Proof.
  unfold PyStr.startswith. revert s.
  induction p as [|c p IH]; intros s E; [exists s; reflexivity|].
  destruct s as [|d s]; [discriminate|]. simpl in E.
  destruct (ascii_dec c d) as [<-|]; [|discriminate].
  destruct (IH s E) as [rest ->]. exists rest. reflexivity.
Qed.

(** X6: [parse_puwve] returns [None] exactly when the sentence has fewer
    than three fields; otherwise the record holds fields 1 and 2 as they
    were received, further fields are ignored, and the tag is cut to five
    characters, so that every sentence of the protocol, whatever its type,
    gets the command type ["$PUWV"]. *)
Theorem parse_puwve_fields (response : string) :
  let parts := parts_of response in
  parse_puwve response =
    (if (List.length parts <? 3)%nat then None
     else Some {| e_cmd_type := PyStr.take 5 (nth 0 parts "");
                  is_pt_mode := nth 1 parts "";
                  pt_local_address := nth 2 parts "" |})
  /\ (forall parsed,
        PyStr.startswith "$PUWV" response = true ->
        parse_puwve response = Some parsed ->
        e_cmd_type parsed = "$PUWV").
Proof.
  cbn zeta.
  assert (E : parse_puwve response =
              if (List.length (parts_of response) <? 3)%nat then None
              else Some {| e_cmd_type := PyStr.take 5 (nth 0 (parts_of response) "");
                           is_pt_mode := nth 1 (parts_of response) "";
                           pt_local_address := nth 2 (parts_of response) "" |}).
  { unfold parse_puwve, parse_puwve_body. rewrite fields_parts_of.
    generalize (parts_of response). intros parts.
    destruct parts as [|p0 [|p1 [|p2 rest]]]; reflexivity. }
  split; [exact E|].
  intros parsed Tag P. rewrite E in P.
  destruct (List.length (parts_of response) <? 3)%nat; [discriminate|].
  injection P as <-. cbn [e_cmd_type].
  destruct (startswith_app _ _ Tag) as [rest ->].
  unfold parts_of.
  destruct (split_head_prefix "*" "$PUWV" rest eq_refl) as [t1 ->].
  destruct (split_head_prefix "," "$PUWV" t1 eq_refl) as [t2 H2].
  destruct (split_cons "," ("$PUWV" ++ t1)) as (w & ws & Sp).
  rewrite Sp in *. cbn [hd nth] in *. rewrite H2.
  exact (@take_prefix "$PUWV" t2).
Qed.

(** ** Metrics: the range history *)

Section MetricsGeometry.

Open Scope R_scope.

Lemma total_seconds_sign (delta : Z) :
  ((delta <= 0)%Z -> total_seconds (F := R) delta <= 0)
  /\ ((0 < delta)%Z -> 0 < total_seconds (F := R) delta).
Proof.
  rewrite total_seconds_R. split; intros L.
  - apply IZR_le in L. lra.
  - apply IZR_lt in L. lra.
Qed.

(** One call on a monitor whose history is set: an observation stamped
    later replaces it, any other is dropped. *)
Lemma velocity_step_R (self : UwaveMonitor R) (r last : R) (t last_time : datetime) :
  last_range self = Some last -> last_range_time self = Some last_time ->
  calculate_velocity self r t
  = if (last_time <? t)%Z
    then ((r - last) / total_seconds (t - last_time), set_last self r t)
    else (0, self).
Proof.
  intros L T. destruct (velocity_R self r t) as [_ V].
  destruct (V last last_time L T) as [V1 V2].
  destruct (total_seconds_sign (t - last_time)) as [S1 S2].
  destruct (Z.ltb_spec last_time t) as [Lt|Ge].
  - apply V2, S2. lia.
  - apply V1, S1. lia.
Qed.

(** X11: once the history is set it stays set, and whatever the order in
    which observations arrive it ends up stamped with the latest time seen:
    an observation that is not later than the stored one never replaces
    it (over the reals). *)
Theorem velocity_history_keeps_latest (observations : list (R * datetime)) :
  forall (self : UwaveMonitor R) (r0 : R) (t0 : datetime),
    last_range self = Some r0 ->
    last_range_time self = Some t0 ->
    last_range_time (snd (velocities self observations))
    = Some (latest t0 observations)
    /\ (exists r, last_range (snd (velocities self observations)) = Some r
                  /\ (r = r0 \/ In r (map fst observations)))
    /\ ser (snd (velocities self observations)) = ser self
    /\ salinity (snd (velocities self observations)) = salinity self.
Proof.
  induction observations as [|[r t] rest IH]; intros self r0 t0 L T.
  - cbn. repeat split; auto. exists r0. auto.
  - cbn [velocities]. rewrite (velocity_step_R self r t L T).
    unfold latest. cbn [fold_left snd map].
    destruct (Z.ltb_spec t0 t) as [Lt|Ge].
    + destruct (IH (set_last self r t) r t eq_refl eq_refl)
        as (I1 & (r' & I2 & I3) & I4 & I5).
      destruct (velocities (set_last self r t) rest) as [vs self''].
      cbn [fst snd] in *. rewrite Z.max_r by lia.
      repeat split; auto.
      exists r'. split; [exact I2|]. right.
      destruct I3 as [->|I3]; [left; reflexivity|right; exact I3].
    + destruct (IH self r0 t0 L T) as (I1 & (r' & I2 & I3) & I4 & I5).
      destruct (velocities self rest) as [vs self''].
      cbn [fst snd] in *. rewrite Z.max_l by lia.
      repeat split; auto.
      exists r'. split; [exact I2|].
      destruct I3 as [->|I3]; [left; reflexivity|right; right; exact I3].
Qed.

Lemma velocity_history_keeps_latest_witness :
  last_range_time (snd (velocities (set_last init 100 5000000%Z)
                          [(102, 1000000%Z); (101, 7000000%Z); (99, 6000000%Z)]))
  = Some (latest 5000000%Z [(102, 1000000%Z); (101, 7000000%Z); (99, 6000000%Z)])
  /\ (exists r,
        last_range (snd (velocities (set_last init 100 5000000%Z)
                           [(102, 1000000%Z); (101, 7000000%Z); (99, 6000000%Z)]))
        = Some r
        /\ (r = 100 \/ In r (map fst [(102, 1000000%Z); (101, 7000000%Z);
                                       (99, 6000000%Z)])))
  /\ ser (snd (velocities (set_last init 100 5000000%Z)
                 [(102, 1000000%Z); (101, 7000000%Z); (99, 6000000%Z)]))
     = ser (set_last init 100 5000000%Z)
  /\ salinity (snd (velocities (set_last init 100 5000000%Z)
                      [(102, 1000000%Z); (101, 7000000%Z); (99, 6000000%Z)]))
     = salinity (set_last init 100 5000000%Z).
Proof.
  apply (velocity_history_keeps_latest
           [(102, 1000000%Z); (101, 7000000%Z); (99, 6000000%Z)]
           (set_last init 100 5000000%Z) (r0 := 100) (t0 := 5000000%Z));
    reflexivity.
Defined.

End MetricsGeometry.

(** ** The command exchange: effects and shape of the result *)

Section ExchangeEffects.

Context {F : Type} `{PyArith F} `{PyParse F}.

Variable readline : nat -> string.
Variable clock : nat -> datetime.

Lemma on_puwv3_effects (full_command : string) (now : datetime) (line : string)
  (self : UwaveMonitor F) (w : World F) :
  let out := on_puwv3 clock full_command now line (self, w) in
  salinity (fst (snd out)) = salinity self
  /\ (ticks w <= ticks (snd (snd out)) <= S (ticks w))%nat
  /\ exists rows, csv_file (snd (snd out)) = (csv_file w ++ rows)%list
                  /\ (List.length rows <= 1)%nat.
Proof.
  assert (Same : salinity self = salinity self
                 /\ (ticks w <= ticks w <= S (ticks w))%nat
                 /\ exists rows, csv_file w = (csv_file w ++ rows)%list
                                 /\ (List.length rows <= 1)%nat).
  { split; [reflexivity|]. split; [lia|].
    exists []. rewrite app_nil_r. split; [reflexivity|cbn; lia]. }
  unfold on_puwv3.
  destruct (parse_puwv3 line) as [parsed|]; [|exact Same].
  destruct (String.eqb (cmd_id parsed) "3" && PyStr.truthy (value parsed));
    [|exact Same].
  rewrite derive_metrics_unfold.
  destruct (float_of_string (value parsed)) as [temp|]; [|exact Same].
  destruct (float_of_string (prop_time parsed)) as [pt|]; [|exact Same].
  destruct (calculate_sound_velocity self temp None None) as [sv|e];
    [|exact Same].
  cbn zeta.
  destruct (calculate_horizontal_distance (calculate_slant_range pt sv)
              (0 E- 0)%py) as [hd|e]; [|exact Same].
  destruct (calculate_velocity_frame self
              (calculate_slant_range pt sv) (clock (ticks w))) as [V1 V2].
  destruct (float_of_string (signal_quality parsed)); cbn.
  - split; [exact V2|]. split; [lia|]. eexists. split; [reflexivity|cbn; lia].
  - split; [exact V2|]. split; [lia|].
    exists []. rewrite app_nil_r. split; [reflexivity|cbn; lia].
Qed.

(** What the polling loop leaves behind, whatever its outcome. *)
Lemma loop_effects (fuel : nat) :
  forall (full_command : string) (now : datetime) (timeout_count : nat)
         (additional : list string) (self : UwaveMonitor F) (w : World F)
         (r : result (list string)) (self' : UwaveMonitor F) (w' : World F),
    wait_for_puwv3_loop readline clock fuel full_command now timeout_count
      additional (self, w) = Some (r, (self', w')) ->
    ser self' = ser self
    /\ salinity self' = salinity self
    /\ written w' = written w
    /\ (reads w <= reads w')%nat
    /\ (ticks w <= ticks w' <= S (ticks w))%nat
    /\ (exists lines, log_file w' = (log_file w ++ lines)%list
                      /\ (List.length lines <= 1)%nat)
    /\ (exists rows, csv_file w' = (csv_file w ++ rows)%list
                     /\ (List.length rows <= 1)%nat).
Proof.
  induction fuel as [|fuel IH];
    intros full_command now tc additional self w r self' w' E; [discriminate|].
  rewrite loop_step in E.
  destruct (tc <? max_timeout)%nat.
  2:{ injection E as <- <- <-. repeat split; auto; try lia;
      exists []; rewrite app_nil_r; split; auto; cbn; lia. }
  cbn zeta in E.
  destruct (PyStr.truthy (line_at readline (reads w))) eqn:T.
  - destruct (is_reply (line_at readline (reads w))) eqn:R.
    + pose proof (on_puwv3_cases clock full_command now
                    (line_at readline (reads w)) self (after_read w)) as C.
      pose proof (on_puwv3_effects full_command now
                    (line_at readline (reads w)) self (after_read w)) as D.
      cbn zeta in C, D.
      destruct (on_puwv3 clock full_command now (line_at readline (reads w))
                  (self, after_read w)) as [[u|e] [self1 w1]];
        cbn [fst snd] in C, D;
        destruct C as (C1 & C2 & C3 & C4 & _);
        destruct D as (D1 & D2 & D3);
        injection E as <- <- <-;
        cbn [reads written ticks log_file csv_file append_log after_read] in *.
      * repeat split; auto; try lia.
        exists [RX now (line_at readline (reads w))]. rewrite C3.
        split; [reflexivity|cbn; lia].
      * repeat split; auto; try lia.
        exists []. rewrite app_nil_r, C3. split; [reflexivity|cbn; lia].
    + apply IH in E. cbn [reads written ticks log_file csv_file after_read] in E.
      destruct E as (E1 & E2 & E3 & E4 & E5 & E6 & E7).
      repeat split; auto; lia.
  - apply IH in E. cbn [reads written ticks log_file csv_file after_read] in E.
    destruct E as (E1 & E2 & E3 & E4 & E5 & E6 & E7).
    repeat split; auto; lia.
Qed.

Lemma format_command_nonempty (command : string) :
  PyStr.truthy (format_command command true) = true.
Proof.
  unfold format_command. cbn [negb orb].
  destruct command as [|c command]; [reflexivity|].
  destruct (PyStr.contains "*" (String c command)); reflexivity.
Qed.

Lemma encode_ascii_ok (text bytes : string) :
  PyStr.encode_ascii text = Ok bytes -> bytes = text /\ is_ascii text = true.
Proof.
  revert bytes. induction text as [|c text IH]; intros bytes; simpl.
  - intros [= <-]. auto.
  - destruct (N_of_ascii c <? 128)%N; [|discriminate].
    destruct (PyStr.encode_ascii text) as [b|]; [|discriminate].
    intros [= <-]. destruct (IH b eq_refl) as [-> ->]. auto.
Qed.

(** What one call of [send_command] leaves behind, whatever its
    outcome. *)
Lemma send_command_frame (fuel : nat) (command : string)
  (wait_for_response wait_for_puwv3 : bool)
  (self self' : UwaveMonitor F) (w w' : World F)
  (r : result (option string * list string)) :
  send_command readline clock fuel command wait_for_response wait_for_puwv3
    (self, w) = Some (r, (self', w')) ->
  ser self' = ser self
  /\ salinity self' = salinity self
  /\ (written w' = written w
      \/ (written w' = (written w ++ [(format_command command true ++ newline)%string])%list
          /\ is_ascii (format_command command true) = true))
  /\ (reads w <= reads w')%nat
  /\ (ticks w <= ticks w' <= 2 + ticks w)%nat
  /\ (exists lines, log_file w' = (log_file w ++ lines)%list
                    /\ (List.length lines <= 3)%nat)
  /\ (exists rows, csv_file w' = (csv_file w ++ rows)%list
                   /\ (List.length rows <= 1)%nat).
Proof.
  intros E. rewrite send_command_unfold in E.
  assert (Nil : forall (A : Type) (l : list A) n,
            exists x, l = (l ++ x)%list /\ (List.length x <= n)%nat).
  { intros A l n. exists []. rewrite app_nil_r. split; [reflexivity|cbn; lia]. }
  destruct (port_closed self).
  { injection E as <- <- <-. repeat split; auto; try lia. }
  cbn zeta in E.
  destruct (PyStr.encode_ascii _) as [bytes|e] eqn:Enc.
  2:{ injection E as <- <- <-. repeat split; auto; try lia. }
  apply encode_ascii_ok in Enc as [-> Asc].
  assert (Asc' : is_ascii (format_command command true) = true).
  { clear E. induction (format_command command true) as [|c t IH];
      [reflexivity|].
    simpl in Asc. apply andb_true_iff in Asc as [A1 A2].
    simpl. rewrite A1. apply IH, A2. }
  set (full := format_command command true) in *.
  set (now := clock (ticks w)) in *.
  set (line := line_at readline (reads w)) in *.
  set (w1 := after_send (full ++ newline) w) in *.
  assert (P : forall w2, w2 = after_primary full now line w1 ->
            written w2 = (written w ++ [(full ++ newline)%string])%list
            /\ reads w2 = S (reads w) /\ ticks w2 = S (ticks w)
            /\ csv_file w2 = csv_file w
            /\ exists lines, log_file w2 = (log_file w ++ lines)%list
                             /\ (List.length lines <= 2)%nat).
  { intros w2 ->. unfold after_primary, w1.
    destruct (PyStr.truthy line), (PyStr.truthy full); cbn;
      repeat split; auto.
    - exists [TX now full; RX now line]. rewrite <- app_assoc.
      split; [reflexivity|cbn; lia].
    - exists [RX now line]. split; [reflexivity|cbn; lia]. }
  destruct wait_for_response.
  2:{ injection E as <- <- <-. cbn. repeat split; auto; lia. }
  destruct (P _ eq_refl) as (P1 & P2 & P3 & P4 & (lines & P5 & P6)).
  destruct (wait_for_puwv3 && PyStr.startswith "$PUWV2" command).
  - destruct (wait_for_puwv3_loop _ _ _ _ _ _ _ _) as [[r0 [self0 w0]]|] eqn:L;
      [|discriminate].
    apply loop_effects in L.
    destruct L as (L1 & L2 & L3 & L4 & L5 & (l2 & L6 & L7) & (rows & L8 & L9)).
    assert (self' = self0 /\ w' = w0) as [-> ->].
    { destruct r0; injection E as <- <- <-; auto. }
    rewrite L3, P1, L6, P5, L8, P4.
    repeat split; auto; try lia.
    + exists (lines ++ l2)%list. rewrite <- app_assoc.
      split; [reflexivity|rewrite length_app; lia].
    + exists rows. auto.
  - injection E as <- <- <-. rewrite P1, P4, P5.
    repeat split; auto; try lia.
    exists lines. split; [reflexivity|lia].
Qed.

(** X12: whatever its outcome, one call of [send_command] only ever adds
    to what is there: at most one line written to the port (the framed
    command and a newline, ASCII only), at most three lines appended to the
    log, at most one row appended to the CSV file and at most two readings
    of the clock; it never changes the serial handle or the salinity. *)
Theorem send_command_effects (fuel : nat) (command : string)
  (wait_for_response wait_for_puwv3 : bool)
  (self self' : UwaveMonitor F) (w w' : World F)
  (r : result (option string * list string)) :
  send_command readline clock fuel command wait_for_response wait_for_puwv3
    (self, w) = Some (r, (self', w')) ->
  ser self' = ser self
  /\ salinity self' = salinity self
  /\ (written w' = written w
      \/ (written w' = (written w ++ [(format_command command true ++ newline)%string])%list
          /\ is_ascii (format_command command true) = true))
  /\ (reads w <= reads w')%nat
  /\ (ticks w <= ticks w' <= 2 + ticks w)%nat
  /\ (exists lines, log_file w' = (log_file w ++ lines)%list
                    /\ (List.length lines <= 3)%nat)
  /\ (exists rows, csv_file w' = (csv_file w ++ rows)%list
                   /\ (List.length rows <= 1)%nat).
Proof. apply send_command_frame. Qed.

Lemma is_ascii_app (s t : string) :
  is_ascii (s ++ t) = is_ascii s && is_ascii t.
Proof.
  induction s as [|c s IH]; simpl; [reflexivity|].
  rewrite IH, andb_assoc. reflexivity.
Qed.

Lemma two_digits_ascii : forallb (fun x => is_ascii (two_digits x))
                                 (map N.of_nat (seq 0 256)) = true.
Proof. vm_compute. reflexivity. Qed.

Lemma checksum_ascii (sentence : string) :
  is_ascii (calculate_nmea_checksum sentence) = true.
Proof.
  unfold calculate_nmea_checksum.
  assert (B : (xor_ords 0 (checksum_part sentence) < 256)%N)
    by (apply xor_ords_byte; reflexivity).
  destruct (format_02X_byte B) as (-> & _).
  pose proof two_digits_ascii as A. rewrite forallb_forall in A. apply A.
  apply in_map_iff. exists (N.to_nat (xor_ords 0 (checksum_part sentence))).
  split; [apply N2Nat.id|]. apply in_seq. lia.
Qed.

Lemma encode_ascii_id (text : string) :
  is_ascii text = true -> PyStr.encode_ascii text = Ok text.
Proof.
  induction text as [|c text IH]; simpl; [reflexivity|].
  intros A. apply andb_true_iff in A as [A1 A2].
  rewrite A1, (IH A2). reflexivity.
Qed.

(** An ASCII command is framed and encoded without error. *)
Lemma encode_framed (command : string) :
  is_ascii command = true ->
  PyStr.encode_ascii (format_command command true ++ newline)
  = Ok (format_command command true ++ newline).
Proof.
  intros A. apply encode_ascii_id. rewrite is_ascii_app.
  apply andb_true_iff. split; [|reflexivity].
  unfold format_command. cbn [negb orb].
  destruct (PyStr.contains "*" command); [exact A|].
  rewrite !is_ascii_app, A, checksum_ascii. reflexivity.
Qed.

(** X13: an ASCII command that needs no follow-up (the flag is off, or the
    command does not address a remote station) is one write, one clock
    reading and one read, at any fuel and without ever raising; the monitor
    and the CSV file are untouched.  The command is logged only together
    with a received line: when the read times out nothing is logged at
    all.  With [wait_for_response] off nothing is read or logged either,
    even for a remote command with the follow-up flag on. *)
Theorem exchange_without_followup (fuel : nat) (command : string)
  (wait_for_puwv3 : bool) (self : UwaveMonitor F) (w : World F) :
  port_closed self = false ->
  is_ascii command = true ->
  let full := format_command command true in
  let now := clock (ticks w) in
  let line := line_at readline (reads w) in
  (wait_for_puwv3 && PyStr.startswith "$PUWV2" command = false ->
   send_command readline clock fuel command true wait_for_puwv3 (self, w)
   = Some (Ok (main_response_of line, []),
           (self,
            {| reads := S (reads w);
               written := (written w ++ [(full ++ newline)%string])%list;
               ticks := S (ticks w);
               log_file := (log_file w
                            ++ if PyStr.truthy line
                               then [TX now full; RX now line] else [])%list;
               csv_file := csv_file w |})))
  /\ send_command readline clock fuel command false wait_for_puwv3 (self, w)
     = Some (Ok (None, []),
             (self,
              {| reads := reads w;
                 written := (written w ++ [(full ++ newline)%string])%list;
                 ticks := S (ticks w);
                 log_file := log_file w;
                 csv_file := csv_file w |})).
Proof.
  intros Open Asc. cbn zeta. split.
  - intros Simple. rewrite send_command_unfold, Open. cbn zeta.
    rewrite (encode_framed _ Asc), Simple. do 3 f_equal.
    unfold after_primary. rewrite format_command_nonempty.
    destruct (PyStr.truthy (line_at readline (reads w)));
      unfold append_log, after_read, after_send; cbn.
    + rewrite <- app_assoc. reflexivity.
    + rewrite app_nil_r. reflexivity.
  - rewrite send_command_unfold, Open. cbn zeta.
    rewrite (encode_framed _ Asc). reflexivity.
Qed.

Lemma is_ascii_decode (bytes : string) :
  is_ascii (PyStr.decode_ascii_ignore bytes) = true.
Proof.
  induction bytes as [|c bytes IH]; simpl; [reflexivity|].
  destruct (N_of_ascii c <? 128)%N eqn:E; [|exact IH].
  simpl. rewrite E, IH. reflexivity.
Qed.

Lemma is_ascii_strip (s : string) :
  is_ascii s = true -> is_ascii (PyStr.strip s) = true.
Proof.
  intros A. unfold PyStr.strip.
  assert (L : is_ascii (PyStr.lstrip_space s) = true).
  { induction s as [|c s IH]; simpl; [reflexivity|].
    simpl in A. apply andb_true_iff in A as [A1 A2].
    destruct (PyStr.is_space c); [apply IH, A2|].
    simpl. rewrite A1, A2. reflexivity. }
  clear A. induction (PyStr.lstrip_space s) as [|c t IH]; simpl; [reflexivity|].
  simpl in L. apply andb_true_iff in L as [L1 L2]. specialize (IH L2).
  destruct (PyStr.rstrip_space t).
  - destruct (PyStr.is_space c); [reflexivity|]. simpl. rewrite L1. reflexivity.
  - simpl in *. rewrite L1, IH. reflexivity.
Qed.

Lemma line_at_ascii (k : nat) : is_ascii (line_at readline k) = true.
Proof. apply is_ascii_strip, is_ascii_decode. Qed.

Lemma Forall_removelast (A : Type) (P : A -> Prop) (l : list A) :
  Forall P l -> Forall P (removelast l).
Proof.
  induction 1 as [|x l Px Pl IH]; [constructor|].
  cbn. destruct l; [constructor|]. constructor; assumption.
Qed.

(** The responses the polling loop returns: non-empty ASCII lines, none
    of which but the last is a remote response. *)
Lemma loop_shape (fuel : nat) :
  forall (full_command : string) (now : datetime) (timeout_count : nat)
         (additional responses : list string) (s s' : state),
    wait_for_puwv3_loop readline clock fuel full_command now timeout_count
      additional s = Some (Ok responses, s') ->
    Forall (fun l => PyStr.truthy l = true /\ is_ascii l = true
                     /\ is_reply l = false) additional ->
    Forall (fun l => PyStr.truthy l = true /\ is_ascii l = true) responses
    /\ Forall (fun l => is_reply l = false) (removelast responses).
Proof.
  induction fuel as [|fuel IH];
    intros full_command now tc additional responses [self w] s' E Inv;
    [discriminate|].
  assert (Weak : Forall (fun l => PyStr.truthy l = true /\ is_ascii l = true)
                        additional
                 /\ Forall (fun l => is_reply l = false) additional).
  { split; eapply Forall_impl; try exact Inv; cbn; intuition. }
  rewrite loop_step in E.
  destruct (tc <? max_timeout)%nat.
  2:{ injection E as <- <-. destruct Weak as [W1 W2].
      split; [exact W1|apply Forall_removelast, W2]. }
  cbn zeta in E.
  destruct (PyStr.truthy (line_at readline (reads w))) eqn:T.
  - destruct (is_reply (line_at readline (reads w))) eqn:R.
    + destruct (on_puwv3 clock full_command now (line_at readline (reads w))
                  (self, after_read w)) as [[u|e] s1]; [|discriminate].
      injection E as <- <-. destruct Weak as [W1 W2]. split.
      * apply Forall_app. split; [exact W1|].
        constructor; [|constructor]. split; [exact T|apply line_at_ascii].
      * rewrite removelast_last. exact W2.
    + apply IH in E; [exact E|].
      apply Forall_app. split; [exact Inv|].
      constructor; [|constructor].
      split; [exact T|]. split; [apply line_at_ascii|exact R].
  - apply IH in E; [exact E|exact Inv].
Qed.

(** X14: the lines [send_command] returns are never empty: the primary
    response is [None] rather than an empty string, and every additional
    response is a non-empty ASCII line.  Only the last additional response
    can be a remote response, and there are no additional responses at
    all unless the follow-up phase was asked for on a remote command. *)
Theorem responses_are_nonempty_lines (fuel : nat) (command : string)
  (wait_for_response wait_for_puwv3 : bool) (s s' : state)
  (main_response : option string) (additional_responses : list string) :
  send_command readline clock fuel command wait_for_response wait_for_puwv3 s
  = Some (Ok (main_response, additional_responses), s') ->
  (forall line, main_response = Some line ->
                PyStr.truthy line = true /\ is_ascii line = true)
  /\ Forall (fun l => PyStr.truthy l = true /\ is_ascii l = true)
            additional_responses
  /\ Forall (fun l => is_reply l = false) (removelast additional_responses)
  /\ (wait_for_response && wait_for_puwv3
      && PyStr.startswith "$PUWV2" command = false ->
      additional_responses = []).
Proof.
  destruct s as [self w]. intros E. rewrite send_command_unfold in E.
  assert (Main : forall line,
            main_response_of (line_at readline (reads w)) = Some line ->
            PyStr.truthy line = true /\ is_ascii line = true).
  { intros line. unfold main_response_of.
    destruct (PyStr.truthy (line_at readline (reads w))) eqn:T; [|discriminate].
    intros [= <-]. split; [exact T|apply line_at_ascii]. }
  destruct (port_closed self).
  { injection E as <- <- <-.
    split; [discriminate|]. repeat split; constructor. }
  cbn zeta in E.
  destruct (PyStr.encode_ascii _) as [bytes|e]; [|discriminate].
  destruct wait_for_response.
  2:{ injection E as <- <- <-.
      split; [discriminate|]. repeat split; constructor. }
  cbn [andb].
  destruct (wait_for_puwv3 && PyStr.startswith "$PUWV2" command).
  - destruct (wait_for_puwv3_loop _ _ _ _ _ _ _ _) as [[[additional|e] s0]|] eqn:L;
      try discriminate.
    injection E as <- <- <-.
    apply loop_shape in L; [|constructor]. destruct L as [L1 L2].
    split; [exact Main|]. split; [exact L1|]. split; [exact L2|discriminate].
  - injection E as <- <- <-.
    split; [exact Main|]. repeat split; constructor.
Qed.

(** X15: a remote request whose first remote response is a temperature
    reading with three convertible numbers, a sound velocity and a
    horizontal distance returns normally, with the raw sentence last among
    the additional responses, and writes exactly one CSV row.  The row and
    the log entry carry the time the command was sent, while the velocity,
    and the range history the monitor keeps, use a second reading of the
    clock made when the response is processed. *)
Theorem temperature_reading_recorded (n fuel : nat) (command : string)
  (self : UwaveMonitor F) (w : World F) (line : string) (parsed : puwv3)
  (temp pt sq sv hd : F) :
  port_closed self = false ->
  is_ascii command = true ->
  PyStr.startswith "$PUWV2" command = true ->
  (forall k, (k < n)%nat ->
             is_reply (line_at readline (S (reads w) + k)) = false) ->
  (empty_reads readline (S (reads w)) n < max_timeout)%nat ->
  line = line_at readline (S (reads w) + n) ->
  is_reply line = true ->
  parse_puwv3 line = Some parsed ->
  cmd_id parsed = "3" ->
  value parsed <> "" ->
  float_of_string (value parsed) = Some temp ->
  float_of_string (prop_time parsed) = Some pt ->
  float_of_string (signal_quality parsed) = Some sq ->
  calculate_sound_velocity self temp None None = Ok sv ->
  calculate_horizontal_distance (calculate_slant_range pt sv) (0 E- 0)%py
  = Ok hd ->
  let full := format_command command true in
  let now := clock (ticks w) in
  let primary := line_at readline (reads w) in
  let slant := calculate_slant_range pt sv in
  let vs := calculate_velocity self slant (clock (S (ticks w))) in
  send_command readline clock (n + S fuel) command true true (self, w)
  = Some (Ok (main_response_of primary,
              (collected readline (S (reads w)) n ++ [line])%list),
          (snd vs,
           {| reads := S (S (reads w) + n);
              written := (written w ++ [(full ++ newline)%string])%list;
              ticks := S (S (ticks w));
              log_file := (log_file w
                           ++ (if PyStr.truthy primary
                               then [TX now full; RX now primary] else [])
                           ++ [RX now line])%list;
              csv_file := (csv_file w
                           ++ [{| row_timestamp := now;
                                  row_command := full;
                                  row_response_type := "PUWV3";
                                  row_remote_addr := remote_addr parsed;
                                  row_cmd_id := "3";
                                  row_prop_time := pt;
                                  row_signal_quality := sq;
                                  row_value := temp;
                                  row_slant_range := slant;
                                  row_horiz_dist := hd;
                                  row_velocity := fst vs |}])%list |})).
Proof.
  intros Open Asc Remote Quiet Budget Hline Reply Parsed Cmd Val
         Temp Pt Sq Sv Hd.
  cbn zeta. rewrite send_command_unfold, Open. cbn zeta.
  rewrite (encode_framed _ Asc), Remote. cbn [andb].
  set (now := clock (ticks w)).
  set (full := format_command command true).
  set (w2 := after_primary full now (line_at readline (reads w))
               (after_send (full ++ newline) w)).
  assert (R2 : reads w2 = S (reads w)) by apply after_primary_reads.
  rewrite loop_skip; [|rewrite R2; exact Quiet|rewrite R2; exact Budget].
  rewrite loop_step.
  assert (Htc : (0 + empty_reads readline (reads w2) n <? max_timeout)%nat
                = true).
  { apply Nat.ltb_lt. rewrite R2. exact Budget. }
  rewrite Htc. cbn zeta. cbn [reads advance]. rewrite R2.
  replace (n + S (reads w))%nat with (S (reads w) + n)%nat by lia.
  rewrite <- Hline.
  rewrite (startswith_truthy "$PUWV3" line eq_refl Reply), Reply.
  unfold on_puwv3. rewrite Parsed, Cmd.
  assert (T : PyStr.truthy (value parsed) = true).
  { destruct (value parsed); [contradiction Val; reflexivity|reflexivity]. }
  rewrite T. cbn [String.eqb Ascii.eqb Bool.eqb andb].
  rewrite derive_metrics_unfold, Temp, Pt, Sv. cbn zeta. rewrite Hd, Sq.
  assert (T2 : ticks w2 = S (ticks w)).
  { unfold w2, after_primary, full.
    destruct (PyStr.truthy (line_at readline (reads w)));
      [rewrite format_command_nonempty|]; reflexivity. }
  cbn [ticks after_read advance fst snd]. rewrite T2, Cmd.
  do 3 f_equal.
  unfold append_log, append_csv, tick, after_read, advance.
  cbn [reads written ticks log_file csv_file]. rewrite R2, T2.
  unfold w2, after_primary.
  replace (PyStr.truthy full) with true
    by (symmetry; apply format_command_nonempty).
  destruct (PyStr.truthy (line_at readline (reads w)));
    unfold append_log, after_read, after_send;
    cbn [reads written ticks log_file csv_file app];
    f_equal; try lia; rewrite <- ?app_assoc; reflexivity.
Qed.

(** ** Queries built on [send_command]: proofs *)

Lemma after_primary_record (command : string) (now : datetime)
  (line bytes : string) (w : World F) :
  after_primary (format_command command true) now line (after_send bytes w)
  = {| reads := S (reads w);
       written := (written w ++ [bytes])%list;
       ticks := S (ticks w);
       log_file := (log_file w
                    ++ if PyStr.truthy line
                       then [TX now (format_command command true); RX now line]
                       else [])%list;
       csv_file := csv_file w |}.
Proof.
  unfold after_primary. rewrite format_command_nonempty.
  destruct (PyStr.truthy line); unfold append_log, after_read, after_send; cbn.
  - rewrite <- app_assoc. reflexivity.
  - rewrite app_nil_r. reflexivity.
Qed.





Lemma empty_reads_all_silent (n : nat) :
  forall from,
    (forall k, (from <= k)%nat -> line_at readline k = "") ->
    empty_reads readline from n = n /\ collected readline from n = [].
Proof.
  induction n as [|n IH]; intros from Silent; [auto|].
  cbn [empty_reads collected]. rewrite (Silent from (Nat.le_refl _)).
  cbn [PyStr.truthy].
  destruct (IH (S from)) as [-> ->]; [intros k Hk; apply Silent; lia|].
  auto.
Qed.

(** On a silent link the polling loop gives up after [max_timeout] reads,
    having changed nothing else. *)
Lemma loop_silent (fuel : nat) (full_command : string) (now : datetime)
  (additional : list string) (self : UwaveMonitor F) (w : World F) :
  (forall k, (reads w <= k)%nat -> line_at readline k = "") ->
  wait_for_puwv3_loop readline clock (max_timeout + S fuel) full_command now
    0 additional (self, w)
  = Some (Ok additional, (self, advance max_timeout w)).
Proof.
  intros Silent.
  destruct (@empty_reads_all_silent 4 (reads w) Silent) as [Em Co].
  change (max_timeout + S fuel)%nat with (4 + S (S fuel))%nat.
  rewrite loop_skip.
  - rewrite Em, Co, app_nil_r. rewrite loop_step. cbn zeta.
    change (0 + 4 <? max_timeout)%nat with true. cbn iota.
    rewrite (Silent (reads (advance 4 w))); [|cbn; lia].
    cbn [PyStr.truthy]. rewrite loop_step. reflexivity.
  - intros k _. rewrite Silent; [reflexivity|lia].
  - rewrite Em. unfold max_timeout. lia.
Qed.


Lemma is_ascii_string_of_uint (d : Decimal.uint) :
  is_ascii (NilZero.string_of_uint d) = true.
Proof.
  assert (E : forall d, is_ascii (NilEmpty.string_of_uint d) = true).
  { clear d. intros d.
    induction d as [|d IH|d IH|d IH|d IH|d IH|d IH|d IH|d IH|d IH|d IH];
      [reflexivity|..];
      cbn [NilEmpty.string_of_uint is_ascii]; rewrite IH; reflexivity. }
  destruct d; [reflexivity|..]; apply E.
Qed.

Lemma is_ascii_str_of_int (n : Z) : is_ascii (str_of_int n) = true.
Proof.
  unfold str_of_int, NilZero.string_of_int.
  destruct (Z.to_int n); [|simpl]; apply is_ascii_string_of_uint.
Qed.

(** The first field of a sentence that starts with a tag without comma or
    delimiter starts with that tag. *)
Lemma first_field_tag (tag line : string) :
  PyStr.contains "*" tag = false ->
  PyStr.contains "," tag = false ->
  PyStr.startswith tag line = true ->
  exists t, nth 0 (parts_of line) "" = tag ++ t.
Proof.
  intros T1 T2 Tag. destruct (startswith_app _ _ Tag) as [rest ->].
  unfold parts_of.
  destruct (split_head_prefix "*" tag rest T1) as [t1 ->].
  destruct (split_head_prefix "," tag t1 T2) as [t2 H2].
  destruct (split_cons "," (tag ++ t1)) as (x & xs & Sp).
  rewrite Sp in *. cbn [hd nth] in *. eauto.
Qed.

(** X16: [get_device_info] on an open port is one exchange without polling:
    it sends [$PUWV?,0*27], reads one line and never raises.  It returns a
    record exactly when that line is tagged [$PUWV!], has thirteen fields
    and carries a salinity that [float] accepts: the record holds the
    fields as received and the monitor's salinity becomes that number.
    In every other case it returns [None] and the monitor is as before. *)
Theorem get_device_info_spec (fuel : nat) (self : UwaveMonitor F) (w : World F) :
  port_closed self = false ->
  let line := line_at readline (reads w) in
  let now := clock (ticks w) in
  let parts := parts_of line in
  let answer :=
    if PyStr.startswith "$PUWV!" line && (13 <=? List.length parts)%nat
    then match float_of_string (nth 10 parts "") with
         | Some s =>
             (set_salinity self s,
              Some {| b_cmd_type := "$PUWV";
                      serial_number := nth 1 parts "";
                      system_moniker := nth 2 parts "";
                      system_version := nth 3 parts "";
                      core_moniker := nth 4 parts "";
                      core_version := nth 5 parts "";
                      baudrate := nth 6 parts "";
                      rx_channel := nth 7 parts "";
                      tx_channel := nth 8 parts "";
                      max_channels := nth 9 parts "";
                      b_salinity := nth 10 parts "";
                      has_pts := nth 11 parts "";
                      cmd_mode := nth 12 parts "" |})
         | None => (self, None)
         end
    else (self, None) in
  get_device_info readline clock fuel (self, w)
  = Some (Ok (snd answer),
          (fst answer,
           {| reads := S (reads w);
              written := (written w ++ [("$PUWV?,0*27" ++ newline)%string])%list;
              ticks := S (ticks w);
              log_file := (log_file w
                           ++ if PyStr.truthy line
                              then [TX now "$PUWV?,0*27"; RX now line]
                              else [])%list;
              csv_file := csv_file w |})).
Proof.
  intros Open. cbn zeta.
  unfold get_device_info. rewrite send_command_unfold, Open. cbn zeta.
  rewrite (encode_framed "$PUWV?,0" eq_refl), after_primary_record.
  change (format_command "$PUWV?,0" true) with "$PUWV?,0*27".
  unfold main_response_of.
  destruct (PyStr.truthy (line_at readline (reads w))) eqn:T.
  - cbn [andb given]. rewrite T. cbn [andb].
    destruct (PyStr.startswith "$PUWV!" (line_at readline (reads w))) eqn:Tag;
      [|reflexivity].
    cbn [andb]. rewrite parse_puwv_bang_fields. cbn zeta.
    rewrite Nat.leb_antisym.
    destruct (List.length (parts_of (line_at readline (reads w))) <? 13)%nat;
      [reflexivity|]. cbn [negb].
    destruct (float_of_string _); [|reflexivity].
    destruct (@first_field_tag "$PUWV!" _ eq_refl eq_refl Tag) as [t ->].
    reflexivity.
  - rewrite (not_truthy_empty _ T). reflexivity.
Qed.

(** X17: [get_packet_mode_settings] on an open port is one exchange without
    polling: it sends [$PUWVD,0*5C], reads one line and never raises.  It
    returns a record exactly when that line is tagged [$PUWVE] and has
    three fields, holding fields 1 and 2 as received; the monitor is never
    changed. *)
Theorem get_packet_mode_settings_spec (fuel : nat) (self : UwaveMonitor F)
  (w : World F) :
  port_closed self = false ->
  let line := line_at readline (reads w) in
  let now := clock (ticks w) in
  get_packet_mode_settings readline clock fuel (self, w)
  = Some (Ok (if PyStr.startswith "$PUWVE" line
                 && (3 <=? List.length (parts_of line))%nat
              then Some {| e_cmd_type := "$PUWV";
                           is_pt_mode := nth 1 (parts_of line) "";
                           pt_local_address := nth 2 (parts_of line) "" |}
              else None),
          (self,
           {| reads := S (reads w);
              written := (written w ++ [("$PUWVD,0*5C" ++ newline)%string])%list;
              ticks := S (ticks w);
              log_file := (log_file w
                           ++ if PyStr.truthy line
                              then [TX now "$PUWVD,0*5C"; RX now line]
                              else [])%list;
              csv_file := csv_file w |})).
Proof.
  intros Open. cbn zeta.
  unfold get_packet_mode_settings. rewrite send_command_unfold, Open. cbn zeta.
  rewrite (encode_framed "$PUWVD,0" eq_refl), after_primary_record.
  change (format_command "$PUWVD,0" true) with "$PUWVD,0*5C".
  unfold main_response_of.
  destruct (PyStr.truthy (line_at readline (reads w))) eqn:T.
  - cbn [andb given]. rewrite T. cbn [andb].
    destruct (PyStr.startswith "$PUWVE" (line_at readline (reads w))) eqn:Tag;
      [|reflexivity].
    cbn [andb]. do 3 f_equal.
    unfold parse_puwve, parse_puwve_body. rewrite fields_parts_of.
    destruct (startswith_app _ _ Tag) as [rest R].
    assert (Head : exists t, nth 0 (parts_of (line_at readline (reads w))) ""
                             = "$PUWVE" ++ t).
    { rewrite R. unfold parts_of.
      destruct (split_head_prefix "*" "$PUWVE" rest eq_refl) as [t1 ->].
      destruct (split_head_prefix "," "$PUWVE" t1 eq_refl) as [t2 H2].
      destruct (split_cons "," ("$PUWVE" ++ t1)) as (x & xs & Sp).
      rewrite Sp in *. cbn [hd nth] in *. eauto. }
    destruct Head as [t Head]. revert Head.
    generalize (parts_of (line_at readline (reads w))). intros parts Head.
    destruct parts as [|p0 [|p1 [|p2 parts]]]; try reflexivity.
    cbn [nth] in Head. subst p0. reflexivity.
  - rewrite (not_truthy_empty _ T). reflexivity.
Qed.

(** X18: a remote request that nothing answers: [get_remote_data] sends the
    framed request, reads once for the primary response and then polls
    until [max_timeout] reads have come back empty: six reads in all.  It
    returns the empty list, and neither the log nor the CSV file records
    that the request was made. *)
Theorem get_remote_data_unanswered (fuel : nat) (remote_cmd_id : Z)
  (self : UwaveMonitor F) (w : World F) :
  port_closed self = false ->
  (forall k, (reads w <= k)%nat -> line_at readline k = "") ->
  (max_timeout + 1 <= fuel)%nat ->
  get_remote_data readline clock fuel remote_cmd_id (self, w)
  = Some (Ok [],
          (self,
           {| reads := 6 + reads w;
              written := (written w
                          ++ [(format_command
                                 ("$PUWV2,0,0," ++ str_of_int remote_cmd_id) true
                               ++ newline)%string])%list;
              ticks := S (ticks w);
              log_file := log_file w;
              csv_file := csv_file w |})).
Proof.
  intros Open Silent Fuel.
  replace fuel with (max_timeout + S (fuel - max_timeout - 1))%nat by lia.
  unfold get_remote_data. rewrite send_command_unfold, Open. cbn zeta.
  assert (Asc : is_ascii ("$PUWV2,0,0," ++ str_of_int remote_cmd_id) = true).
  { rewrite is_ascii_app, is_ascii_str_of_int. reflexivity. }
  rewrite (encode_framed _ Asc), after_primary_record.
  rewrite (Silent (reads w) (Nat.le_refl _)).
  cbn [PyStr.truthy andb]. rewrite app_nil_r.
  change (PyStr.startswith "$PUWV2"
            ("$PUWV2,0,0," ++ str_of_int remote_cmd_id)) with true.
  cbn iota. rewrite loop_silent; [reflexivity|].
  intros k Hk. apply Silent. cbn [reads] in Hk. lia.
Qed.



End ExchangeEffects.

(** ** Connection management: proofs *)

Lemma startswith_self_app (p s : string) : PyStr.startswith p (p ++ s) = true.
Proof.
  unfold PyStr.startswith.
  induction p as [|c p IH]; simpl; [destruct s; reflexivity|].
  destruct (ascii_dec c c) as [_|N]; [exact IH|contradiction N; reflexivity].
Qed.

(** [str_in] is Python's [in] on strings: [needle] occurs somewhere in
    [hay]. *)
Lemma str_in_spec (needle hay : string) :
  str_in needle hay = true <-> exists a b, hay = (a ++ needle ++ b)%string.
Proof.
  split.
  - induction hay as [|c hay IH]; cbn [str_in]; intros E;
      apply orb_true_iff in E as [E|E].
    + destruct (startswith_app _ _ E) as [rest ->]. exists "", rest. reflexivity.
    + discriminate.
    + destruct (startswith_app _ _ E) as [rest ->]. exists "", rest. reflexivity.
    + destruct (IH E) as (a & b & ->). exists (String c a), b. reflexivity.
  - intros (a & b & ->). induction a as [|c a IH].
    + cbn [append]. destruct (needle ++ b)%string eqn:E; cbn [str_in];
        rewrite <- E, startswith_self_app; reflexivity.
    + cbn [append str_in]. rewrite IH. apply orb_true_r.
Qed.

Lemma mentions_usb_dec (p : port_info) :
  str_in "USB" (description p) = true <-> mentions_usb p.
Proof. apply str_in_spec. Qed.

Section ConnectionProofs.

Context {F : Type}.

Variable comports : list port_info.
Variable serial_opens : string -> bool.

Lemma given_some (o : option string) :
  given o = true -> exists name, o = Some name /\ PyStr.truthy name = true.
Proof. destruct o as [name|]; [eauto|discriminate]. Qed.

(** The port one attempt settled on is the port the next attempt without
    argument settles on. *)
Lemma select_port_retry (self : Session F) (port_arg : option string)
  (name : string) (m : UwaveMonitor F) :
  select_port comports self port_arg = Some name ->
  select_port comports {| monitor := m; port := Some name |} None = Some name.
Proof.
  unfold select_port. cbn [given port].
  destruct (PyStr.truthy name) eqn:T; [reflexivity|]. cbn [negb].
  destruct (given port_arg) eqn:G.
  { destruct (given_some _ G) as (n & -> & Tn). intros [= ->]. congruence. }
  destruct (given (port self)) eqn:G'; cbn [negb]; [|auto].
  destruct (given_some _ G') as (n & -> & Tn). intros [= ->]. congruence.
Qed.

(** X20: which port [connect] uses and what it leaves behind.  A non-empty
    argument wins and is remembered, whether or not the port opens;
    without one the remembered port is used; an empty string counts as no
    argument.  On success the monitor holds an open handle on a port that
    opened; on failure the handle is the one it had, so an earlier
    connection stays in use.  The range history and the salinity are never
    touched.  Once a non-empty port name is stored, every later call
    without argument tries that port again, whatever the system lists by
    then, and succeeds exactly if the port opens at that moment. *)
Theorem connect_spec (self : Session F) (port_arg : option string) :
  let out := connect comports serial_opens self port_arg in
  (given port_arg = true -> port (snd out) = port_arg)
  /\ (given port_arg = false -> given (port self) = true ->
      port (snd out) = port self)
  /\ (fst out = true ->
      ser (monitor (snd out)) = Some {| is_open := true |}
      /\ exists name, port (snd out) = Some name /\ serial_opens name = true)
  /\ (fst out = false -> ser (monitor (snd out)) = ser (monitor self))
  /\ last_range (monitor (snd out)) = last_range (monitor self)
  /\ last_range_time (monitor (snd out)) = last_range_time (monitor self)
  /\ salinity (monitor (snd out)) = salinity (monitor self)
  /\ connect comports serial_opens self (Some "")
     = connect comports serial_opens self None
  /\ (forall (comports' : list port_info) (serial_opens' : string -> bool)
             (name : string),
        port (snd out) = Some name ->
        PyStr.truthy name = true ->
        connect comports' serial_opens' (snd out) None
        = if serial_opens' name
          then (true,
                {| monitor := set_ser (monitor (snd out))
                                (Some {| is_open := true |});
                   port := Some name |})
          else (false, snd out)).
Proof.
  assert (Later : forall (s : Session F) (comports' : list port_info)
                         (serial_opens' : string -> bool) (name : string),
            port s = Some name ->
            PyStr.truthy name = true ->
            connect comports' serial_opens' s None
            = if serial_opens' name
              then (true,
                    {| monitor := set_ser (monitor s) (Some {| is_open := true |});
                       port := Some name |})
              else (false, s)).
  { intros [m p] comports' serial_opens' name E T. cbn [port] in E. subst p.
    unfold connect, select_port. cbn [given port monitor]. rewrite T.
    cbn [negb]. reflexivity. }
  cbn zeta. unfold connect.
  destruct (select_port comports self port_arg) as [name|] eqn:Sel.
  - pose proof (fun m => @select_port_retry self port_arg name m Sel) as Retry.
    assert (P1 : given port_arg = true -> Some name = port_arg).
    { intros G. unfold select_port in Sel. rewrite G in Sel. congruence. }
    assert (P2 : given port_arg = false -> given (port self) = true ->
                 Some name = port self).
    { intros G G'. unfold select_port in Sel. rewrite G, G' in Sel.
      cbn [negb] in Sel. congruence. }
    destruct (serial_opens name) eqn:Op; cbn [fst snd];
      repeat split; auto; try discriminate;
      try (apply Later; assumption);
      try (exists name; split; [reflexivity|exact Op]).
  - assert (G : given port_arg = false).
    { unfold select_port in Sel. destruct (given port_arg) eqn:G; [|reflexivity].
      destruct (given_some _ G) as (n & -> & _). discriminate. }
    unfold select_port in Sel. rewrite G in Sel. cbn [fst snd].
    assert (Sel' : select_port comports self None = None) by exact Sel.
    rewrite Sel'.
    split; [intros G1; congruence|].
    split.
    { intros _ G'. rewrite G' in Sel. cbn [negb] in Sel.
      destruct (given_some _ G') as (n & E & _). congruence. }
    split; [discriminate|].
    repeat split; auto; try (apply Later; assumption).
    change (select_port comports self (Some ""))
      with (select_port comports self None).
    rewrite Sel'. reflexivity.
Qed.

Lemma filter_none (A : Type) (f : A -> bool) (l : list A) :
  (forall x, In x l -> f x = false) -> filter f l = [].
Proof.
  induction l as [|x l IH]; intros N; [reflexivity|]. cbn [filter].
  rewrite (N x (or_introl eq_refl)). apply IH. intros y Hy. apply N. right.
  exact Hy.
Qed.

Lemma not_mentions_usb (p : port_info) :
  ~ mentions_usb p -> str_in "USB" (description p) = false.
Proof.
  intros N. destruct (str_in "USB" (description p)) eqn:E; [|reflexivity].
  contradiction N. apply mentions_usb_dec. exact E.
Qed.

(** X21: with no port given and none remembered, [connect] tries the
    device of the first listed port whose description contains ["USB"]
    (capitals only), and remembers it whether or not it opens; when no
    description does, it fails without opening anything and the session is
    as before. *)
Theorem connect_auto_detects (self : Session F) (port_arg : option string) :
  given port_arg = false ->
  given (port self) = false ->
  let out := connect comports serial_opens self port_arg in
  ((forall p, In p comports -> ~ mentions_usb p) -> out = (false, self))
  /\ (forall before p after,
        comports = (before ++ p :: after)%list ->
        (forall q, In q before -> ~ mentions_usb q) ->
        mentions_usb p ->
        fst out = serial_opens (device p)
        /\ port (snd out) = Some (device p)).
Proof.
  intros G G'. cbn zeta. unfold connect, select_port. rewrite G, G'.
  cbn [negb]. unfold list_available_ports. split.
  - intros No. rewrite filter_none; [reflexivity|].
    intros p Hp. apply not_mentions_usb, No, Hp.
  - intros before p after -> No Yes.
    rewrite filter_app, (filter_none _ before); cbn [filter app].
    + apply mentions_usb_dec in Yes. rewrite Yes. cbn [map hd_error].
      destruct (serial_opens (device p)); auto.
    + intros q Hq. apply not_mentions_usb, No, Hq.
Qed.

End ConnectionProofs.




(** ** The command-line entry point: proofs *)

Section MainProofs.

Context {F : Type} `{PyArith F} `{PyParse F}.

Variable comports : list port_info.
Variable serial_opens : string -> bool.
Variable readline : nat -> string.
Variable clock : nat -> datetime.
Variable monitor_choice interval_text count_text : string.
Variable int_of_string : string -> option Z.


Section Silent.

Variable a : nat.
Variable fuel : nat.
Hypothesis Silent : forall k, (a <= k)%nat -> line_at readline k = "".
Hypothesis Fuel : (a + max_timeout + 2 <= fuel)%nat.







End Silent.


End MainProofs.

(** ** Instances on concrete runs *)

Lemma send_command_effects_witness :
  exists out,
    send_command (delivering ["$PUWV0,2,0*35"; "$PUWV3,0,3,0.01,20,20.0"])
      ticking 3 "$PUWV2,0,0,3" true true
      (connected (F := PrimFloat.float), empty_world)
    = Some out
    /\ ser (fst (snd out)) = ser (connected (F := PrimFloat.float))
    /\ salinity (fst (snd out)) = salinity (connected (F := PrimFloat.float)).
Proof.
  assert (E : send_command (delivering ["$PUWV0,2,0*35"; "$PUWV3,0,3,0.01,20,20.0"])
                ticking 3 "$PUWV2,0,0,3" true true
                (connected (F := PrimFloat.float), empty_world)
              = Some (Ok (Some "$PUWV0,2,0*35", ["$PUWV3,0,3,0.01,20,20.0"]),
                      ltac:(let v := eval vm_compute in
                              (match send_command
                                       (delivering ["$PUWV0,2,0*35";
                                                    "$PUWV3,0,3,0.01,20,20.0"])
                                       ticking 3 "$PUWV2,0,0,3" true true
                                       (connected (F := PrimFloat.float),
                                        empty_world) with
                               | Some (_, s) => s
                               | None => (connected, empty_world)
                               end) in exact v)))
    by (vm_compute; reflexivity).
  eexists. split; [exact E|].
  destruct (@send_command_effects PrimFloat.float _ _ _ _ _ _ _ _ _ _ _ _ _ E)
    as (A & B & _).
  split; [exact A|exact B].
Defined.

Lemma exchange_without_followup_witness :
  exists s',
    send_command (delivering ["$PUWVE,1,5*1D"]) ticking 0 "$PUWVD,0" true false
      (connected (F := PrimFloat.float), empty_world)
    = Some (Ok (Some "$PUWVE,1,5*1D", []), s').
Proof.
  eexists.
  apply (proj1 (@exchange_without_followup PrimFloat.float _ _
                  (delivering ["$PUWVE,1,5*1D"]) ticking 0 "$PUWVD,0" false
                  connected empty_world eq_refl eq_refl)).
  reflexivity.
Defined.

Lemma responses_are_nonempty_lines_witness :
  exists main_response additional_responses s',
    send_command (delivering ["$PUWV0,2,0*35"; "noise"; "$PUWV3,0,2,0.01,20,1.5"])
      ticking 4 "$PUWV2,0,0,2" true true
      (connected (F := PrimFloat.float), empty_world)
    = Some (Ok (main_response, additional_responses), s')
    /\ Forall (fun l => PyStr.truthy l = true /\ is_ascii l = true)
              additional_responses
    /\ Forall (fun l => is_reply l = false) (removelast additional_responses).
Proof.
  assert (E : send_command
                (delivering ["$PUWV0,2,0*35"; "noise"; "$PUWV3,0,2,0.01,20,1.5"])
                ticking 4 "$PUWV2,0,0,2" true true
                (connected (F := PrimFloat.float), empty_world)
              = Some (Ok (Some "$PUWV0,2,0*35",
                          ["noise"; "$PUWV3,0,2,0.01,20,1.5"]),
                      ltac:(let v := eval vm_compute in
                              (match send_command
                                       (delivering ["$PUWV0,2,0*35"; "noise";
                                                    "$PUWV3,0,2,0.01,20,1.5"])
                                       ticking 4 "$PUWV2,0,0,2" true true
                                       (connected (F := PrimFloat.float),
                                        empty_world) with
                               | Some (_, s) => s
                               | None => (connected, empty_world)
                               end) in exact v)))
    by (vm_compute; reflexivity).
  eexists. eexists. eexists. split; [exact E|].
  destruct (@responses_are_nonempty_lines PrimFloat.float _ _ _ _ _ _ _ _ _ _ _ _ E)
    as (_ & A & B & _).
  split; [exact A|exact B].
Defined.

Lemma get_packet_mode_settings_spec_witness :
  get_packet_mode_settings (delivering ["$PUWVE,1,5*1D"]) ticking 0
    (connected (F := PrimFloat.float), empty_world)
  = Some (Ok (Some {| e_cmd_type := "$PUWV";
                      is_pt_mode := "1";
                      pt_local_address := "5" |}),
          (connected,
           {| reads := 1;
              written := ["$PUWVD,0*5C" ++ newline];
              ticks := 1;
              log_file := [TX 0%Z "$PUWVD,0*5C"; RX 0%Z "$PUWVE,1,5*1D"];
              csv_file := [] |})).
Proof.
  exact (@get_packet_mode_settings_spec PrimFloat.float _ _
           (delivering ["$PUWVE,1,5*1D"]) ticking 0 connected empty_world
           eq_refl).
Defined.

Lemma get_device_info_spec_witness :
  exists info s',
    get_device_info
      (delivering ["$PUWV!,123,uWave,1.0,core,1.0,9600,0,0,28,35.0,1,0*11"])
      ticking 0 (connected (F := PrimFloat.float), empty_world)
    = Some (Ok (Some info), s')
    /\ serial_number info = "123".
Proof.
  pose proof (@get_device_info_spec PrimFloat.float _ _
                (delivering ["$PUWV!,123,uWave,1.0,core,1.0,9600,0,0,28,35.0,1,0*11"])
                ticking 0 connected empty_world eq_refl) as E.
  eexists. eexists. split; [exact E|]. reflexivity.
Defined.

Lemma get_remote_data_unanswered_witness :
  get_remote_data (delivering []) ticking 6 3
    (connected (F := PrimFloat.float), empty_world)
  = Some (Ok [],
          (connected,
           {| reads := 6;
              written := ["$PUWV2,0,0,3*29" ++ newline];
              ticks := 1;
              log_file := [];
              csv_file := [] |})).
Proof.
  apply (@get_remote_data_unanswered PrimFloat.float _ _ (delivering []) ticking
           6 3 connected empty_world).
  - reflexivity.
  - intros k _. destruct k; reflexivity.
  - unfold max_timeout. lia.
Defined.


Lemma connect_auto_detects_witness :
  fst (connect [ {| device := "/dev/ttyS0"; description := "n/a" |};
                 {| device := "/dev/ttyUSB0"; description := "USB Serial" |} ]
               (fun _ => true)
               {| monitor := init (F := PrimFloat.float); port := None |} None)
  = true
  /\ port (snd (connect
                  [ {| device := "/dev/ttyS0"; description := "n/a" |};
                    {| device := "/dev/ttyUSB0"; description := "USB Serial" |} ]
                  (fun _ => true)
                  {| monitor := init (F := PrimFloat.float); port := None |} None))
     = Some "/dev/ttyUSB0".
Proof.
  apply (proj2 (@connect_auto_detects PrimFloat.float
                  [ {| device := "/dev/ttyS0"; description := "n/a" |};
                    {| device := "/dev/ttyUSB0"; description := "USB Serial" |} ]
                  (fun _ => true)
                  {| monitor := init; port := None |} None eq_refl eq_refl)
               [ {| device := "/dev/ttyS0"; description := "n/a" |} ]
               {| device := "/dev/ttyUSB0"; description := "USB Serial" |}
               []).
  - reflexivity.
  - intros q [<-|[]] M. apply mentions_usb_dec in M. discriminate M.
  - exists "", " Serial". reflexivity.
Defined.

Lemma temperature_reading_recorded_witness :
  exists responses s',
    send_command (delivering ["$PUWV0,2,0*35"; "$PUWV3,0,3,0.01,20,20.0"])
      ticking (0 + 1) "$PUWV2,0,0,3" true true
      (connected (F := PrimFloat.float), empty_world)
    = Some (Ok (Some "$PUWV0,2,0*35", responses), s')
    /\ List.length (csv_file (snd s')) = 1%nat.
Proof.
  eexists. eexists. split.
  - eapply (@temperature_reading_recorded PrimFloat.float _ _
              (delivering ["$PUWV0,2,0*35"; "$PUWV3,0,3,0.01,20,20.0"]) ticking
              0 0 "$PUWV2,0,0,3" connected empty_world
              "$PUWV3,0,3,0.01,20,20.0"
              {| cmd_type := "$PUWV";
                 remote_addr := "0";
                 cmd_id := "3";
                 prop_time := "0.01";
                 signal_quality := "20";
                 value := "20.0";
                 azimuth := "" |}).
    + reflexivity.
    + reflexivity.
    + reflexivity.
    + intros k Hk. lia.
    + cbn. unfold max_timeout. lia.
    + reflexivity.
    + reflexivity.
    + reflexivity.
    + reflexivity.
    + discriminate.
    + vm_compute. reflexivity.
    + vm_compute. reflexivity.
    + vm_compute. reflexivity.
    + vm_compute. reflexivity.
    + vm_compute. reflexivity.
  - reflexivity.
Defined.
